(** * Quote generator service: a shallow embedding and its verified properties

    The development embeds [04-core-code/services/quote-generator-service.js]
    (class [QuoteGeneratorService]) in Rocq.  JavaScript values are modelled
    by a small universe [jsval]; Numbers are IEEE-754 binary64 values taken
    from the standard library's [SpecFloat]; strings are byte strings (the
    UTF-8 encoding of the JavaScript string); exceptions are an explicit
    completion type; regular expressions are a list of single-character
    atoms run by a backtracking matcher; the template data object is a
    finite map from keys to values.  Console logging is not modelled.

    A later revision of the same file moves the preparation of the template
    data into the calculation service and keeps [_populateTemplate],
    [_formatCustomerInfo], the two table generators and the assembly steps
    of [generateQuoteHtml] as they are here; the revision embedded below is
    the one that prepares the data itself.  Of the later revision the
    detail table is embedded as well ([Revised]): it takes the multiplier
    as it finds it. *)

From Stdlib Require Import ZArith NArith List String Ascii Bool Lia.
From Stdlib Require Import Floats.SpecFloat.
From Stdlib Require Import DecimalString DecimalN.
From stdpp Require Import gmap strings.

Open Scope string_scope.

(** String concatenation unfolds on a literal left operand. *)
Arguments String.append : simpl nomatch.

(* ===================================================================== *)
(** ** Strings *)
(* ===================================================================== *)

Module Str.

(** The double-quote character, kept as a named constant. *)
Definition dq : string := String (ascii_of_nat 34) EmptyString.

(** [q s] is [s] between double quotes, as in an HTML attribute value. *)
Definition q (s : string) : string := dq ++ s ++ dq.

Definition nl : ascii := ascii_of_nat 10.

Definition is_empty (s : string) : bool :=
  match s with EmptyString => true | String _ _ => false end.

Fixpoint drop (n : nat) (s : string) : string :=
  match n with
  | O => s
  | S n' => match s with EmptyString => EmptyString | String _ s' => drop n' s' end
  end.

Fixpoint take (n : nat) (s : string) : string :=
  match n with
  | O => EmptyString
  | S n' => match s with EmptyString => EmptyString | String c s' => String c (take n' s') end
  end.

Fixpoint starts_with (p s : string) : bool :=
  match p with
  | EmptyString => true
  | String a p' =>
      match s with
      | EmptyString => false
      | String b s' => Ascii.eqb a b && starts_with p' s'
      end
  end.

(** [String.prototype.includes] for a needle without astral characters. *)
Fixpoint includes (s needle : string) : bool :=
  starts_with needle s ||
  match s with
  | EmptyString => false
  | String _ s' => includes s' needle
  end.

(** Splits at the first occurrence of [needle]: text before, text after. *)
Fixpoint split_first (needle s : string) : option (string * string) :=
  if starts_with needle s then Some (EmptyString, drop (String.length needle) s)
  else match s with
       | EmptyString => None
       | String c s' =>
           match split_first needle s' with
           | Some (before, after) => Some (String c before, after)
           | None => None
           end
       end.

Fixpoint repeat (c : ascii) (n : nat) : string :=
  match n with O => EmptyString | S n' => String c (repeat c n') end.

Fixpoint forallb (p : ascii -> bool) (s : string) : bool :=
  match s with
  | EmptyString => true
  | String c s' => p c && forallb p s'
  end.

Fixpoint concat (l : list string) : string :=
  match l with
  | nil => EmptyString
  | s :: l' => s ++ concat l'
  end.

(** [Array.prototype.join] on an array of strings. *)
Fixpoint join (sep : string) (l : list string) : string :=
  match l with
  | nil => EmptyString
  | s :: nil => s
  | s :: l' => s ++ sep ++ join sep l'
  end.

Definition is_digit (c : ascii) : bool :=
  let n := nat_of_ascii c in (48 <=? n)%nat && (n <=? 57)%nat.

Definition is_upper (c : ascii) : bool :=
  let n := nat_of_ascii c in (65 <=? n)%nat && (n <=? 90)%nat.

Definition is_lower (c : ascii) : bool :=
  let n := nat_of_ascii c in (97 <=? n)%nat && (n <=? 122)%nat.

Definition lower_ascii (c : ascii) : ascii :=
  if is_upper c then ascii_of_nat (nat_of_ascii c + 32) else c.

(** [String.prototype.toLowerCase] restricted to the ASCII letters.  Bytes
    of multi-byte characters are left alone.  The only use in the service
    is a search for the ASCII needle [light-filter]: the one non-ASCII
    character whose lower case contains a letter of that needle (U+0130)
    lowers to [i] followed by a combining mark, which cannot sit inside
    an occurrence of the needle, so the search result is the same. *)
Fixpoint toLowerCase (s : string) : string :=
  match s with
  | EmptyString => EmptyString
  | String c s' => String (lower_ascii c) (toLowerCase s')
  end.

(** White space and line terminators of ECMAScript, read on the UTF-8
    encoding: [strip_ws] removes every leading one. *)
Definition is_ws1 (c : ascii) : bool :=
  let n := nat_of_ascii c in
  (n =? 9)%nat || (n =? 10)%nat || (n =? 11)%nat || (n =? 12)%nat
  || (n =? 13)%nat || (n =? 32)%nat.

Definition is_ws2 (a b : ascii) : bool :=
  (nat_of_ascii a =? 194)%nat && (nat_of_ascii b =? 160)%nat.

Definition is_ws3 (a b c : ascii) : bool :=
  let x := nat_of_ascii a in
  let y := nat_of_ascii b in
  let z := nat_of_ascii c in
  ((x =? 225)%nat && (y =? 154)%nat && (z =? 128)%nat)
  || ((x =? 226)%nat && (y =? 128)%nat
      && (((128 <=? z)%nat && (z <=? 138)%nat)
          || (z =? 168)%nat || (z =? 169)%nat || (z =? 175)%nat))
  || ((x =? 226)%nat && (y =? 129)%nat && (z =? 159)%nat)
  || ((x =? 227)%nat && (y =? 128)%nat && (z =? 128)%nat)
  || ((x =? 239)%nat && (y =? 187)%nat && (z =? 191)%nat).

Fixpoint strip_ws (s : string) : string :=
  match s with
  | String a s1 =>
      if is_ws1 a then strip_ws s1
      else match s1 with
           | String b s2 =>
               if is_ws2 a b then strip_ws s2
               else match s2 with
                    | String c s3 => if is_ws3 a b c then strip_ws s3 else s
                    | EmptyString => s
                    end
           | EmptyString => s
           end
  | EmptyString => s
  end.

Fixpoint strip_ws_end (s : string) : string :=
  match s with
  | EmptyString => EmptyString
  | String c s' => if is_empty (strip_ws s) then EmptyString else String c (strip_ws_end s')
  end.

(** [String.prototype.trim]. *)
Definition trim (s : string) : string := strip_ws_end (strip_ws s).

(** Decimal digits of a natural number, without leading zeros. *)
Definition of_N (n : N) : string := NilZero.string_of_uint (N.to_uint n).

End Str.

(* ===================================================================== *)
(** ** Numbers: IEEE-754 binary64 *)
(* ===================================================================== *)

Module Num.

Open Scope Z_scope.

(** A Number is a binary64 value.  Values built by the operations below
    are in canonical form ([valid_binary prec emax x = true]). *)
Definition float64 : Type := spec_float.

Definition prec : Z := 53.
Definition emax : Z := 1024.

Definition NaN : float64 := S754_nan.
Definition zero : float64 := S754_zero false.

Definition mul : float64 -> float64 -> float64 := SFmul prec emax.
Definition div : float64 -> float64 -> float64 := SFdiv prec emax.
Definition add : float64 -> float64 -> float64 := SFadd prec emax.
Definition sub : float64 -> float64 -> float64 := SFsub prec emax.

(** [x < y] on Numbers ([false] as soon as one side is NaN). *)
Definition ltb (x y : float64) : bool := SFltb x y.

(** The Number nearest to an integer (ties to even). *)
Definition of_Z (z : Z) : float64 := binary_normalize prec emax z 0 false.

Definition of_nat (n : nat) : float64 := of_Z (Z.of_nat n).

(** The Number nearest to [(-1)^neg * M * 10^E] (ties to even): the
    rounding applied to the mathematical value of a decimal literal. *)
Definition of_decimal (neg : bool) (M : N) (E : Z) : float64 :=
  match M with
  | N0 => S754_zero neg
  | Npos m =>
      if 0 <=? E
      then binary_normalize prec emax (cond_Zopp neg (Zpos m * 10 ^ E)) 0 neg
      else SFdiv prec emax (S754_finite neg m 0)
                           (S754_finite false (Z.to_pos (10 ^ (- E))) 0)
  end.

(** The exact value [m * 2^e] as a fraction [num / den]. *)
Definition ratio (m : positive) (e : Z) : Z * Z :=
  if 0 <=? e then (Zpos m * 2 ^ e, 1) else (Zpos m, 2 ^ (- e)).

(** *** Number::toString *)

(** Least [j >= j0] with [num * 10^(j - j0) >= den]; [fuel] bounds the
    search and is never exhausted on a positive value. *)
Fixpoint scale_up (fuel : nat) (num den j : Z) : Z :=
  match fuel with
  | O => j
  | S f => if den <=? num then j else scale_up f (num * 10) den (j + 1)
  end.

(** The decimal exponent [n] of a positive value: [10^(n-1) <= v < 10^n]. *)
Definition decimal_exponent (m : positive) (e : Z) : Z :=
  let '(num, den) := ratio m e in
  if den <=? num
  then Z.of_nat (String.length (Str.of_N (Z.to_N (num / den))))
  else 1 - scale_up (S (Z.to_nat (- e))) (num * 10) den 1.

(** [v / 10^q] as a fraction. *)
Definition scaled (m : positive) (e q : Z) : Z * Z :=
  let '(num, den) := ratio m e in
  if 0 <=? q then (num, den * 10 ^ q) else (num * 10 ^ (- q), den).

Definition same_float (x y : float64) : bool :=
  match x, y with
  | S754_finite s1 m1 e1, S754_finite s2 m2 e2 =>
      Bool.eqb s1 s2 && Pos.eqb m1 m2 && Z.eqb e1 e2
  | _, _ => false
  end.

(** The [k]-digit decimal [s * 10^(n-k)] that reads back as the Number
    and lies nearest to it (an even [s] on a tie), if there is one. *)
Definition candidate (m : positive) (e n : Z) (k : Z) : option (N * Z) :=
  let x := binary_round prec emax false m e in
  let qe := n - k in
  let '(a, b) := scaled m e qe in
  let lo := Z.to_N (a / b) in
  let r := a mod b in
  let hi := N.succ lo in
  let ok_lo := same_float (of_decimal false lo qe) x in
  let ok_hi := same_float (of_decimal false hi qe) x in
  match ok_lo, ok_hi with
  | true, true =>
      if 2 * r <? b then Some (lo, qe)
      else if b <? 2 * r then Some (hi, qe)
      else if N.even lo then Some (lo, qe) else Some (hi, qe)
  | true, false => Some (lo, qe)
  | false, true => Some (hi, qe)
  | false, false => None
  end.

(** The shortest such decimal: [k] grows from [k] until a candidate
    exists; 17 digits always identify a binary64 value. *)
Fixpoint shortest (fuel : nat) (m : positive) (e n k : Z) : N * Z :=
  match candidate m e n k with
  | Some r => r
  | None =>
      match fuel with
      | O => let '(a, b) := scaled m e (n - k) in (Z.to_N (a / b), n - k)
      | S f => shortest f m e n (k + 1)
      end
  end.

Fixpoint strip_zeros_rev (s : list ascii) (q : Z) : list ascii * Z :=
  match s with
  | c :: s' => if Ascii.eqb c "0" then strip_zeros_rev s' (q + 1) else (s, q)
  | nil => (s, q)
  end.

(** Digits of [s] without trailing zeros, and the exponent raised by the
    number of zeros removed. *)
Definition significant (s : N) (q : Z) : string * Z :=
  let '(r, q') := strip_zeros_rev (List.rev (list_ascii_of_string (Str.of_N s))) q in
  (string_of_list_ascii (List.rev r), q').

Definition exponent_part (n : Z) : string :=
  let e := n - 1 in
  "e" ++ (if e <? 0 then "-" else "+") ++ Str.of_N (Z.to_N (Z.abs e)).

(** The layout of Number::toString from the digits and the position [n]
    of the decimal point. *)
Definition layout (digits : string) (n : Z) : string :=
  let k := Z.of_nat (String.length digits) in
  if (k <=? n) && (n <=? 21) then
    digits ++ Str.repeat "0" (Z.to_nat (n - k))
  else if (0 <? n) && (n <=? 21) then
    Str.take (Z.to_nat n) digits ++ "." ++ Str.drop (Z.to_nat n) digits
  else if (-6 <? n) && (n <=? 0) then
    "0." ++ Str.repeat "0" (Z.to_nat (- n)) ++ digits
  else if k =? 1 then
    digits ++ exponent_part n
  else
    Str.take 1 digits ++ "." ++ Str.drop 1 digits ++ exponent_part n.

Definition toString_pos (m : positive) (e : Z) : string :=
  let n := decimal_exponent m e in
  let '(s, qe) := shortest 16 m e n 1 in
  let '(digits, qe') := significant s qe in
  layout digits (Z.of_nat (String.length digits) + qe').

(** Number::toString in radix 10. *)
Definition toString (x : float64) : string :=
  match x with
  | S754_nan => "NaN"
  | S754_zero _ => "0"
  | S754_infinity s => if s then "-Infinity" else "Infinity"
  | S754_finite s m e => (if s then "-" else EmptyString) ++ toString_pos m e
  end.

(** *** Number.prototype.toFixed *)

(** The integer [n] with [n / 10^f] nearest to [m * 2^e], the larger one
    on a tie. *)
Definition round_scaled (m : positive) (e : Z) (f : nat) : N :=
  let '(num, den) := ratio m e in
  Z.to_N ((2 * num * 10 ^ Z.of_nat f + den) / (2 * den)).

(** The digits of [n] with a point before the last [f] of them, zeros
    added in front so that a digit precedes the point. *)
Definition fixed_digits (n : N) (f : nat) : string :=
  let m := Str.of_N n in
  match f with
  | O => m
  | S _ =>
      let k := String.length m in
      let m' := if (k <=? f)%nat then Str.repeat "0" (f + 1 - k) ++ m else m in
      let k' := String.length m' in
      Str.take (k' - f) m' ++ "." ++ Str.drop (k' - f) m'
  end.

Definition ge_1e21 (m : positive) (e : Z) : bool :=
  let '(num, den) := ratio m e in 10 ^ 21 * den <=? num.

Definition toFixed (x : float64) (f : nat) : string :=
  match x with
  | S754_nan => "NaN"
  | S754_infinity s => if s then "-Infinity" else "Infinity"
  | S754_zero _ => fixed_digits 0 f
  | S754_finite s m e =>
      (if s then "-" else EmptyString) ++
      (if ge_1e21 m e then toString_pos m e
       else fixed_digits (round_scaled m e f) f)
  end.

End Num.

(* ===================================================================== *)
(** ** Values, conversions and operators *)
(* ===================================================================== *)

Module JS.

Import Num.

(** The primitive values that reach the service. *)
Inductive jsval : Type :=
| VUndefined
| VNull
| VBool (b : bool)
| VNumber (x : float64)
| VString (s : string).

(** Abrupt completions: an implicit [TypeError] (a method looked up on a
    value that does not have it) or an [Error] thrown with a message. *)
Inductive exn : Type :=
| TypeError
| Error (msg : string).

Inductive completion (A : Type) : Type :=
| Normal (a : A)
| Throw (e : exn).
Arguments Normal {A} a.
Arguments Throw {A} e.

Definition bind {A B : Type} (c : completion A) (k : A -> completion B) : completion B :=
  match c with
  | Normal a => k a
  | Throw e => Throw e
  end.

Notation "'let!' x ':=' c 'in' k" := (bind c (fun x => k))
  (at level 10, x name, c at level 100, k at level 200).
Notation "'let!' ' p ':=' c 'in' k" := (bind c (fun x => match x with p => k end))
  (at level 10, p strict pattern, c at level 100, k at level 200).

(** *** ToBoolean, [||], [&&], [typeof], [===] *)

Definition ToBoolean (v : jsval) : bool :=
  match v with
  | VUndefined | VNull => false
  | VBool b => b
  | VNumber (S754_zero _) | VNumber S754_nan => false
  | VNumber _ => true
  | VString s => negb (Str.is_empty s)
  end.

Definition or (a b : jsval) : jsval := if ToBoolean a then a else b.
Definition and (a b : jsval) : jsval := if ToBoolean a then b else a.

Definition typeof_is_number (v : jsval) : bool :=
  match v with VNumber _ => true | _ => false end.

Definition strict_eq (a b : jsval) : bool :=
  match a, b with
  | VUndefined, VUndefined => true
  | VNull, VNull => true
  | VBool x, VBool y => Bool.eqb x y
  | VNumber x, VNumber y => SFeqb x y
  | VString x, VString y => String.eqb x y
  | _, _ => false
  end.

(** *** Numeric literals in strings *)

Definition digit_val (c : ascii) : N := N.of_nat (nat_of_ascii c - 48).

(** Reads a run of decimal digits onto the accumulator [acc]: the value,
    the number of digits read and the rest of the string. *)
Fixpoint read_digits (s : string) (acc : N) (cnt : nat) : N * nat * string :=
  match s with
  | String c s' =>
      if Str.is_digit c then read_digits s' (10 * acc + digit_val c)%N (S cnt)
      else (acc, cnt, s)
  | EmptyString => (acc, cnt, s)
  end.

Definition is_e (c : ascii) : bool := Ascii.eqb c "e" || Ascii.eqb c "E".

(** The optional ExponentPart at the head of [s]: its value and the rest;
    [(0, s)] when [s] does not start with a complete one. *)
Definition read_exponent (s : string) : Z * string :=
  match s with
  | String c s1 =>
      if is_e c then
        let '(neg, s2) :=
          match s1 with
          | String "-" t => (true, t)
          | String "+" t => (false, t)
          | _ => (false, s1)
          end in
        let '(v, cnt, rest) := read_digits s2 0%N O in
        match cnt with
        | O => (0%Z, s)
        | S _ => ((if neg then - Z.of_N v else Z.of_N v)%Z, rest)
        end
      else (0%Z, s)
  | EmptyString => (0%Z, s)
  end.

(** The longest prefix of [s] that is a StrUnsignedDecimalLiteral: its
    Number (with sign [neg]) and the rest of the string. *)
Definition read_unsigned_decimal (neg : bool) (s : string) : option (float64 * string) :=
  if Str.starts_with "Infinity" s then Some (S754_infinity neg, Str.drop 8 s)
  else
    let '(i, ci, r1) := read_digits s 0%N O in
    let '(mant, cf, r2) :=
      match r1 with
      | String "." t => let '(v, c, r) := read_digits t i O in (v, Some c, r)
      | _ => (i, None, r1)
      end in
    let frac := match cf with Some c => c | None => O end in
    match ci, frac with
    | O, O => None
    | _, _ =>
        let '(ex, r3) := read_exponent r2 in
        Some (of_decimal neg mant (ex - Z.of_nat frac), r3)
    end.

Definition read_decimal (s : string) : option (float64 * string) :=
  match s with
  | String "-" t => read_unsigned_decimal true t
  | String "+" t => read_unsigned_decimal false t
  | _ => read_unsigned_decimal false s
  end.

Definition radix_digit (radix : N) (c : ascii) : option N :=
  let n := nat_of_ascii c in
  let v :=
    if Str.is_digit c then Some (N.of_nat (n - 48))
    else if Str.is_lower c then Some (N.of_nat (n - 87))
    else if Str.is_upper c then Some (N.of_nat (n - 55))
    else None in
  match v with
  | Some d => if (d <? radix)%N then Some d else None
  | None => None
  end.

Fixpoint read_radix (radix : N) (s : string) (acc : N) (cnt : nat) : option N :=
  match s with
  | String c s' =>
      match radix_digit radix c with
      | Some d => read_radix radix s' (radix * acc + d)%N (S cnt)
      | None => None
      end
  | EmptyString => match cnt with O => None | S _ => Some acc end
  end.

(** StringToNumber: the whole trimmed string must be a numeric literal. *)
Definition StringToNumber (s : string) : float64 :=
  let t := Str.trim s in
  match t with
  | EmptyString => zero
  | String "0" (String x r) =>
      let radix :=
        if Ascii.eqb x "x" || Ascii.eqb x "X" then Some 16%N
        else if Ascii.eqb x "o" || Ascii.eqb x "O" then Some 8%N
        else if Ascii.eqb x "b" || Ascii.eqb x "B" then Some 2%N
        else None in
      match radix with
      | Some b =>
          match read_radix b r 0%N O with
          | Some v => of_Z (Z.of_N v)
          | None => NaN
          end
      | None =>
          match read_decimal t with
          | Some (v, EmptyString) => v
          | _ => NaN
          end
      end
  | _ =>
      match read_decimal t with
      | Some (v, EmptyString) => v
      | _ => NaN
      end
  end.

(** *** ToNumber, ToString *)

Definition ToNumber (v : jsval) : float64 :=
  match v with
  | VUndefined => NaN
  | VNull => zero
  | VBool b => if b then of_Z 1 else zero
  | VNumber x => x
  | VString s => StringToNumber s
  end.

Definition ToString (v : jsval) : string :=
  match v with
  | VUndefined => "undefined"
  | VNull => "null"
  | VBool b => if b then "true" else "false"
  | VNumber x => Num.toString x
  | VString s => s
  end.

(** The global [parseFloat]. *)
Definition parseFloat (v : jsval) : float64 :=
  match read_decimal (Str.strip_ws (ToString v)) with
  | Some (x, _) => x
  | None => NaN
  end.

(** *** Arithmetic and comparison operators *)

Definition times (a b : jsval) : float64 := mul (ToNumber a) (ToNumber b).
Definition minus (a b : jsval) : float64 := sub (ToNumber a) (ToNumber b).
Definition divide (a b : jsval) : float64 := div (ToNumber a) (ToNumber b).

(** [a > b] when [b] is a Number: both sides go through ToNumber. *)
Definition gt_number (a : jsval) (b : float64) : bool := ltb b (ToNumber a).

(** *** Methods looked up on a value *)

(** [v.toFixed(f)]: only Numbers have the method. *)
Definition call_toFixed (v : jsval) (f : nat) : completion string :=
  match v with
  | VNumber x => Normal (Num.toFixed x f)
  | _ => Throw TypeError
  end.

(** [v.toLowerCase()]: only strings have the method. *)
Definition call_toLowerCase (v : jsval) : completion string :=
  match v with
  | VString s => Normal (Str.toLowerCase s)
  | _ => Throw TypeError
  end.

End JS.

(* ===================================================================== *)
(** ** Regular expressions *)
(* ===================================================================== *)

Module Regex.

(** The patterns of the service are sequences of single-character atoms,
    some under a greedy quantifier, with one capture group. *)
Inductive atom : Type :=
| Chr (p : ascii -> bool)     (* one character of the class       *)
| Opt (p : ascii -> bool)     (* [c?]                             *)
| Star (p : ascii -> bool)    (* [c*]                             *)
| Plus (p : ascii -> bool).   (* [c+]                             *)

(** [pre(group)post]. *)
Record regex : Type := { pre : list atom; group : list atom; post : list atom }.

Definition ch (c : ascii) : ascii -> bool := Ascii.eqb c.
Definition not_ch (c : ascii) : ascii -> bool := fun x => negb (Ascii.eqb c x).
Definition any : ascii -> bool := fun _ => true.

(** Character equality under the [i] flag: only the ASCII letters have a
    second case; a character outside ASCII never matches an ASCII one. *)
Definition ch_ci (c : ascii) : ascii -> bool :=
  fun x => Ascii.eqb (Str.lower_ascii c) (Str.lower_ascii x).

(** [\w] and [-]. *)
Definition word_or_dash (c : ascii) : bool :=
  Str.is_digit c || Str.is_upper c || Str.is_lower c
  || Ascii.eqb c "_" || Ascii.eqb c "-".

Fixpoint literal (s : string) : list atom :=
  match s with
  | EmptyString => nil
  | String c s' => Chr (ch c) :: literal s'
  end.

Fixpoint literal_ci (s : string) : list atom :=
  match s with
  | EmptyString => nil
  | String c s' => Chr (ch_ci c) :: literal_ci s'
  end.

(** Length of the longest prefix of [s] made of characters of [p]. *)
Fixpoint run_length (p : ascii -> bool) (s : string) : nat :=
  match s with
  | String c s' => if p c then S (run_length p s') else O
  | EmptyString => O
  end.

(** Backtracking: the first success of [k n], [k (n-1)], ..., [k lo]. *)
Fixpoint try_down {A : Type} (k : nat -> option A) (lo n : nat) : option A :=
  if (n <? lo)%nat then None
  else match k n with
       | Some r => Some r
       | None => match n with O => None | S n' => try_down k lo n' end
       end.

Definition with_piece (piece : string) (r : option (list string * string))
  : option (list string * string) :=
  match r with
  | Some (pieces, rest) => Some (piece :: pieces, rest)
  | None => None
  end.

(** Matches the atoms at the head of [s]: the text taken by each atom and
    the rest of the string. *)
Fixpoint match_here (re : list atom) (s : string) : option (list string * string) :=
  let quantified (p : ascii -> bool) (re' : list atom) (lo hi : nat) :=
    try_down (fun i => with_piece (Str.take i s) (match_here re' (Str.drop i s)))
             lo (Nat.min hi (run_length p s)) in
  match re with
  | nil => Some (nil, s)
  | Chr p :: re' =>
      match s with
      | String c s' =>
          if p c then with_piece (String c EmptyString) (match_here re' s') else None
      | EmptyString => None
      end
  | Opt p :: re' => quantified p re' 0%nat 1%nat
  | Star p :: re' => quantified p re' 0%nat (String.length s)
  | Plus p :: re' => quantified p re' 1%nat (String.length s)
  end.

(** A match at the head of [s]: the matched text, the text of the group
    and the rest of the string. *)
Definition exec_at (r : regex) (s : string) : option (string * string * string) :=
  match match_here (pre r ++ group r ++ post r)%list s with
  | Some (pieces, rest) =>
      Some (Str.concat pieces,
            Str.concat (firstn (List.length (group r)) (skipn (List.length (pre r)) pieces)),
            rest)
  | None => None
  end.

(** The leftmost match: text before it, matched text, group, text after. *)
Fixpoint search (r : regex) (s : string) : option (string * string * string * string) :=
  match exec_at r s with
  | Some (m0, m1, rest) => Some (EmptyString, m0, m1, rest)
  | None =>
      match s with
      | EmptyString => None
      | String c s' =>
          match search r s' with
          | Some (before, m0, m1, rest) => Some (String c before, m0, m1, rest)
          | None => None
          end
      end
  end.

(** [s.match(r)] for a regex without the [g] flag: elements 0 and 1 of
    the result array, or [None] for [null]. *)
Definition match_ (r : regex) (s : string) : option (string * string) :=
  match search r s with
  | Some (_, m0, m1, _) => Some (m0, m1)
  | None => None
  end.

(** [s.replace(r, f)] for a regex with the [g] flag and a function [f] of
    the matched text and the group.  [skip] counts the characters of the
    last match still to be passed over. *)
Fixpoint replace_all_from (r : regex) (f : string -> string -> string)
                          (s : string) (skip : nat) : string :=
  match skip with
  | S k =>
      match s with
      | EmptyString => EmptyString
      | String _ s' => replace_all_from r f s' k
      end
  | O =>
      match exec_at r s with
      | Some (m0, m1, _) =>
          f m0 m1 ++
          match s with
          | EmptyString => EmptyString
          | String c s' =>
              match String.length m0 with
              | O => String c (replace_all_from r f s' 0)
              | S k => replace_all_from r f s' k
              end
          end
      | None =>
          match s with
          | EmptyString => EmptyString
          | String c s' => String c (replace_all_from r f s' 0)
          end
      end
  end.

Definition replace_all (r : regex) (f : string -> string -> string) (s : string) : string :=
  replace_all_from r f s 0.

Import JS.

(** The same for a function [f] that may throw: the first call that
    throws ends the replacement. *)
Fixpoint replace_all_from_with (r : regex) (f : string -> string -> completion string)
                               (s : string) (skip : nat) : completion string :=
  match skip with
  | S k =>
      match s with
      | EmptyString => Normal EmptyString
      | String _ s' => replace_all_from_with r f s' k
      end
  | O =>
      match exec_at r s with
      | Some (m0, m1, _) =>
          let! replacement := f m0 m1 in
          let! rest :=
            match s with
            | EmptyString => Normal EmptyString
            | String c s' =>
                match String.length m0 with
                | O => let! t := replace_all_from_with r f s' 0 in Normal (String c t)
                | S k => replace_all_from_with r f s' k
                end
            end in
          Normal (replacement ++ rest)
      | None =>
          match s with
          | EmptyString => Normal EmptyString
          | String c s' => let! t := replace_all_from_with r f s' 0 in Normal (String c t)
          end
      end
  end.

Definition replace_all_with (r : regex) (f : string -> string -> completion string)
                            (s : string) : completion string :=
  replace_all_from_with r f s 0.

(** The replacement text of [s.replace(pattern, replacement)] for a
    string pattern: [$$], [$&], [$`] and [$'] are substituted; there are
    no captures, so any other [$] stands for itself. *)
Fixpoint substitution (replacement matched before after : string) : string :=
  match replacement with
  | String "$" (String c r as r1) =>
      if Ascii.eqb c "$" then String "$" (substitution r matched before after)
      else if Ascii.eqb c "&" then matched ++ substitution r matched before after
      else if Ascii.eqb c "`" then before ++ substitution r matched before after
      else if Ascii.eqb c "'" then after ++ substitution r matched before after
      else String "$" (substitution r1 matched before after)
  | String c r => String c (substitution r matched before after)
  | EmptyString => EmptyString
  end.

(** [s.replace(pattern, replacement)] for a string pattern: the first
    occurrence only. *)
Definition replace_first (pattern replacement s : string) : string :=
  match Str.split_first pattern s with
  | Some (before, after) =>
      before ++ substitution replacement pattern before after ++ after
  | None => s
  end.

End Regex.

(* ===================================================================== *)
(** ** The service *)
(* ===================================================================== *)

Module QuoteGeneratorService.

Import Str Num JS Regex.
Import ListNotations.
Open Scope list_scope.
Open Scope string_scope.

(** *** Data handed to the service *)

(** One entry of [quoteData.products.rollerBlind.items]. *)
Record item : Type := {
  width : jsval;
  height : jsval;
  fabric : jsval;
  fabricType : jsval;
  color : jsval;
  location : jsval;
  winder : jsval;
  dual : jsval;
  motor : jsval;
  linePrice : jsval
}.

(** [quoteData], reduced to the path [products.rollerBlind.items]. *)
Record quoteData : Type := { items : list item }.

(** The object returned by [calculationService.calculateF2Summary]. *)
Record summaryData : Type := {
  gst : jsval;
  sumPrice : jsval;
  firstRbPrice : jsval;
  disRbPrice : jsval;
  mulTimes : jsval;
  acceSum : jsval;
  eAcceSum : jsval;
  deliveryFee : jsval;
  installFee : jsval;
  removalFee : jsval
}.

Record f1State : Type := { remote_1ch_qty : jsval }.

Record f2State : Type := {
  deliveryFeeExcluded : jsval;
  installFeeExcluded : jsval;
  removalFeeExcluded : jsval;
  deliveryQty : jsval;
  removalQty : jsval
}.

Record uiState : Type := {
  driveRemoteCount : jsval;
  driveChargerCount : jsval;
  driveCordCount : jsval;
  f1 : f1State;
  f2 : f2State
}.

Record f3Data : Type := {
  finalOfferPrice : jsval;
  quoteId : jsval;
  issueDate : jsval;
  dueDate : jsval;
  customerName : jsval;
  customerAddress : jsval;
  customerPhone : jsval;
  customerEmail : jsval;
  generalNotes : jsval;
  termsConditions : jsval
}.

(** The injected collaborator: the summary computation and the price
    lookup of its [configManager].  Their code is outside this file. *)
Record calculationService : Type := {
  calculateF2Summary : quoteData -> uiState -> summaryData;
  getAccessoryPrice : string -> jsval
}.

(** The fields of a [QuoteGeneratorService] instance. *)
Record service : Type := {
  calc : calculationService;
  quoteTemplate : string;
  detailsTemplate : string;
  actionBarHtml : string;
  scriptHtml : string
}.

(** *** The constructor and [_initialize] *)

Definition actionBarHtml_text : string :=
  "
    <div id=" ++ q "action-bar" ++ ">
        <button id=" ++ q "copy-html-btn" ++ ">Copy HTML</button>
        <button id=" ++ q "print-btn" ++ ">Print / Save PDF</button>
    </div>".

Definition scriptHtml_text : string :=
  "
    <script>
        document.addEventListener('DOMContentLoaded', function() {
            const copyBtn = document.getElementById('copy-html-btn');
            const printBtn = document.getElementById('print-btn');
            const actionBar = document.getElementById('action-bar');

            if (printBtn) {
                printBtn.addEventListener('click', function() {
                    window.print();
                });
            }

            if (copyBtn) {
                copyBtn.addEventListener('click', function() {
                    // 1. Temporarily hide the action bar
                    actionBar.style.display = 'none';

                    // 2. Get the entire HTML of the page, including doctype
                    const pageHtml = new XMLSerializer().serializeToString(document);

                    // 3. Copy to clipboard
                    navigator.clipboard.writeText(pageHtml)
                        .then(() => {
                            // 4. Show the action bar again
                            actionBar.style.display = 'flex';
                            alert('HTML copied to clipboard successfully!');
                        })
                        .catch(err => {
                            // 4. Show the action bar again even if it fails
                            actionBar.style.display = 'flex';
                            console.error('Failed to copy:', err);
                            alert('Failed to copy. Please check console for errors.');
                        });
                });
            }
        });
    </script>".

(** The instance as the constructor leaves it, both templates empty. *)
Definition constructor (c : calculationService) : service :=
  {| calc := c;
     quoteTemplate := EmptyString;
     detailsTemplate := EmptyString;
     actionBarHtml := actionBarHtml_text;
     scriptHtml := scriptHtml_text |}.

(** [_initialize] once the two fetches have settled: both fields are
    assigned together on success, neither on failure. *)
Definition _initialize (this : service) (fetched : option (string * string)) : service :=
  match fetched with
  | Some (quote, details) =>
      {| calc := calc this;
         quoteTemplate := quote;
         detailsTemplate := details;
         actionBarHtml := actionBarHtml this;
         scriptHtml := scriptHtml this |}
  | None => this
  end.

(** *** Small pieces *)

Definition num (z : Z) : jsval := VNumber (of_Z z).

(** [s.replace(/\n/g, '<br>')] *)
Definition newline : regex := {| pre := [Chr (ch nl)]; group := []; post := [] |}.

Definition call_replace_newlines (v : jsval) : completion string :=
  match v with
  | VString s => Normal (replace_all newline (fun _ _ => "<br>") s)
  | _ => Throw TypeError
  end.

(** [const formatPrice = (price) => ...] of [_prepareTemplateData] *)
Definition formatPrice (price : jsval) : string :=
  match price with
  | VNumber x => if gt_number price zero then "$" ++ toFixed x 2 else EmptyString
  | _ => EmptyString
  end.

(** [items.filter(i => i.width && i.height)] *)
Definition is_valid (i : item) : bool := ToBoolean (and (width i) (height i)).

(** [parseFloat(f3Data.finalOfferPrice) || summaryData.gst || 0] *)
Definition grandTotal_of (f3 : f3Data) (summary : summaryData) : jsval :=
  or (or (VNumber (parseFloat (finalOfferPrice f3))) (gst summary)) (num 0).

(** *** [_populateTemplate] *)

(** [/\{\{\{?([\w\-]+)\}\}\}?/g] *)
Definition placeholder : regex :=
  {| pre := [Chr (ch "{"); Chr (ch "{"); Opt (ch "{")];
     group := [Plus word_or_dash];
     post := [Chr (ch "}"); Chr (ch "}"); Opt (ch "}")] |}.

(** [data.hasOwnProperty(key)].  The method is looked up on [data]: an
    own entry named [hasOwnProperty] shadows the one of
    [Object.prototype], and its value is not a function. *)
Definition call_hasOwnProperty (data : gmap string jsval) (key : string) : completion bool :=
  match data !! "hasOwnProperty" with
  | Some _ => Throw TypeError
  | None => Normal (match data !! key with Some _ => true | None => false end)
  end.

(** [data[key]] *)
Definition get (data : gmap string jsval) (key : string) : jsval :=
  match data !! key with
  | Some v => v
  | None => VUndefined
  end.

Definition _populateTemplate (template : string) (data : gmap string jsval)
  : completion string :=
  replace_all_with placeholder
    (fun match_ key =>
       let! own := call_hasOwnProperty data key in
       Normal (if own then ToString (get data key) else match_))
    template.

(** *** [_formatCustomerInfo] *)

Definition _formatCustomerInfo (f3 : f3Data) : completion string :=
  let html := "<strong>" ++ ToString (or (customerName f3) (VString EmptyString)) ++ "</strong><br>" in
  let! html :=
    (if ToBoolean (customerAddress f3)
     then let! a := call_replace_newlines (customerAddress f3) in Normal (html ++ a ++ "<br>")
     else Normal html) in
  let html :=
    if ToBoolean (customerPhone f3)
    then html ++ "Phone: " ++ ToString (customerPhone f3) ++ "<br>"
    else html in
  let html :=
    if ToBoolean (customerEmail f3)
    then html ++ "Email: " ++ ToString (customerEmail f3)
    else html in
  Normal html.

(** *** [_generateItemsTableHtml] *)

Definition headers : list string :=
  ["#"; "F-NAME"; "F-COLOR"; "Location"; "HD"; "Dual"; "Motor"; "Price"].

Definition check_mark : string := "✔".

(** The class of the fabric and colour cells. *)
Definition fabricClass_of (i : item) : completion string :=
  let! light :=
    (if ToBoolean (fabric i)
     then let! lower := call_toLowerCase (fabric i) in Normal (includes lower "light-filter")
     else Normal false) in
  Normal
    (if light then "bg-light-filter"
     else if strict_eq (fabricType i) (VString "SN") then "bg-screen"
     else if existsb (fun t => strict_eq (VString t) (fabricType i)) ["B1"; "B2"; "B3"; "B4"; "B5"]
          then "bg-blockout"
     else EmptyString).

(** [const cell = (dataLabel, content, cssClass = '') => ...] *)
Definition cell (dataLabel : string) (content : jsval) (cssClass : string) : string :=
  let isEmpty := negb (ToBoolean content) in
  let finalClass := trim (cssClass ++ " " ++ (if isEmpty then "is-empty-cell" else EmptyString)) in
  "<td data-label=" ++ q dataLabel ++ " class=" ++ q finalClass ++ ">" ++ ToString content ++ "</td>".

(** The body of the [.map((item, index) => ...)] callback. *)
Definition item_row (mul_times : jsval) (i : item) (index : nat) : completion string :=
  let! fabricClass := fabricClass_of i in
  let finalPrice := times (or (linePrice i) (num 0)) mul_times in
  let cells :=
    [ cell "#" (VNumber (add (of_nat index) (of_Z 1))) "text-center";
      cell "F-NAME" (or (fabric i) (VString EmptyString)) fabricClass;
      cell "F-COLOR" (or (color i) (VString EmptyString)) fabricClass;
      cell "Location" (or (location i) (VString EmptyString)) EmptyString;
      cell "HD" (VString (if strict_eq (winder i) (VString "HD") then check_mark else EmptyString)) "text-center";
      cell "Dual" (VString (if strict_eq (dual i) (VString "D") then check_mark else EmptyString)) "text-center";
      cell "Motor" (VString (if ToBoolean (motor i) then check_mark else EmptyString)) "text-center";
      cell "Price" (VString ("$" ++ toFixed finalPrice 2)) "text-right" ] in
  Normal ("<tr>" ++ join EmptyString cells ++ "</tr>").

(** [Array.prototype.map] with the index, for a callback that may throw. *)
Fixpoint map_indexed {A B : Type} (f : A -> nat -> completion B)
                     (l : list A) (index : nat) : completion (list B) :=
  match l with
  | [] => Normal []
  | a :: l' =>
      let! b := f a index in
      let! bs := map_indexed f l' (S index) in
      Normal (b :: bs)
  end.

(** The [rows] constant of [_generateItemsTableHtml]. *)
Definition detail_rows (its : list item) (summary : summaryData) : completion (list string) :=
  let mul_times := or (mulTimes summary) (num 1) in
  map_indexed (item_row mul_times) (List.filter is_valid its) 0.

Definition _generateItemsTableHtml (its : list item) (summary : summaryData) : completion string :=
  let! row_list := detail_rows its summary in
  let rows := join EmptyString row_list in
  Normal ("
            <table class=" ++ q "detailed-list-table" ++ ">
                <colgroup>
                    <col style=" ++ q "width: 5%;" ++ ">
                    <col style=" ++ q "width: 20%;" ++ ">
                    <col style=" ++ q "width: 15%;" ++ ">
                    <col style=" ++ q "width: 12%;" ++ ">
                    <col style=" ++ q "width: 9%;" ++ ">
                    <col style=" ++ q "width: 9%;" ++ ">
                    <col style=" ++ q "width: 9%;" ++ ">
                    <col style=" ++ q "width: 13%;" ++ ">
                </colgroup>
                <thead>
                    <tr class=" ++ q "table-title" ++ ">
                        <th colspan=" ++ dq ++ ToString (VNumber (of_nat (List.length headers))) ++ dq ++ ">Roller Blinds - Detailed List</th>
                    </tr>
                    <tr>
                        " ++ Str.join EmptyString (List.map (fun h => "<th>" ++ h ++ "</th>") headers) ++ "
                    </tr>
                </thead>
                <tbody>
                    " ++ rows ++ "
                </tbody>
            </table>
        ").

(** *** [_generatePageOneItemsTableHtml] *)

Definition rollerBlinds_row (validItemCount : float64) (summary : summaryData) : completion string :=
  let! firstRb := call_toFixed (or (firstRbPrice summary) (num 0)) 2 in
  let! disRb := call_toFixed (or (disRbPrice summary) (num 0)) 2 in
  Normal ("
            <tr>
                <td data-label=" ++ q "NO" ++ ">1</td>
                <td data-label=" ++ q "Description" ++ " class=" ++ q "description" ++ ">Roller Blinds</td>
                <td data-label=" ++ q "QTY" ++ " class=" ++ q "align-right" ++ ">" ++ ToString (VNumber validItemCount) ++ "</td>
                <td data-label=" ++ q "Price" ++ " class=" ++ q "align-right" ++ ">
                    <span class=" ++ q "original-price" ++ ">$" ++ firstRb ++ "</span>
                </td>
                <td data-label=" ++ q "Discounted Price" ++ " class=" ++ q "align-right" ++ ">
                    <span class=" ++ q "discounted-price" ++ ">$" ++ disRb ++ "</span>
                </td>
            </tr>
        ").

Definition acce_row (itemNumber : float64) (summary : summaryData) : completion string :=
  let! price := call_toFixed (or (acceSum summary) (num 0)) 2 in
  Normal ("
                <tr>
                    <td data-label=" ++ q "NO" ++ ">" ++ ToString (VNumber itemNumber) ++ "</td>
                    <td data-label=" ++ q "Description" ++ " class=" ++ q "description" ++ ">Installation Accessories</td>
                    <td data-label=" ++ q "QTY" ++ " class=" ++ q "align-right" ++ ">NA</td>
                    <td data-label=" ++ q "Price" ++ " class=" ++ q "align-right" ++ ">$" ++ price ++ "</td>
                    <td data-label=" ++ q "Discounted Price" ++ " class=" ++ q "align-right" ++ ">$" ++ price ++ "</td>
                </tr>
            ").

Definition eAcce_row (itemNumber : float64) (summary : summaryData) : completion string :=
  let! price := call_toFixed (or (eAcceSum summary) (num 0)) 2 in
  Normal ("
                <tr>
                    <td data-label=" ++ q "NO" ++ ">" ++ ToString (VNumber itemNumber) ++ "</td>
                    <td data-label=" ++ q "Description" ++ " class=" ++ q "description" ++ ">Motorised Accessories</td>
                    <td data-label=" ++ q "QTY" ++ " class=" ++ q "align-right" ++ ">NA</td>
                    <td data-label=" ++ q "Price" ++ " class=" ++ q "align-right" ++ ">$" ++ price ++ "</td>
                    <td data-label=" ++ q "Discounted Price" ++ " class=" ++ q "align-right" ++ ">$" ++ price ++ "</td>
                </tr>
            ").

Definition delivery_row (itemNumber : float64) (summary : summaryData) (ui : uiState) : completion string :=
  let deliveryExcluded := deliveryFeeExcluded (f2 ui) in
  let deliveryPriceClass :=
    if ToBoolean deliveryExcluded then "class=" ++ q "align-right is-excluded" else "class=" ++ q "align-right" in
  let deliveryDiscountedPrice :=
    if ToBoolean deliveryExcluded then num 0 else or (deliveryFee summary) (num 0) in
  let! price := call_toFixed (or (deliveryFee summary) (num 0)) 2 in
  let! discounted := call_toFixed deliveryDiscountedPrice 2 in
  Normal ("
            <tr>
                <td data-label=" ++ q "NO" ++ ">" ++ ToString (VNumber itemNumber) ++ "</td>
                <td data-label=" ++ q "Description" ++ " class=" ++ q "description" ++ ">Delivery</td>
                <td data-label=" ++ q "QTY" ++ " class=" ++ q "align-right" ++ ">" ++ ToString (or (deliveryQty (f2 ui)) (VNumber (of_Z 1))) ++ "</td>
                <td data-label=" ++ q "Price" ++ " " ++ deliveryPriceClass ++ ">$" ++ price ++ "</td>
                <td data-label=" ++ q "Discounted Price" ++ " class=" ++ q "align-right" ++ ">$" ++ discounted ++ "</td>
            </tr>
        ").

Definition install_row (itemNumber validItemCount : float64) (summary : summaryData) (ui : uiState)
  : completion string :=
  let installExcluded := installFeeExcluded (f2 ui) in
  let installPriceClass :=
    if ToBoolean installExcluded then "class=" ++ q "align-right is-excluded" else "class=" ++ q "align-right" in
  let installDiscountedPrice :=
    if ToBoolean installExcluded then num 0 else or (installFee summary) (num 0) in
  let! price := call_toFixed (or (installFee summary) (num 0)) 2 in
  let! discounted := call_toFixed installDiscountedPrice 2 in
  Normal ("
            <tr>
                <td data-label=" ++ q "NO" ++ ">" ++ ToString (VNumber itemNumber) ++ "</td>
                <td data-label=" ++ q "Description" ++ " class=" ++ q "description" ++ ">Installation</td>
                <td data-label=" ++ q "QTY" ++ " class=" ++ q "align-right" ++ ">" ++ ToString (VNumber validItemCount) ++ "</td>
                <td data-label=" ++ q "Price" ++ " " ++ installPriceClass ++ ">$" ++ price ++ "</td>
                <td data-label=" ++ q "Discounted Price" ++ " class=" ++ q "align-right" ++ ">$" ++ discounted ++ "</td>
            </tr>
        ").

Definition removal_row (itemNumber : float64) (summary : summaryData) (ui : uiState) : completion string :=
  let removalExcluded := removalFeeExcluded (f2 ui) in
  let removalPriceClass :=
    if ToBoolean removalExcluded then "class=" ++ q "align-right is-excluded" else "class=" ++ q "align-right" in
  let removalDiscountedPrice :=
    if ToBoolean removalExcluded then num 0 else or (removalFee summary) (num 0) in
  let! price := call_toFixed (or (removalFee summary) (num 0)) 2 in
  let! discounted := call_toFixed removalDiscountedPrice 2 in
  Normal ("
            <tr>
                <td data-label=" ++ q "NO" ++ ">" ++ ToString (VNumber itemNumber) ++ "</td>
                <td data-label=" ++ q "Description" ++ " class=" ++ q "description" ++ ">Removal</td>
                <td data-label=" ++ q "QTY" ++ " class=" ++ q "align-right" ++ ">" ++ ToString (or (removalQty (f2 ui)) (VNumber zero)) ++ "</td>
                <td data-label=" ++ q "Price" ++ " " ++ removalPriceClass ++ ">$" ++ price ++ "</td>
                <td data-label=" ++ q "Discounted Price" ++ " class=" ++ q "align-right" ++ ">$" ++ discounted ++ "</td>
            </tr>
        ").

(** [items.filter(i => i.width && i.height).length] *)
Definition validItemCount_of (its : list item) : float64 :=
  of_nat (List.length (List.filter is_valid its)).

(** The [rows] array at the end of [_generatePageOneItemsTableHtml];
    [itemNumber] is threaded through the pushes. *)
Definition page_one_rows (summary : summaryData) (qd : quoteData) (ui : uiState)
  : completion (list string) :=
  let validItemCount := validItemCount_of (items qd) in
  let! r1 := rollerBlinds_row validItemCount summary in
  let rows := [r1] in
  let itemNumber := of_Z 2 in
  let! '(rows, itemNumber) :=
    (if gt_number (acceSum summary) zero
     then let! r := acce_row itemNumber summary in
          Normal ((rows ++ [r])%list, add itemNumber (of_Z 1))
     else Normal (rows, itemNumber)) in
  let! '(rows, itemNumber) :=
    (if gt_number (eAcceSum summary) zero
     then let! r := eAcce_row itemNumber summary in
          Normal ((rows ++ [r])%list, add itemNumber (of_Z 1))
     else Normal (rows, itemNumber)) in
  let! r := delivery_row itemNumber summary ui in
  let rows := (rows ++ [r])%list in
  let itemNumber := add itemNumber (of_Z 1) in
  let! r := install_row itemNumber validItemCount summary ui in
  let rows := (rows ++ [r])%list in
  let itemNumber := add itemNumber (of_Z 1) in
  let! r := removal_row itemNumber summary ui in
  let rows := (rows ++ [r])%list in
  Normal rows.

Definition _generatePageOneItemsTableHtml (summary : summaryData) (qd : quoteData) (ui : uiState)
  : completion string :=
  let! rows := page_one_rows summary qd ui in
  Normal (join EmptyString rows).

(** *** [_prepareTemplateData] *)

Definition decimal (m : N) (e : Z) : jsval := VNumber (of_decimal false m e).

(** [documentTitleParts]: the metadata fields that are truthy, in order. *)
Definition documentTitleParts (f3 : f3Data) : list jsval :=
  List.filter ToBoolean [quoteId f3; customerName f3; customerPhone f3].

Definition _prepareTemplateData (this : service) (qd : quoteData) (ui : uiState) (f3 : f3Data)
  : completion (gmap string jsval) :=
  let summary := calculateF2Summary (calc this) qd ui in
  let grandTotal := grandTotal_of f3 summary in
  let its := items qd in
  let price_of := getAccessoryPrice (calc this) in

  let motorQty := VNumber (of_nat (List.length (List.filter (fun i => ToBoolean (motor i)) its))) in
  let motorPrice := times (or (price_of "motorStandard") (num 0)) motorQty in

  let totalRemoteQty := or (driveRemoteCount ui) (num 0) in
  let remote1chQty := remote_1ch_qty (f1 ui) in
  let remote16chQty :=
    if strict_eq (remote_1ch_qty (f1 ui)) VNull
    then totalRemoteQty
    else VNumber (minus totalRemoteQty remote1chQty) in
  let remotePricePerUnit := or (price_of "remoteStandard") (num 0) in
  let remote1chPrice := times remotePricePerUnit remote1chQty in
  let remote16chPrice := times remotePricePerUnit remote16chQty in

  let chargerQty := or (driveChargerCount ui) (num 0) in
  let chargerPrice := times (or (price_of "chargerStandard") (num 0)) chargerQty in

  let cord3mQty := or (driveCordCount ui) (num 0) in
  let cord3mPrice := times (or (price_of "cord3m") (num 0)) cord3mQty in

  let documentTitle := join " " (List.map ToString (documentTitleParts f3)) in

  let! customerInfoHtml := _formatCustomerInfo f3 in
  let! itemsTableBody := _generatePageOneItemsTableHtml summary qd ui in
  let! subtotal := call_toFixed (or (sumPrice summary) (num 0)) 2 in
  let gst_text := toFixed (mul (divide grandTotal (decimal 11 (-1))) (of_decimal false 1 (-1))) 2 in
  let! grandTotal_text := call_toFixed grandTotal 2 in
  let deposit := toFixed (times grandTotal (decimal 5 (-1))) 2 in
  let balance := toFixed (times grandTotal (decimal 5 (-1))) 2 in
  let savings :=
    toFixed (minus (or (firstRbPrice summary) (num 0)) (or (disRbPrice summary) (num 0))) 2 in
  let! notes := call_replace_newlines (or (generalNotes f3) (VString EmptyString)) in
  let! terms :=
    call_replace_newlines
      (or (termsConditions f3) (VString "Standard terms and conditions apply.")) in
  let! rollerBlindsTable := _generateItemsTableHtml its summary in
  Normal
    (list_to_map
       [ ("documentTitle", VString documentTitle);
         ("quoteId", quoteId f3);
         ("issueDate", issueDate f3);
         ("dueDate", dueDate f3);
         ("customerInfoHtml", VString customerInfoHtml);
         ("itemsTableBody", VString itemsTableBody);
         ("subtotal", VString ("$" ++ subtotal));
         ("gst", VString ("$" ++ gst_text));
         ("grandTotal", VString ("$" ++ grandTotal_text));
         ("deposit", VString ("$" ++ deposit));
         ("balance", VString ("$" ++ balance));
         ("savings", VString ("$" ++ savings));
         ("generalNotes", VString notes);
         ("termsAndConditions", VString terms);
         ("rollerBlindsTable", VString rollerBlindsTable);
         ("motorQty", or motorQty (VString EmptyString));
         ("motorPrice", VString (formatPrice (VNumber motorPrice)));
         ("remote1chQty", or remote1chQty (VString EmptyString));
         ("remote1chPrice", VString (formatPrice (VNumber remote1chPrice)));
         ("remote16chQty", or remote16chQty (VString EmptyString));
         ("remote16chPrice", VString (formatPrice (VNumber remote16chPrice)));
         ("chargerQty", or chargerQty (VString EmptyString));
         ("chargerPrice", VString (formatPrice (VNumber chargerPrice)));
         ("cord3mQty", or cord3mQty (VString EmptyString));
         ("cord3mPrice", VString (formatPrice (VNumber cord3mPrice)));
         ("eAcceSum", VString (formatPrice (eAcceSum summary))) ]).

(** *** [generateQuoteHtml] *)

(** The style pattern, under the [i] flag: [<style>], any text (greedy,
    group 1), [</style>]. *)
Definition style_pattern : regex :=
  {| pre := literal_ci "<style>"; group := [Star any]; post := literal_ci "</style>" |}.

(** The body pattern, under the [i] flag: [<body], characters other than
    [>] (greedy), [>], any text (greedy, group 1), [</body>]. *)
Definition body_pattern : regex :=
  {| pre := literal_ci "<body" ++ [Star (not_ch ">"); Chr (ch ">")];
     group := [Star any];
     post := literal_ci "</body>" |}.

Definition body_error : exn :=
  Error "Could not find body content in the details template.".

(** The steps of [generateQuoteHtml] after the template data is ready. *)
Definition assemble (this : service) (templateData : gmap string jsval) : completion string :=
  let! populatedDetailsPageHtml := _populateTemplate (detailsTemplate this) templateData in
  let styleMatch := match_ style_pattern populatedDetailsPageHtml in
  let detailsBodyMatch := match_ body_pattern populatedDetailsPageHtml in
  match detailsBodyMatch with
  | None => Throw body_error
  | Some (_, detailsBodyContent) =>
      let detailsStyleContent :=
        match styleMatch with Some (whole, _) => whole | None => EmptyString end in
      let finalHtml :=
        replace_first "</head>" (detailsStyleContent ++ "</head>") (quoteTemplate this) in
      let finalHtml := replace_first "</body>" (detailsBodyContent ++ "</body>") finalHtml in
      let! finalHtml := _populateTemplate finalHtml templateData in
      let finalHtml := replace_first "<body>" ("<body>" ++ actionBarHtml this) finalHtml in
      let finalHtml := replace_first "</body>" (scriptHtml this ++ "</body>") finalHtml in
      Normal finalHtml
  end.

(** [None] stands for the [null] returned while a template is missing. *)
Definition generateQuoteHtml (this : service) (qd : quoteData) (ui : uiState) (f3 : f3Data)
  : completion (option string) :=
  if is_empty (quoteTemplate this) || is_empty (detailsTemplate this)
  then Normal None
  else
    let! templateData := _prepareTemplateData this qd ui f3 in
    let! finalHtml := assemble this templateData in
    Normal (Some finalHtml).

End QuoteGeneratorService.

(* ===================================================================== *)
(** ** Vocabulary of the statements *)
(* ===================================================================== *)

Module Spec.

Import Str Num JS Regex QuoteGeneratorService.
Import ListNotations.
Open Scope list_scope.
Open Scope string_scope.

(** *** Customer block *)

Definition name_text (f3 : f3Data) : string :=
  ToString (or (customerName f3) (VString EmptyString)).

Definition address_line (f3 : f3Data) : string :=
  match customerAddress f3 with
  | VString s =>
      if is_empty s then EmptyString
      else replace_all newline (fun _ _ => "<br>") s ++ "<br>"
  | _ => EmptyString
  end.

Definition phone_line (f3 : f3Data) : string :=
  if ToBoolean (customerPhone f3)
  then "Phone: " ++ ToString (customerPhone f3) ++ "<br>"
  else EmptyString.

Definition email_line (f3 : f3Data) : string :=
  if ToBoolean (customerEmail f3)
  then "Email: " ++ ToString (customerEmail f3)
  else EmptyString.

(** A value that is absent (falsy) or a string: what the text fields of
    the metadata hold. *)
Definition absent_or_string (v : jsval) : Prop :=
  ToBoolean v = true -> exists s, v = VString s.

(** *** Rows of the page-one table *)

Definition css (c : string) : string := "class=" ++ q c.

(** A cell with a label only, and a cell with further attributes. *)
Definition td_plain (label content : string) : string :=
  "<td data-label=" ++ q label ++ ">" ++ content ++ "</td>".

Definition td (label attrs content : string) : string :=
  "<td data-label=" ++ q label ++ " " ++ attrs ++ ">" ++ content ++ "</td>".

Definition line (indent : nat) : string := String nl (Str.repeat " " indent).

(** A five-cell row as the template literals lay it out: [<tr>] at
    [indent], cells four columns deeper, and the closing back-tick four
    columns to the left of [<tr>]. *)
Definition row5 (indent : nat) (c1 c2 c3 c4 c5 : string) : string :=
  line indent ++ "<tr>"
  ++ line (indent + 4) ++ c1
  ++ line (indent + 4) ++ c2
  ++ line (indent + 4) ++ c3
  ++ line (indent + 4) ++ c4
  ++ line (indent + 4) ++ c5
  ++ line indent ++ "</tr>"
  ++ line (indent - 4).

(** A Delivery, Installation or Removal row: [fee] is the nominal fee
    formatted with two decimals, [excluded] the exclusion flag. *)
Definition fee_row (no description qty : string) (excluded : bool) (fee : string) : string :=
  row5 12
    (td_plain "NO" no)
    (td "Description" (css "description") description)
    (td "QTY" (css "align-right") qty)
    (td "Price" (css (if excluded then "align-right is-excluded" else "align-right"))
        ("$" ++ fee))
    (td "Discounted Price" (css "align-right")
        ("$" ++ (if excluded then "0.00" else fee))).

(** An accessories row: the same amount in both price columns. *)
Definition accessory_row (no description amount : string) : string :=
  row5 16
    (td_plain "NO" no)
    (td "Description" (css "description") description)
    (td "QTY" (css "align-right") "NA")
    (td "Price" (css "align-right") ("$" ++ amount))
    (td "Discounted Price" (css "align-right") ("$" ++ amount)).

(** The text of the first cell labelled [label] in a row: what stands
    between the label and [</td>], i.e. further attributes and content. *)
Definition td_cell (label row : string) : option string :=
  match split_first ("<td data-label=" ++ q label) row with
  | Some (_, after) =>
      match split_first "</td>" after with
      | Some (inside, _) => Some inside
      | None => None
      end
  | None => None
  end.

Definition has_excluded_marker (cell_text : string) : bool :=
  includes cell_text "is-excluded".

(** *** Currency text *)

(** [$], one or more digits, a point, exactly two digits. *)
Definition is_currency (s : string) : bool :=
  match s with
  | String "$" r =>
      let k := run_length is_digit r in
      (0 <? k)%nat &&
      match drop k r with
      | String "." (String a (String b EmptyString)) => is_digit a && is_digit b
      | _ => false
      end
  | _ => false
  end.

(** A value for which [formatPrice] has no amount to show: anything but
    a Number, and a Number that is not greater than zero (zero, a
    negative Number, NaN). *)
Definition no_amount (v : jsval) : Prop :=
  match v with
  | VNumber x => ltb zero x = false
  | _ => True
  end.

(** *** Totals *)

(** The literals [1.1], [0.1] and [0.5] of [_prepareTemplateData]. *)
Definition one_point_one : float64 := of_decimal false 11 (-1).
Definition point_one : float64 := of_decimal false 1 (-1).
Definition one_half : float64 := of_decimal false 5 (-1).

Definition money (x : float64) : jsval := VString ("$" ++ toFixed x 2).

(** A Number that is finite and below 10^21 in magnitude: the range in
    which [toFixed] writes decimals. *)
Definition fixed_range (x : float64) : bool :=
  match x with
  | S754_zero _ => true
  | S754_finite _ m e => negb (ge_1e21 m e)
  | _ => false
  end.

(** After [$]: an optional minus sign, one or more digits, a point and
    two digits. *)
Definition two_decimals (v : jsval) : bool :=
  match v with
  | VString (String "$" t) =>
      is_currency ("$" ++ (if starts_with "-" t then drop 1 t else t))
  | _ => false
  end.

(** *** Detail rows *)

(** The fabric name contains [light-filter], in any letter case. *)
Definition names_light_filter (fabric_name : jsval) : bool :=
  match fabric_name with
  | VString f => negb (is_empty f) && includes (toLowerCase f) "light-filter"
  | _ => false
  end.

Definition blockout_types : list string := ["B1"; "B2"; "B3"; "B4"; "B5"].

(** *** The merged document *)

(** What a token becomes under a mapping: the string form of the value
    under its key, or the token itself when the mapping has no such key. *)
Definition callback (data : gmap string jsval) (match_ key : string) : string :=
  match data !! key with
  | Some v => ToString v
  | None => match_
  end.

(** A template with every token resolved under a mapping. *)
Definition populated (template : string) (data : gmap string jsval) : string :=
  replace_all placeholder (callback data) template.

(** The summary template with the style fragment put before [</head>]
    and the detail body before [</body>], populated, then given the
    action bar after [<body>] and the script before [</body>]. *)
Definition merged (this : service) (data : gmap string jsval) (style body : string) : string :=
  let html := replace_first "</head>" (style ++ "</head>") (quoteTemplate this) in
  let html := replace_first "</body>" (body ++ "</body>") html in
  let html := populated html data in
  let html := replace_first "<body>" ("<body>" ++ actionBarHtml this) html in
  replace_first "</body>" (scriptHtml this ++ "</body>") html.

(** *** Templates as segments *)

(** A template read as literal text and placeholder tokens.  A token has
    two or three opening braces, a key, and two or three closing ones. *)
Inductive segment : Type :=
| Text (t : string)
| Token (open3 : bool) (key : string) (close3 : bool).

Definition render (s : segment) : string :=
  match s with
  | Text t => t
  | Token o k c =>
      "{{" ++ (if o then "{" else EmptyString) ++ k ++ "}}"
      ++ (if c then "}" else EmptyString)
  end.

Definition render_all (segs : list segment) : string :=
  Str.concat (List.map render segs).

(** What substitution makes of a segment: text stays; a token becomes
    the value of its key, or stays when the mapping has no such key. *)
Definition substitute (data : gmap string jsval) (s : segment) : string :=
  match s with
  | Text t => t
  | Token _ k _ =>
      match data !! k with
      | Some v => ToString v
      | None => render s
      end
  end.

(** A key: one or more of [A-Z], [a-z], [0-9], [_], [-]. *)
Definition is_key (k : string) : bool :=
  negb (is_empty k) && Str.forallb word_or_dash k.

Definition segment_ok (s : segment) : bool :=
  match s with
  | Text _ => true
  | Token _ k _ => is_key k
  end.

(** Text that cannot be taken for the start of a token: no two
    consecutive opening braces, and no opening brace at the end. *)
Fixpoint plain (t : string) : bool :=
  match t with
  | EmptyString => true
  | String c t' =>
      if Ascii.eqb c "{"
      then match t' with
           | EmptyString => false
           | String d _ => negb (Ascii.eqb d "{") && plain t'
           end
      else plain t'
  end.

(** A segment list that reads back as itself: plain texts, real keys,
    and no closing brace right after a token closed by two braces. *)
Fixpoint well_formed (segs : list segment) : bool :=
  match segs with
  | [] => true
  | Text t :: rest => plain t && well_formed rest
  | Token _ k c :: rest =>
      is_key k && (c || negb (starts_with "}" (render_all rest))) && well_formed rest
  end.

(** A figure that is a Number once defaulted to 0: a Number, or absent. *)
Definition amount_like (v : jsval) : Prop :=
  exists x : float64, or v (num 0) = VNumber x.

(** A summary whose page-one figures are all Numbers or absent. *)
Definition page_one_figures (summary : summaryData) : Prop :=
  amount_like (firstRbPrice summary) /\ amount_like (disRbPrice summary)
  /\ amount_like (acceSum summary) /\ amount_like (eAcceSum summary)
  /\ amount_like (deliveryFee summary) /\ amount_like (installFee summary)
  /\ amount_like (removalFee summary).

End Spec.

Import Str Num JS Regex QuoteGeneratorService Spec.
Import ListNotations.
Open Scope list_scope.
Open Scope string_scope.

(* ===================================================================== *)
(** ** Example inputs and proof vocabulary *)
(* ===================================================================== *)

Definition idle_calculationService : calculationService :=
  {| calculateF2Summary := fun _ _ =>
       {| gst := VUndefined; sumPrice := VUndefined; firstRbPrice := VUndefined;
          disRbPrice := VUndefined; mulTimes := VUndefined; acceSum := VUndefined;
          eAcceSum := VUndefined; deliveryFee := VUndefined; installFee := VUndefined;
          removalFee := VUndefined |};
     getAccessoryPrice := fun _ => VUndefined |}.

Definition blank_ui : uiState :=
  {| driveRemoteCount := VUndefined; driveChargerCount := VUndefined;
     driveCordCount := VUndefined;
     f1 := {| remote_1ch_qty := VNull |};
     f2 := {| deliveryFeeExcluded := VBool false; installFeeExcluded := VBool false;
              removalFeeExcluded := VBool false; deliveryQty := VUndefined;
              removalQty := VUndefined |} |}.

Definition blank_f3 : f3Data :=
  {| finalOfferPrice := VUndefined; quoteId := VUndefined; issueDate := VUndefined;
     dueDate := VUndefined; customerName := VUndefined; customerAddress := VUndefined;
     customerPhone := VUndefined; customerEmail := VUndefined;
     generalNotes := VUndefined; termsConditions := VUndefined |}.

Definition f3_only_phone : f3Data :=
  {| finalOfferPrice := VUndefined; quoteId := VUndefined; issueDate := VUndefined;
     dueDate := VUndefined; customerName := VUndefined; customerAddress := VUndefined;
     customerPhone := VString "0400 000 000"; customerEmail := VNull;
     generalNotes := VUndefined; termsConditions := VUndefined |}.

Definition item_100x100 : item :=
  {| width := num 100; height := num 100; fabric := VUndefined;
     fabricType := VString "SN"; color := VUndefined; location := VUndefined;
     winder := VUndefined; dual := VUndefined; motor := VBool true;
     linePrice := num 50 |}.

Definition item_no_height : item :=
  {| width := num 100; height := VNull; fabric := VString "Vibe";
     fabricType := VString "B1"; color := VUndefined; location := VUndefined;
     winder := VUndefined; dual := VUndefined; motor := VUndefined;
     linePrice := num 80 |}.

Definition summary_x11 : summaryData :=
  {| gst := num 110; sumPrice := num 100; firstRbPrice := num 120;
     disRbPrice := num 100; mulTimes := decimal 11 (-1); acceSum := num 0;
     eAcceSum := num 25; deliveryFee := num 50; installFee := num 20;
     removalFee := VUndefined |}.

Definition ui_all_excluded : uiState :=
  {| driveRemoteCount := VUndefined; driveChargerCount := VUndefined;
     driveCordCount := VUndefined;
     f1 := {| remote_1ch_qty := VNull |};
     f2 := {| deliveryFeeExcluded := VBool true; installFeeExcluded := VBool true;
              removalFeeExcluded := VBool true; deliveryQty := VUndefined;
              removalQty := VUndefined |} |}.

Definition one_item_order : quoteData := {| items := [item_100x100] |}.

Definition f3_offer (v : jsval) : f3Data :=
  {| finalOfferPrice := v; quoteId := VUndefined; issueDate := VUndefined;
     dueDate := VUndefined; customerName := VUndefined; customerAddress := VUndefined;
     customerPhone := VUndefined; customerEmail := VUndefined;
     generalNotes := VUndefined; termsConditions := VUndefined |}.

Definition service_no_body : service :=
  _initialize
    (constructor {| calculateF2Summary := fun _ _ => summary_x11;
                    getAccessoryPrice := fun _ => VUndefined |})
    (Some ("<html><head></head><body>{{grandTotal}}</body></html>",
           "<div>{{{rollerBlindsTable}}}</div>")).

Definition no_items : quoteData := {| items := [] |}.

(** The template data of an empty order under [summary_x11]. *)
Definition data_x11 : gmap string jsval :=
  Eval vm_compute in
    match _prepareTemplateData service_no_body no_items blank_ui blank_f3 with
    | Normal d => d
    | Throw _ => ∅
    end.

Definition item_light_blockout : item :=
  {| width := num 1; height := num 1; fabric := VString "Vibe LIGHT-Filter";
     fabricType := VString "B2"; color := VUndefined; location := VUndefined;
     winder := VUndefined; dual := VUndefined; motor := VUndefined;
     linePrice := VUndefined |}.

Definition service_no_style : service :=
  _initialize
    (constructor {| calculateF2Summary := fun _ _ => summary_x11;
                    getAccessoryPrice := fun _ => VUndefined |})
    (Some ("<html><head></head><body>{{grandTotal}}</body></html>",
           "<html><BODY class=page>{{savings}}</body></html>")).

(** A detail template with a style block. *)
Definition service_with_style : service :=
  _initialize
    (constructor {| calculateF2Summary := fun _ _ => summary_x11;
                    getAccessoryPrice := fun _ => VUndefined |})
    (Some ("<html><head><title>Quote</title></head><body>{{grandTotal}}</body></html>",
           "<html><STYLE>td { padding: 4px }</style><body>{{savings}}</body></html>")).

(** What a successful atom may have taken. *)
Definition accepts (a : atom) (piece : string) : Prop :=
  match a with
  | Chr p => exists c, piece = String c EmptyString /\ p c = true
  | Opt p => piece = EmptyString \/ exists c, piece = String c EmptyString /\ p c = true
  | Star p => Str.forallb p piece = true
  | Plus p => Str.forallb p piece = true /\ piece <> EmptyString
  end.

(** The arrow function [_populateTemplate] hands to [replace]. *)
Definition arrow (data : gmap string jsval) (match_ key : string) : completion string :=
  let! own := call_hasOwnProperty data key in
  Normal (if own then ToString (get data key) else match_).

(** Substitution over segments by a function that may throw. *)
Fixpoint substitute_with (f : string -> string -> completion string)
                         (segs : list segment) : completion string :=
  match segs with
  | [] => Normal EmptyString
  | Text t :: rest => let! r := substitute_with f rest in Normal (t ++ r)
  | Token o k c :: rest =>
      let! x := f (render (Token o k c)) k in
      let! r := substitute_with f rest in
      Normal (x ++ r)
  end.

Definition is_token (s : segment) : bool :=
  match s with
  | Token _ _ _ => true
  | Text _ => false
  end.

(** A mapping with an entry of its own named [hasOwnProperty], and one
    whose key holds a space. *)
Definition shadowing_data : gmap string jsval :=
  list_to_map [("hasOwnProperty", VString "yes"); ("name", VString "Ann")].


Definition brace (b : bool) (c : ascii) : string :=
  if b then String c EmptyString else EmptyString.


Definition greeting_data : gmap string jsval :=
  list_to_map [("name", VString "Ann"); ("body", VString "<b>x</b>"); ("n", num 3)].

(* ===================================================================== *)
(** ** Further vocabulary *)
(* ===================================================================== *)

(** A computation whose only abrupt completion is a [TypeError]. *)
Definition type_errors_only {A : Type} (c : completion A) : Prop :=
  forall e : exn, c = Throw e -> e = TypeError.

Definition f3_numeric_address : f3Data :=
  {| finalOfferPrice := VUndefined; quoteId := VUndefined; issueDate := VUndefined;
     dueDate := VUndefined; customerName := VString "Ann"; customerAddress := num 12;
     customerPhone := VUndefined; customerEmail := VUndefined;
     generalNotes := VUndefined; termsConditions := VUndefined |}.

Fixpoint has_char (c : ascii) (s : string) : bool :=
  match s with
  | EmptyString => false
  | String x s' => Ascii.eqb c x || has_char c s'
  end.

(** Every newline character replaced by [<br>], anything else kept. *)
Fixpoint nl_to_br (s : string) : string :=
  match s with
  | EmptyString => EmptyString
  | String c s' => if Ascii.eqb nl c then "<br>" ++ nl_to_br s' else String c (nl_to_br s')
  end.

(** No [$] followed by [$], [&], a back-tick or an apostrophe: a
    replacement text that [String.prototype.replace] inserts verbatim. *)
Fixpoint dollar_safe (r : string) : bool :=
  match r with
  | String "$" (String c _ as r1) =>
      negb (Ascii.eqb c "$" || Ascii.eqb c "&" || Ascii.eqb c "`" || Ascii.eqb c "'")
      && dollar_safe r1
  | String _ r' => dollar_safe r'
  | EmptyString => true
  end.

(** The characters of a string, one string each. *)
Fixpoint singletons (w : string) : list string :=
  match w with
  | EmptyString => []
  | String c w' => String c EmptyString :: singletons w'
  end.

Definition prepend (l : list string) (r : option (list string * string))
  : option (list string * string) :=
  match r with
  | Some (pieces, rest) => Some ((l ++ pieces)%list, rest)
  | None => None
  end.

(** [w] is [p] up to the case of ASCII letters. *)
Definition same_ci (p w : string) : Prop := toLowerCase w = toLowerCase p.

(** The classes the detail table gives to its cells. *)
Definition detail_classes : list string :=
  ["text-center"; "bg-light-filter"; "bg-screen"; "bg-blockout"; EmptyString; "text-right"].

(** The number of accessory rows the page-one table shows. *)
Definition optional_rows (summary : summaryData) : nat :=
  (if gt_number (acceSum summary) zero then 1 else 0)
  + (if gt_number (eAcceSum summary) zero then 1 else 0).

(** A row number as it is printed. *)
Definition row_number (n : nat) : string := Str.of_N (N.of_nat n).

(** The later revision of the service ([src/unnamed/part_000]) takes the
    items and the multiplier from the template data the calculation
    service prepared; [mulTimes] is used as it is found there. *)
Module Revised.

(** The [rows] constant of the revised [_generateItemsTableHtml]. *)
Definition detail_rows (its : list item) (mul_times : jsval) : completion (list string) :=
  map_indexed (item_row mul_times) (List.filter is_valid its) 0.

(** [_generateItemsTableHtml(templateData)], with
    [const { items, mulTimes } = templateData]. *)
Definition _generateItemsTableHtml (its : list item) (mul_times : jsval) : completion string :=
  let! row_list := detail_rows its mul_times in
  let rows := join EmptyString row_list in
  Normal ("
            <table class=" ++ q "detailed-list-table" ++ ">
                <colgroup>
                    <col style=" ++ q "width: 5%;" ++ ">
                    <col style=" ++ q "width: 20%;" ++ ">
                    <col style=" ++ q "width: 15%;" ++ ">
                    <col style=" ++ q "width: 12%;" ++ ">
                    <col style=" ++ q "width: 9%;" ++ ">
                    <col style=" ++ q "width: 9%;" ++ ">
                    <col style=" ++ q "width: 9%;" ++ ">
                    <col style=" ++ q "width: 13%;" ++ ">
                </colgroup>
                <thead>
                    <tr class=" ++ q "table-title" ++ ">
                        <th colspan=" ++ dq ++ ToString (VNumber (of_nat (List.length headers))) ++ dq ++ ">Roller Blinds - Detailed List</th>
                    </tr>
                    <tr>
                        " ++ Str.join EmptyString (List.map (fun h => "<th>" ++ h ++ "</th>") headers) ++ "
                    </tr>
                </thead>
                <tbody>
                    " ++ rows ++ "
                </tbody>
            </table>
        ").

End Revised.

(** Ends with the price cell [text] and the end of the row. *)
Definition ends_with_price (text row : string) : Prop :=
  exists front, row = front ++ cell "Price" (VString text) "text-right" ++ "</tr>".

Definition summary_without_multiplier : summaryData :=
  {| gst := VUndefined; sumPrice := VUndefined; firstRbPrice := VUndefined;
     disRbPrice := VUndefined; mulTimes := VUndefined; acceSum := VUndefined;
     eAcceSum := VUndefined; deliveryFee := VUndefined; installFee := VUndefined;
     removalFee := VUndefined |}.

(** A mapping whose customer name is itself a placeholder. *)
Definition nested_data : gmap string jsval :=
  list_to_map [("name", VString "{{grandTotal}}"); ("grandTotal", VString "$110.00")].

(* ===================================================================== *)
(** ** Facts about strings *)
(* ===================================================================== *)

Lemma sapp_assoc (a b c : string) : (a ++ b) ++ c = a ++ (b ++ c).
Proof. induction a as [|x a IH]; simpl; [reflexivity | now rewrite IH]. Qed.

Lemma sapp_nil_r (a : string) : a ++ EmptyString = a.
Proof. induction a as [|x a IH]; simpl; [reflexivity | now rewrite IH]. Qed.

Lemma slength_app (a b : string) :
  String.length (a ++ b) = (String.length a + String.length b)%nat.
Proof. induction a as [|x a IH]; simpl; [reflexivity | now rewrite IH]. Qed.

Lemma take_app_length (a b : string) : take (String.length a) (a ++ b) = a.
Proof. induction a as [|x a IH]; simpl; [reflexivity | now rewrite IH]. Qed.

Lemma drop_app_length (a b : string) : drop (String.length a) (a ++ b) = b.
Proof. induction a as [|x a IH]; simpl; [reflexivity | exact IH]. Qed.

Lemma is_empty_true (s : string) : is_empty s = true <-> s = EmptyString.
Proof. destruct s; simpl; split; intros H; try reflexivity; discriminate. Qed.

(* ===================================================================== *)
(** ** Facts about values *)
(* ===================================================================== *)

Lemma ToBoolean_and (a b : jsval) :
  ToBoolean (and a b) = ToBoolean a && ToBoolean b.
Proof.
  unfold and. destruct (ToBoolean a) eqn:Ha; simpl; [reflexivity | exact Ha].
Qed.

Lemma or_falsy (a b : jsval) : ToBoolean a = false -> or a b = b.
Proof. intros H. unfold or. now rewrite H. Qed.

Lemma or_truthy (a b : jsval) : ToBoolean a = true -> or a b = a.
Proof. intros H. unfold or. now rewrite H. Qed.

Lemma is_valid_false (i : item) :
  ToBoolean (width i) = false \/ ToBoolean (height i) = false -> is_valid i = false.
Proof.
  intros [H | H]; unfold is_valid; rewrite ToBoolean_and, H;
    [reflexivity | apply andb_false_r].
Qed.

(* ===================================================================== *)
(** ** The Number layer on known values *)
(* ===================================================================== *)

Example toString_sum :
  Num.toString (add (of_decimal false 1 (-1)) (of_decimal false 2 (-1)))
  = "0.30000000000000004".
Proof. vm_compute. reflexivity. Qed.

Example toString_shapes :
  List.map Num.toString
    [of_Z 100; of_decimal false 12345 (-1); of_decimal false 1 (-6);
     of_decimal false 1 (-7); of_decimal false 1 21; of_decimal true 25 (-1);
     of_decimal false 5 (-324)]
  = ["100"; "1234.5"; "0.000001"; "1e-7"; "1e+21"; "-2.5"; "5e-324"].
Proof. vm_compute. reflexivity. Qed.

Example toFixed_rounding :
  List.map (fun x => toFixed x 2)
    [of_decimal false 1005 (-3); of_decimal false 8345 (-3); of_decimal false 5 (-3);
     of_decimal true 15 (-1); S754_zero true; mul (of_Z 50) (of_decimal false 11 (-1))]
  = ["1.00"; "8.35"; "0.01"; "-1.50"; "0.00"; "55.00"].
Proof. vm_compute. reflexivity. Qed.

Example parseFloat_prefixes :
  List.map (fun s => Num.toString (parseFloat (VString s)))
    ["1500"; "  12.5abc"; "abc"; ".5"; "1e3"; "-0"; "-Infinityx"; "0x10"]
  = ["1500"; "12.5"; "NaN"; "0.5"; "1000"; "0"; "-Infinity"; "0"].
Proof. vm_compute. reflexivity. Qed.

Example ToNumber_strings :
  List.map (fun s => Num.toString (ToNumber (VString s)))
    [EmptyString; " 12.5 "; "12.5abc"; "0x10"; "0b101"; "1e3"; "Infinity"]
  = ["0"; "12.5"; "NaN"; "16"; "5"; "1000"; "Infinity"].
Proof. vm_compute. reflexivity. Qed.

(* ===================================================================== *)
(** ** Missing templates (C6) *)
(* ===================================================================== *)

(** C6.  Whenever one of the two cached templates is the empty string,
    [generateQuoteHtml] completes normally with [null]: it returns, and it
    does not throw.  This is the state of an instance right after the
    constructor, and still the state after [_initialize] when the fetch
    failed. *)
Theorem generateQuoteHtml_null_without_templates :
  forall (this : service) (qd : quoteData) (ui : uiState) (f3 : f3Data),
    quoteTemplate this = EmptyString \/ detailsTemplate this = EmptyString ->
    generateQuoteHtml this qd ui f3 = Normal None.
Proof.
  intros this qd ui f3 [H | H]; unfold generateQuoteHtml; rewrite H; simpl.
  - reflexivity.
  - now rewrite orb_true_r.
Qed.

(** A render attempted before the fetch has settled, and one after a
    failed fetch. *)
Lemma generateQuoteHtml_null_without_templates_witness :
  generateQuoteHtml (constructor idle_calculationService)
                    {| items := [] |} blank_ui blank_f3 = Normal None
  /\ generateQuoteHtml (_initialize (constructor idle_calculationService) None)
                       {| items := [] |} blank_ui blank_f3 = Normal None.
Proof.
  split.
  - apply (generateQuoteHtml_null_without_templates
             (constructor idle_calculationService)).
    left. reflexivity.
  - apply (generateQuoteHtml_null_without_templates
             (_initialize (constructor idle_calculationService) None)).
    right. reflexivity.
Defined.

(* ===================================================================== *)
(** ** Customer info fragment (C10) *)
(* ===================================================================== *)

Lemma call_replace_newlines_string (s : string) :
  call_replace_newlines (VString s)
  = Normal (replace_all newline (fun _ _ => "<br>") s).
Proof. reflexivity. Qed.

Lemma name_text_absent (f3 : f3Data) :
  ToBoolean (customerName f3) = false -> name_text f3 = EmptyString.
Proof. intros H. unfold name_text. now rewrite or_falsy. Qed.

(** C10.  For metadata whose address is absent or a string, the customer
    fragment is the customer name between [<strong>] and [</strong><br>],
    followed by the address, phone and email lines in that order.  The bold
    element is always there and is empty when the name is absent; each of
    the three lines is the empty string when its field is absent. *)
Theorem formatCustomerInfo_shape :
  forall f3 : f3Data,
    absent_or_string (customerAddress f3) ->
    _formatCustomerInfo f3
    = Normal ("<strong>" ++ name_text f3 ++ "</strong><br>"
              ++ address_line f3 ++ phone_line f3 ++ email_line f3)
    /\ (ToBoolean (customerName f3) = false -> name_text f3 = EmptyString)
    /\ (ToBoolean (customerAddress f3) = false -> address_line f3 = EmptyString)
    /\ (ToBoolean (customerPhone f3) = false -> phone_line f3 = EmptyString)
    /\ (ToBoolean (customerEmail f3) = false -> email_line f3 = EmptyString).
Proof.
  intros f3 Haddr. repeat split.
  - unfold _formatCustomerInfo, address_line, phone_line, email_line.
    fold (name_text f3).
    destruct (ToBoolean (customerAddress f3)) eqn:Ha.
    + destruct (Haddr Ha) as [s Hs]. rewrite Hs in *. simpl in Ha.
      destruct s as [|c s]; [discriminate |].
      rewrite call_replace_newlines_string. cbn [bind is_empty].
      destruct (ToBoolean (customerPhone f3)), (ToBoolean (customerEmail f3));
        rewrite ?sapp_assoc, ?sapp_nil_r; simpl; rewrite ?sapp_assoc; reflexivity.
    + assert (Hline :
        match customerAddress f3 with
        | VString s => if is_empty s then EmptyString
                       else replace_all newline (fun _ _ => "<br>") s ++ "<br>"
        | _ => EmptyString
        end = EmptyString).
      { destruct (customerAddress f3) as [| | b | x | s]; try reflexivity.
        destruct s; [reflexivity | discriminate]. }
      rewrite Hline. cbn [bind].
      destruct (ToBoolean (customerPhone f3)), (ToBoolean (customerEmail f3));
        rewrite ?sapp_assoc, ?sapp_nil_r; simpl; rewrite ?sapp_assoc, ?sapp_nil_r;
        reflexivity.
  - apply name_text_absent.
  - intros H. unfold address_line.
    destruct (customerAddress f3) as [| | b | x | s]; try reflexivity.
    destruct s; [reflexivity | discriminate].
  - intros H. unfold phone_line. now rewrite H.
  - intros H. unfold email_line. now rewrite H.
Qed.

(** Metadata with a phone only: an empty bold element and the phone line. *)
Lemma formatCustomerInfo_shape_witness :
  absent_or_string (customerAddress f3_only_phone)
  /\ _formatCustomerInfo f3_only_phone
     = Normal "<strong></strong><br>Phone: 0400 000 000<br>".
Proof.
  assert (H : absent_or_string (customerAddress f3_only_phone))
    by (intros H; discriminate H).
  split; [exact H |].
  exact (proj1 (formatCustomerInfo_shape f3_only_phone H)).
Defined.

(* ===================================================================== *)
(** ** Items without width or height (C4) *)
(* ===================================================================== *)

Lemma filter_valid_skip (l1 l2 : list item) (i : item) :
  is_valid i = false ->
  List.filter is_valid (l1 ++ i :: l2)%list = List.filter is_valid (l1 ++ l2)%list.
Proof.
  intros H. induction l1 as [|a l1 IH]; simpl.
  - now rewrite H.
  - rewrite IH. reflexivity.
Qed.

Lemma map_indexed_length {A B : Type} (f : A -> nat -> completion B) (l : list A) :
  forall (index : nat) (out : list B),
    map_indexed f l index = Normal out -> List.length out = List.length l.
Proof.
  induction l as [|a l IH]; intros index out H; simpl in H.
  - injection H as <-. reflexivity.
  - destruct (f a index) as [b | e]; simpl in H; [| discriminate].
    destruct (map_indexed f l (S index)) as [bs | e] eqn:Hbs; simpl in H; [| discriminate].
    injection H as <-. simpl. f_equal. eapply IH. exact Hbs.
Qed.

(** C4.  An item whose width or whose height is absent (falsy) has no
    effect on the detail table nor on the page-one table: with or without
    it in the list, the detail rows, the rendered detail table, the valid
    item count and the page-one table are the same.  The detail table has
    one row per item that has both, and the count used for the Roller
    Blinds and Installation quantities is the number of those items. *)
Theorem invalid_items_are_ignored :
  forall (l1 l2 : list item) (i : item) (summary : summaryData) (ui : uiState),
    ToBoolean (width i) = false \/ ToBoolean (height i) = false ->
    detail_rows (l1 ++ i :: l2)%list summary = detail_rows (l1 ++ l2)%list summary
    /\ _generateItemsTableHtml (l1 ++ i :: l2)%list summary
       = _generateItemsTableHtml (l1 ++ l2)%list summary
    /\ validItemCount_of (l1 ++ i :: l2)%list = validItemCount_of (l1 ++ l2)%list
    /\ _generatePageOneItemsTableHtml summary {| items := (l1 ++ i :: l2)%list |} ui
       = _generatePageOneItemsTableHtml summary {| items := (l1 ++ l2)%list |} ui
    /\ (forall rows, detail_rows (l1 ++ i :: l2)%list summary = Normal rows ->
          List.length rows = List.length (List.filter is_valid (l1 ++ l2)%list))
    /\ validItemCount_of (l1 ++ i :: l2)%list
       = of_nat (List.length (List.filter is_valid (l1 ++ l2)%list)).
Proof.
  intros l1 l2 i summary ui Hi. apply is_valid_false in Hi.
  assert (Hrows : detail_rows (l1 ++ i :: l2)%list summary = detail_rows (l1 ++ l2)%list summary).
  { unfold detail_rows. now rewrite filter_valid_skip. }
  assert (Hcount : validItemCount_of (l1 ++ i :: l2)%list = validItemCount_of (l1 ++ l2)%list).
  { unfold validItemCount_of. now rewrite filter_valid_skip. }
  repeat split.
  - exact Hrows.
  - unfold _generateItemsTableHtml. now rewrite Hrows.
  - exact Hcount.
  - unfold _generatePageOneItemsTableHtml, page_one_rows. cbn [items].
    now rewrite Hcount.
  - intros rows H. rewrite Hrows in H. unfold detail_rows in H.
    now apply map_indexed_length in H.
  - rewrite Hcount. reflexivity.
Qed.

(** One complete item followed by one without a height: a single row, and
    a count of one. *)
Lemma invalid_items_are_ignored_witness :
  (ToBoolean (width item_no_height) = false \/ ToBoolean (height item_no_height) = false)
  /\ (forall rows,
        detail_rows ([item_100x100] ++ item_no_height :: [])%list summary_x11 = Normal rows ->
        List.length rows = 1%nat)
  /\ validItemCount_of ([item_100x100] ++ item_no_height :: [])%list = of_Z 1.
Proof.
  assert (H : ToBoolean (width item_no_height) = false
              \/ ToBoolean (height item_no_height) = false) by (right; reflexivity).
  pose proof (invalid_items_are_ignored [item_100x100] [] item_no_height
                summary_x11 blank_ui H) as (_ & _ & _ & _ & Hlen & Hcount).
  split; [exact H |]. split; [exact Hlen | exact Hcount].
Defined.

(* ===================================================================== *)
(** ** Page-one table: fee rows (C1) and accessory rows (C9) *)
(* ===================================================================== *)

(** Inversion of a [let!] that completed normally. *)
Ltac bind_inv H :=
  match type of H with
  | bind ?c _ = Normal _ =>
      let E := fresh "E" in
      destruct c eqn:E; [cbn [bind] in H | discriminate H]
  end.

Lemma toFixed_zero_2 : toFixed (of_Z 0) 2 = "0.00".
Proof. reflexivity. Qed.

Lemma call_toFixed_num0 : call_toFixed (num 0) 2 = Normal "0.00".
Proof. reflexivity. Qed.

Lemma item_number_2 : ToString (VNumber (of_Z 2)) = "2".
Proof. vm_compute. reflexivity. Qed.

Lemma item_number_3 : ToString (VNumber (add (of_Z 2) (of_Z 1))) = "3".
Proof. vm_compute. reflexivity. Qed.

(** Both spellings of a row are the same text once concatenations are
    re-associated. *)
Ltac same_text :=
  unfold fee_row, accessory_row, row5, td, td_plain, css, line, q;
  repeat (simpl; rewrite ?sapp_assoc);
  reflexivity.

Lemma delivery_row_text (n : float64) (summary : summaryData) (ui : uiState) (x : float64) :
  or (deliveryFee summary) (num 0) = VNumber x ->
  delivery_row n summary ui
  = Normal (fee_row (ToString (VNumber n)) "Delivery"
                    (ToString (or (deliveryQty (f2 ui)) (num 1)))
                    (ToBoolean (deliveryFeeExcluded (f2 ui))) (toFixed x 2)).
Proof.
  intros Hfee. unfold delivery_row. rewrite Hfee.
  destruct (ToBoolean (deliveryFeeExcluded (f2 ui)));
    cbn [call_toFixed bind num]; rewrite ?toFixed_zero_2; f_equal; same_text.
Qed.

Lemma install_row_text (n count : float64) (summary : summaryData) (ui : uiState) (x : float64) :
  or (installFee summary) (num 0) = VNumber x ->
  install_row n count summary ui
  = Normal (fee_row (ToString (VNumber n)) "Installation"
                    (ToString (VNumber count))
                    (ToBoolean (installFeeExcluded (f2 ui))) (toFixed x 2)).
Proof.
  intros Hfee. unfold install_row. rewrite Hfee.
  destruct (ToBoolean (installFeeExcluded (f2 ui)));
    cbn [call_toFixed bind num]; rewrite ?toFixed_zero_2; f_equal; same_text.
Qed.

Lemma removal_row_text (n : float64) (summary : summaryData) (ui : uiState) (x : float64) :
  or (removalFee summary) (num 0) = VNumber x ->
  removal_row n summary ui
  = Normal (fee_row (ToString (VNumber n)) "Removal"
                    (ToString (or (removalQty (f2 ui)) (VNumber zero)))
                    (ToBoolean (removalFeeExcluded (f2 ui))) (toFixed x 2)).
Proof.
  intros Hfee. unfold removal_row. rewrite Hfee.
  destruct (ToBoolean (removalFeeExcluded (f2 ui)));
    cbn [call_toFixed bind num]; rewrite ?toFixed_zero_2; f_equal; same_text.
Qed.

(** C1, as amended.  For each of Delivery, Installation and Removal, with
    the fee defaulting to 0 and then a Number [x]: when the exclusion flag
    is set (truthy), the discounted-price cell shows [$0.00] with the plain
    [align-right] class, and it is the nominal price cell that carries the
    [is-excluded] marker, next to the fee amount; when the flag is not set,
    both cells show the fee and neither carries the marker. *)
Theorem fee_rows_exclusion :
  forall (summary : summaryData) (ui : uiState) (n count : float64),
    (forall x, or (deliveryFee summary) (num 0) = VNumber x ->
       delivery_row n summary ui
       = Normal (fee_row (ToString (VNumber n)) "Delivery"
                         (ToString (or (deliveryQty (f2 ui)) (num 1)))
                         (ToBoolean (deliveryFeeExcluded (f2 ui))) (toFixed x 2)))
    /\ (forall x, or (installFee summary) (num 0) = VNumber x ->
          install_row n count summary ui
          = Normal (fee_row (ToString (VNumber n)) "Installation"
                            (ToString (VNumber count))
                            (ToBoolean (installFeeExcluded (f2 ui))) (toFixed x 2)))
    /\ (forall x, or (removalFee summary) (num 0) = VNumber x ->
          removal_row n summary ui
          = Normal (fee_row (ToString (VNumber n)) "Removal"
                            (ToString (or (removalQty (f2 ui)) (VNumber zero)))
                            (ToBoolean (removalFeeExcluded (f2 ui))) (toFixed x 2))).
Proof.
  intros summary ui n count. split; [| split]; intros x Hx.
  - now apply delivery_row_text.
  - now apply install_row_text.
  - now apply removal_row_text.
Qed.

(** A delivery fee of 50 with the flag set, an absent removal fee with the
    flag set. *)
Lemma fee_rows_exclusion_witness :
  or (deliveryFee summary_x11) (num 0) = num 50
  /\ delivery_row (of_Z 3) summary_x11 ui_all_excluded
     = Normal (fee_row "3" "Delivery" "1" true "50.00")
  /\ or (removalFee summary_x11) (num 0) = num 0
  /\ removal_row (of_Z 5) summary_x11 ui_all_excluded
     = Normal (fee_row "5" "Removal" "0" true "0.00").
Proof.
  destruct (fee_rows_exclusion summary_x11 ui_all_excluded (of_Z 3) (of_Z 1))
    as (Hd & _ & _).
  destruct (fee_rows_exclusion summary_x11 ui_all_excluded (of_Z 5) (of_Z 1))
    as (_ & _ & Hr).
  split; [reflexivity |]. split; [exact (Hd (of_Z 50) eq_refl) |].
  split; [reflexivity |]. exact (Hr (of_Z 0) eq_refl).
Defined.

(** C1 as stated fails.  With the three flags set and fees 50, 20 and
    absent, every discounted-price cell is the plain [$0.00] cell without
    the marker, and the marker sits on the nominal price cell instead. *)
Lemma fee_rows_marker_counterexample :
  match delivery_row (of_Z 3) summary_x11 ui_all_excluded,
        install_row (of_Z 4) (of_Z 1) summary_x11 ui_all_excluded,
        removal_row (of_Z 5) summary_x11 ui_all_excluded with
  | Normal d, Normal i, Normal r =>
      td_cell "Discounted Price" d = Some (" " ++ css "align-right" ++ ">$0.00")
      /\ td_cell "Price" d = Some (" " ++ css "align-right is-excluded" ++ ">$50.00")
      /\ List.map (fun row => option_map has_excluded_marker (td_cell "Discounted Price" row))
                  [d; i; r]
         = [Some false; Some false; Some false]
      /\ List.map (fun row => option_map has_excluded_marker (td_cell "Price" row))
                  [d; i; r]
         = [Some true; Some true; Some true]
  | _, _, _ => False
  end.
Proof. vm_compute. repeat split; reflexivity. Qed.

Lemma positive_amount (v : jsval) (p : string) :
  gt_number v zero = true ->
  call_toFixed (or v (num 0)) 2 = Normal p ->
  exists x, v = VNumber x /\ p = toFixed x 2.
Proof.
  intros Hgt Hp. destruct v as [| | b | x | s].
  - discriminate Hgt.
  - discriminate Hgt.
  - destruct b; [discriminate Hp | discriminate Hgt].
  - exists x. split; [reflexivity |].
    destruct x as [sg | sg | | sg m e]; try discriminate Hgt;
      cbn in Hp; now injection Hp as <-.
  - destruct s as [|c s]; [discriminate Hgt | discriminate Hp].
Qed.

Lemma acce_row_text (n : float64) (summary : summaryData) (r : string) :
  gt_number (acceSum summary) zero = true ->
  acce_row n summary = Normal r ->
  exists x, acceSum summary = VNumber x
            /\ r = accessory_row (ToString (VNumber n)) "Installation Accessories"
                                 (toFixed x 2).
Proof.
  intros Hgt H. unfold acce_row in H. bind_inv H.
  destruct (positive_amount _ _ Hgt E) as (x & Hx & ->).
  exists x. split; [exact Hx |]. injection H as <-. same_text.
Qed.

Lemma eAcce_row_text (n : float64) (summary : summaryData) (r : string) :
  gt_number (eAcceSum summary) zero = true ->
  eAcce_row n summary = Normal r ->
  exists x, eAcceSum summary = VNumber x
            /\ r = accessory_row (ToString (VNumber n)) "Motorised Accessories"
                                 (toFixed x 2).
Proof.
  intros Hgt H. unfold eAcce_row in H. bind_inv H.
  destruct (positive_amount _ _ Hgt E) as (x & Hx & ->).
  exists x. split; [exact Hx |]. injection H as <-. same_text.
Qed.

Lemma Normal_inj {A : Type} (a b : A) : Normal a = Normal b -> a = b.
Proof. intros H. now injection H. Qed.

Section PageOneRows.

Local Opaque Num.add Num.of_Z.

(** The rows of the page-one table, whenever it is produced: the Roller
    Blinds row, the optional accessory rows, then the three fee rows. *)
Lemma page_one_rows_shape :
  forall (summary : summaryData) (qd : quoteData) (ui : uiState) (rows : list string),
    page_one_rows summary qd ui = Normal rows ->
    exists (rb d i r : string) (acc eacc : list string) (n : float64),
      rows = ([rb] ++ acc ++ eacc ++ [d; i; r])%list
      /\ rollerBlinds_row (validItemCount_of (items qd)) summary = Normal rb
      /\ (if gt_number (acceSum summary) zero
          then exists x, acceSum summary = VNumber x
                 /\ acc = [accessory_row "2" "Installation Accessories" (toFixed x 2)]
          else acc = [])
      /\ (if gt_number (eAcceSum summary) zero
          then exists y, eAcceSum summary = VNumber y
                 /\ eacc = [accessory_row
                              (if gt_number (acceSum summary) zero then "3" else "2")
                              "Motorised Accessories" (toFixed y 2)]
          else eacc = [])
      /\ delivery_row n summary ui = Normal d
      /\ install_row (add n (of_Z 1)) (validItemCount_of (items qd)) summary ui = Normal i
      /\ removal_row (add (add n (of_Z 1)) (of_Z 1)) summary ui = Normal r.
Proof.
  intros summary qd ui rows H. unfold page_one_rows in H.
  bind_inv H. rename a into rb.
  destruct (gt_number (acceSum summary) zero) eqn:Hacc;
    destruct (gt_number (eAcceSum summary) zero) eqn:Heacc.
  - bind_inv H. bind_inv E0. apply Normal_inj in E0. subst a.
    bind_inv H. bind_inv E0. apply Normal_inj in E0. subst a.
    do 3 bind_inv H. apply Normal_inj in H. subst rows.
    destruct (acce_row_text _ _ _ Hacc E1) as (x & Hx & ->).
    destruct (eAcce_row_text _ _ _ Heacc E2) as (y & Hy & ->).
    rewrite item_number_2, item_number_3.
    exists rb, a, a2, a3,
      [accessory_row "2" "Installation Accessories" (toFixed x 2)],
      [accessory_row "3" "Motorised Accessories" (toFixed y 2)],
      (add (add (of_Z 2) (of_Z 1)) (of_Z 1)).
    split; [reflexivity |].
    split; [reflexivity |]. split; [exists x; split; [exact Hx | reflexivity] |].
    split; [exists y; split; [exact Hy | reflexivity] |].
    split; [exact E0 |]. split; [exact E3 | exact E4].
  - bind_inv H. bind_inv E0. apply Normal_inj in E0. subst a.
    cbn [bind] in H. do 3 bind_inv H. apply Normal_inj in H. subst rows.
    destruct (acce_row_text _ _ _ Hacc E1) as (x & Hx & ->).
    rewrite item_number_2.
    exists rb, a, a1, a2,
      [accessory_row "2" "Installation Accessories" (toFixed x 2)], [],
      (add (of_Z 2) (of_Z 1)).
    split; [reflexivity |].
    split; [reflexivity |]. split; [exists x; split; [exact Hx | reflexivity] |].
    split; [reflexivity |].
    split; [exact E0 |]. split; [exact E2 | exact E3].
  - cbn [bind] in H.
    bind_inv H. bind_inv E0. apply Normal_inj in E0. subst a.
    do 3 bind_inv H. apply Normal_inj in H. subst rows.
    destruct (eAcce_row_text _ _ _ Heacc E1) as (y & Hy & ->).
    rewrite item_number_2.
    exists rb, a, a1, a2, [],
      [accessory_row "2" "Motorised Accessories" (toFixed y 2)],
      (add (of_Z 2) (of_Z 1)).
    split; [reflexivity |].
    split; [reflexivity |]. split; [reflexivity |].
    split; [exists y; split; [exact Hy | reflexivity] |].
    split; [exact E0 |]. split; [exact E2 | exact E3].
  - cbn [bind] in H. do 3 bind_inv H. apply Normal_inj in H. subst rows.
    exists rb, a, a0, a1, [], [], (of_Z 2).
    split; [reflexivity |].
    split; [reflexivity |]. split; [reflexivity |]. split; [reflexivity |].
    split; [exact E0 |]. split; [exact E1 | exact E2].
Qed.

(** With figures that are Numbers or absent, the page-one rows are always
    produced. *)
Lemma page_one_rows_total :
  forall (summary : summaryData) (qd : quoteData) (ui : uiState),
    page_one_figures summary ->
    exists rows : list string, page_one_rows summary qd ui = Normal rows.
Proof.
  intros summary qd ui
    ((x1 & H1) & (x2 & H2) & (x3 & H3) & (x4 & H4) & (x5 & H5) & (x6 & H6) & (x7 & H7)).
  unfold page_one_rows.
  assert (Hrb : exists rb, rollerBlinds_row (validItemCount_of (items qd)) summary
                           = Normal rb).
  { unfold rollerBlinds_row. rewrite H1, H2. cbn [call_toFixed bind]. eexists. reflexivity. }
  destruct Hrb as (rb & ->). cbn [bind].
  assert (Hacc : forall n, exists r, acce_row n summary = Normal r).
  { intros n. unfold acce_row. rewrite H3. cbn [call_toFixed bind]. eexists. reflexivity. }
  assert (Heacc : forall n, exists r, eAcce_row n summary = Normal r).
  { intros n. unfold eAcce_row. rewrite H4. cbn [call_toFixed bind]. eexists. reflexivity. }
  assert (Hfees : forall n (rows : list string),
            exists out,
              (let! r := delivery_row n summary ui in
               let rows := (rows ++ [r])%list in
               let itemNumber := add n (of_Z 1) in
               let! r := install_row itemNumber (validItemCount_of (items qd)) summary ui in
               let rows := (rows ++ [r])%list in
               let itemNumber := add itemNumber (of_Z 1) in
               let! r := removal_row itemNumber summary ui in
               let rows := (rows ++ [r])%list in
               Normal rows) = Normal out).
  { intros n rows.
    rewrite (delivery_row_text n summary ui x5 H5). cbn [bind].
    rewrite (install_row_text _ _ summary ui x6 H6). cbn [bind].
    rewrite (removal_row_text _ summary ui x7 H7). cbn [bind].
    eexists. reflexivity. }
  destruct (gt_number (acceSum summary) zero);
    destruct (gt_number (eAcceSum summary) zero).
  - destruct (Hacc (of_Z 2)) as (r1 & ->). cbn [bind].
    destruct (Heacc (add (of_Z 2) (of_Z 1))) as (r2 & ->). cbn [bind].
    apply Hfees.
  - destruct (Hacc (of_Z 2)) as (r1 & ->). cbn [bind]. apply Hfees.
  - cbn [bind]. destruct (Heacc (of_Z 2)) as (r2 & ->). cbn [bind]. apply Hfees.
  - cbn [bind]. apply Hfees.
Qed.

End PageOneRows.

(** C9.  With summary figures that are Numbers or absent, the page-one
    table is always produced.  Whenever it is produced, it is the
    concatenation of: the Roller Blinds row; the Installation Accessories
    row exactly when [acceSum > 0]; the Motorised Accessories row exactly
    when [eAcceSum > 0]; the Delivery, Installation and Removal rows.  An
    accessory row shows its sum, with two decimals, in both price columns.
    In particular, with [acceSum = 0] and [eAcceSum = 25] the table is the
    Roller Blinds row, the Motorised Accessories row numbered 2 with
    [$25.00] in both price columns, and the three fee rows. *)
Theorem accessory_rows_iff_positive :
  forall (summary : summaryData) (qd : quoteData) (ui : uiState),
    (page_one_figures summary ->
     exists html, _generatePageOneItemsTableHtml summary qd ui = Normal html)
    /\ (forall html : string,
          _generatePageOneItemsTableHtml summary qd ui = Normal html ->
          (exists (rb d i r : string) (acc eacc : list string) (n : float64),
              html = join EmptyString ([rb] ++ acc ++ eacc ++ [d; i; r])%list
              /\ rollerBlinds_row (validItemCount_of (items qd)) summary = Normal rb
              /\ (if gt_number (acceSum summary) zero
                  then exists x, acceSum summary = VNumber x
                         /\ acc = [accessory_row "2" "Installation Accessories"
                                                 (toFixed x 2)]
                  else acc = [])
              /\ (if gt_number (eAcceSum summary) zero
                  then exists y, eAcceSum summary = VNumber y
                         /\ eacc = [accessory_row
                                      (if gt_number (acceSum summary) zero
                                       then "3" else "2")
                                      "Motorised Accessories" (toFixed y 2)]
                  else eacc = [])
              /\ delivery_row n summary ui = Normal d
              /\ install_row (add n (of_Z 1)) (validItemCount_of (items qd)) summary ui
                 = Normal i
              /\ removal_row (add (add n (of_Z 1)) (of_Z 1)) summary ui = Normal r)
          /\ (acceSum summary = num 0 -> eAcceSum summary = num 25 ->
              exists rb d i r : string,
                html = join EmptyString
                         [rb; accessory_row "2" "Motorised Accessories" "25.00";
                          d; i; r])).
Proof.
  intros summary qd ui. split.
  - intros Hfig. unfold _generatePageOneItemsTableHtml.
    destruct (page_one_rows_total summary qd ui Hfig) as (rows & ->).
    cbn [bind]. eexists. reflexivity.
  - intros html H. unfold _generatePageOneItemsTableHtml in H.
    bind_inv H. apply Normal_inj in H. subst html.
    destruct (page_one_rows_shape _ _ _ _ E)
      as (rb & d & i & r & acc & eacc & n & Hrows & Hrb & Hacc & Heacc & Hd & Hi & Hr).
    split.
    + exists rb, d, i, r, acc, eacc, n. rewrite Hrows. repeat split; assumption.
    + intros H0 H25. rewrite H0 in Hacc, Heacc. rewrite H25 in Heacc.
      change (gt_number (num 0) zero) with false in Hacc, Heacc.
      change (gt_number (num 25) zero) with true in Heacc.
      cbv beta iota in Hacc, Heacc.
      destruct Heacc as (y & Hy & ->). subst acc. apply (f_equal ToNumber) in Hy.
      cbn [ToNumber num] in Hy. subst y. rewrite Hrows.
      exists rb, d, i, r. reflexivity.
Qed.

Lemma summary_x11_figures : page_one_figures summary_x11.
Proof. repeat split; eexists; reflexivity. Qed.

(** The summary with [acceSum = 0] and [eAcceSum = 25]. *)
Lemma accessory_rows_iff_positive_witness :
  page_one_figures summary_x11
  /\ exists html,
       _generatePageOneItemsTableHtml summary_x11 one_item_order blank_ui = Normal html
       /\ exists rb d i r : string,
            html = join EmptyString
                     [rb; accessory_row "2" "Motorised Accessories" "25.00"; d; i; r].
Proof.
  split; [exact summary_x11_figures |].
  destruct (accessory_rows_iff_positive summary_x11 one_item_order blank_ui)
    as [Htotal Hshape].
  destruct (Htotal summary_x11_figures) as (html & E).
  exists html. split; [exact E |].
  exact (proj2 (Hshape html E) eq_refl eq_refl).
Defined.

(* ===================================================================== *)
(** ** Currency formatting (C3) *)
(* ===================================================================== *)

Lemma forallb_app (p : ascii -> bool) (a b : string) :
  Str.forallb p (a ++ b) = Str.forallb p a && Str.forallb p b.
Proof.
  induction a as [|c a IH]; simpl; [reflexivity |].
  rewrite IH. now rewrite andb_assoc.
Qed.

Lemma forallb_repeat (p : ascii -> bool) (c : ascii) (n : nat) :
  p c = true -> Str.forallb p (Str.repeat c n) = true.
Proof. intros H. induction n as [|n IH]; simpl; [reflexivity | now rewrite H, IH]. Qed.

Lemma forallb_take (p : ascii -> bool) (s : string) :
  Str.forallb p s = true -> forall n, Str.forallb p (take n s) = true.
Proof.
  induction s as [|c s IH]; intros H n; destruct n; simpl; try reflexivity.
  simpl in H. apply andb_true_iff in H as [Hc Hs]. now rewrite Hc, IH.
Qed.

Lemma forallb_drop (p : ascii -> bool) (s : string) :
  Str.forallb p s = true -> forall n, Str.forallb p (drop n s) = true.
Proof.
  induction s as [|c s IH]; intros H n; destruct n; simpl; try reflexivity.
  - exact H.
  - simpl in H. apply andb_true_iff in H as [_ Hs]. now apply IH.
Qed.

Lemma length_take (s : string) (n : nat) :
  (n <= String.length s)%nat -> String.length (take n s) = n.
Proof.
  revert n. induction s as [|c s IH]; intros n H; destruct n; simpl in *;
    try reflexivity; try lia.
  f_equal. apply IH. lia.
Qed.

Lemma length_drop (s : string) (n : nat) :
  String.length (drop n s) = (String.length s - n)%nat.
Proof.
  revert n. induction s as [|c s IH]; intros n; destruct n; simpl; try reflexivity.
  apply IH.
Qed.

Lemma length_repeat (c : ascii) (n : nat) : String.length (Str.repeat c n) = n.
Proof. induction n as [|n IH]; simpl; [reflexivity | now rewrite IH]. Qed.

Lemma take_drop (s : string) (n : nat) : take n s ++ drop n s = s.
Proof.
  revert n. induction s as [|c s IH]; intros n; destruct n; simpl; try reflexivity.
  now rewrite IH.
Qed.

Lemma run_length_all (p : ascii -> bool) (a : string) (c : ascii) (r : string) :
  Str.forallb p a = true -> p c = false ->
  run_length p (a ++ String c r) = String.length a.
Proof.
  intros Ha Hc. induction a as [|x a IH]; simpl.
  - now rewrite Hc.
  - simpl in Ha. apply andb_true_iff in Ha as [Hx Ha]. rewrite Hx. f_equal. now apply IH.
Qed.

(** The decimal digits of a natural number: digits only, at least one. *)
Lemma digits_uint (d : Decimal.uint) :
  Str.forallb is_digit (NilEmpty.string_of_uint d) = true.
Proof. induction d; simpl; try reflexivity; exact IHd. Qed.

Lemma of_N_digits (n : N) :
  Str.forallb is_digit (of_N n) = true /\ (1 <= String.length (of_N n))%nat.
Proof.
  unfold of_N. destruct (N.to_uint n) as [| d | d | d | d | d | d | d | d | d | d] eqn:E;
    cbn [NilZero.string_of_uint NilEmpty.string_of_uint Str.forallb String.length];
    try (split; [reflexivity | lia]);
    (split; [apply digits_uint | lia]).
Qed.

(** [fixed_digits n 2]: at least one digit, a point, two digits. *)
Lemma fixed_digits_2_shape (n : N) :
  exists (a : string) (x y : ascii),
    fixed_digits n 2 = a ++ String "." (String x (String y EmptyString))
    /\ Str.forallb is_digit a = true /\ (1 <= String.length a)%nat
    /\ is_digit x = true /\ is_digit y = true.
Proof.
  destruct (of_N_digits n) as [Hd Hl].
  unfold fixed_digits.
  set (m := of_N n) in *.
  set (m' := if (String.length m <=? 2)%nat
             then Str.repeat "0" (2 + 1 - String.length m) ++ m else m).
  assert (Hd' : Str.forallb is_digit m' = true).
  { unfold m'. destruct (String.length m <=? 2)%nat; [| exact Hd].
    rewrite forallb_app, Hd, forallb_repeat; reflexivity. }
  assert (Hl' : (3 <= String.length m')%nat).
  { unfold m'. destruct (String.length m <=? 2)%nat eqn:E.
    - apply Nat.leb_le in E. rewrite slength_app, length_repeat. lia.
    - apply Nat.leb_gt in E. lia. }
  set (k := (String.length m' - 2)%nat).
  assert (Hb : String.length (drop k m') = 2%nat) by (rewrite length_drop; unfold k; lia).
  pose proof (forallb_drop _ _ Hd' k) as Hdb.
  destruct (drop k m') as [|x [|y [|z b]]] eqn:Eb; simpl in Hb; try discriminate Hb.
  exists (take k m'), x, y.
  simpl in Hdb. apply andb_true_iff in Hdb as [Hx Hy].
  apply andb_true_iff in Hy as [Hy _].
  split; [reflexivity |]. split; [now apply forallb_take |].
  split; [rewrite length_take; unfold k; lia |]. split; assumption.
Qed.

Lemma is_currency_fixed_2 (n : N) : is_currency ("$" ++ fixed_digits n 2) = true.
Proof.
  destruct (fixed_digits_2_shape n) as (a & x & y & -> & Ha & Hl & Hx & Hy).
  cbn [String.append is_currency].
  rewrite (run_length_all is_digit a "." _ Ha eq_refl), drop_app_length, Hx, Hy.
  destruct (String.length a); [lia | reflexivity].
Qed.

Lemma ratio_positive (m : positive) (e : Z) :
  (0 < fst (ratio m e) /\ 0 < snd (ratio m e))%Z.
Proof.
  unfold ratio. destruct (0 <=? e)%Z eqn:E; cbn [fst snd].
  - apply Z.leb_le in E. split; [| lia].
    apply Z.mul_pos_pos; [lia | now apply Z.pow_pos_nonneg].
  - apply Z.leb_gt in E. split; [lia |]. apply Z.pow_pos_nonneg; lia.
Qed.

(** [round_scaled m e 2] counts the hundredths nearest to [m * 2^e], the
    upper one on a tie: [n - 1/2 <= 100 * v < n + 1/2]. *)
Lemma round_scaled_nearest (m : positive) (e : Z) :
  let n := Z.of_N (round_scaled m e 2) in
  let num := fst (ratio m e) in
  let den := snd (ratio m e) in
  (2 * den * n <= 200 * num + den < 2 * den * (n + 1))%Z.
Proof.
  cbv zeta. destruct (ratio_positive m e) as [Hn Hd].
  unfold round_scaled. destruct (ratio m e) as [num den]. cbn [fst snd] in *.
  change (10 ^ Z.of_nat 2)%Z with 100%Z.
  assert (H0 : (0 <= (2 * num * 100 + den) / (2 * den))%Z)
    by (apply Z.div_pos; nia).
  rewrite Z2N.id by exact H0.
  pose proof (Z.mul_div_le (2 * num * 100 + den) (2 * den) ltac:(lia)).
  pose proof (Z.mul_succ_div_gt (2 * num * 100 + den) (2 * den) ltac:(lia)).
  nia.
Qed.

(** C3, as amended.  Through [formatPrice]: a finite Number [x] with
    [0 < x < 10^21] gives [$] followed by [x] rounded to the nearest
    hundredth (the upper one on a tie), written as one or more digits, a
    point and exactly two digits; any value that is not a Number, and any
    Number that is not greater than zero (zero, negative, NaN), gives the
    empty string, never [$0.00]. *)
Theorem formatPrice_cases :
  (forall (m : positive) (e : Z),
      ge_1e21 m e = false ->
      let x := S754_finite false m e in
      let n := round_scaled m e 2 in
      formatPrice (VNumber x) = "$" ++ fixed_digits n 2
      /\ is_currency (formatPrice (VNumber x)) = true
      /\ (2 * snd (ratio m e) * Z.of_N n <= 200 * fst (ratio m e) + snd (ratio m e)
          < 2 * snd (ratio m e) * (Z.of_N n + 1))%Z)
  /\ (forall v : jsval, no_amount v -> formatPrice v = EmptyString).
Proof.
  split.
  - intros m e Hlt x n.
    assert (Hf : formatPrice (VNumber x) = "$" ++ fixed_digits n 2).
    { unfold formatPrice, x. cbn [gt_number ToNumber]. unfold ltb, toFixed.
      cbn [SFltb SFcompare zero]. rewrite Hlt. reflexivity. }
    split; [exact Hf |]. split.
    + rewrite Hf. apply is_currency_fixed_2.
    + apply round_scaled_nearest.
  - intros v Hv. destruct v as [| | b | x | s]; try reflexivity.
    unfold formatPrice, gt_number, ToNumber. unfold no_amount in Hv. now rewrite Hv.
Qed.

(** 1234.567 gives [$1234.57]; zero, NaN, [undefined] and a string give
    the empty string. *)
Lemma formatPrice_cases_witness :
  formatPrice (decimal 1234567 (-3)) = "$1234.57"
  /\ formatPrice (num 0) = EmptyString
  /\ formatPrice (VNumber NaN) = EmptyString
  /\ formatPrice VUndefined = EmptyString
  /\ formatPrice (VString "12") = EmptyString.
Proof.
  destruct formatPrice_cases as [Hpos Hnone].
  split.
  - exact (proj1 (Hpos 5429683087074132%positive (-42)%Z eq_refl)).
  - repeat split; apply Hnone; reflexivity.
Defined.

(** C3 as stated fails at both ends.  Zero is a numeric input [>= 0] and
    gives the empty string, not a [$X.XX] text; and a Number greater than
    zero does not always give two decimals: [Infinity] gives [$Infinity]
    and [1e21] gives [$1e+21]. *)
Lemma formatPrice_counterexample :
  formatPrice (num 0) = EmptyString
  /\ is_currency (formatPrice (num 0)) = false
  /\ formatPrice (VNumber (S754_infinity false)) = "$Infinity"
  /\ is_currency (formatPrice (VNumber (S754_infinity false))) = false
  /\ formatPrice (decimal 1 21) = "$1e+21"
  /\ is_currency (formatPrice (decimal 1 21)) = false.
Proof. vm_compute. repeat split; reflexivity. Qed.

(* ===================================================================== *)
(** ** Grand total (C2) *)
(* ===================================================================== *)

Lemma call_toFixed_Normal (v : jsval) (f : nat) (t : string) :
  call_toFixed v f = Normal t -> exists x, v = VNumber x /\ t = toFixed x f.
Proof.
  destruct v as [| | b | x | s]; intros H; try discriminate H.
  exists x. split; [reflexivity |]. now injection H as <-.
Qed.

Lemma lookup_object_here (k : string) (v : jsval) (l : list (string * jsval)) :
  (list_to_map ((k, v) :: l) : gmap string jsval) !! k = Some v.
Proof. rewrite list_to_map_cons. apply lookup_insert_eq. Qed.

Lemma lookup_object_next (k k' : string) (v : jsval) (l : list (string * jsval)) :
  k <> k' ->
  (list_to_map ((k, v) :: l) : gmap string jsval) !! k'
  = (list_to_map l : gmap string jsval) !! k'.
Proof. intros H. rewrite list_to_map_cons. now apply lookup_insert_ne. Qed.

(** Looks a literal key up in an object literal. *)
Ltac lookup_key :=
  repeat (rewrite lookup_object_next by (intros Hk; discriminate Hk));
  rewrite lookup_object_here; reflexivity.

Lemma grandTotal_of_cases (f3 : f3Data) (summary : summaryData) :
  let offer := VNumber (parseFloat (finalOfferPrice f3)) in
  (ToBoolean offer = true -> grandTotal_of f3 summary = offer)
  /\ (ToBoolean offer = false -> ToBoolean (gst summary) = true ->
      grandTotal_of f3 summary = gst summary)
  /\ (ToBoolean offer = false -> ToBoolean (gst summary) = false ->
      grandTotal_of f3 summary = num 0).
Proof.
  cbv zeta. unfold grandTotal_of. repeat split.
  - intros H. rewrite (or_truthy _ (gst summary) H). now apply or_truthy.
  - intros H1 H2. rewrite (or_falsy _ (gst summary) H1). now apply or_truthy.
  - intros H1 H2. rewrite (or_falsy _ (gst summary) H1). now apply or_falsy.
Qed.

Lemma prepared_totals :
  forall (this : service) (qd : quoteData) (ui : uiState) (f3 : f3Data)
         (data : gmap string jsval),
    _prepareTemplateData this qd ui f3 = Normal data ->
    exists G : float64,
      grandTotal_of f3 (calculateF2Summary (calc this) qd ui) = VNumber G
      /\ data !! "grandTotal" = Some (money G)
      /\ data !! "gst" = Some (money (mul (div G one_point_one) point_one))
      /\ data !! "deposit" = Some (money (mul G one_half))
      /\ data !! "balance" = Some (money (mul G one_half)).
Proof.
  intros this qd ui f3 data H. unfold _prepareTemplateData in H.
  do 7 bind_inv H. apply Normal_inj in H. subst data.
  match goal with
  | E : call_toFixed (grandTotal_of _ _) 2 = Normal _ |- _ =>
      destruct (call_toFixed_Normal _ _ _ E) as (G & HG & ->)
  end.
  exists G. rewrite HG. split; [reflexivity |].
  split; [lookup_key |]. split; [lookup_key |]. split; lookup_key.
Qed.

Lemma fixed_digits_no_minus (n : N) : starts_with "-" (fixed_digits n 2) = false.
Proof.
  destruct (fixed_digits_2_shape n) as (a & x & y & -> & Ha & Hl & _).
  destruct a as [|d a]; [simpl in Hl; lia |].
  cbn [Str.forallb] in Ha. apply andb_true_iff in Ha as [Hd _].
  cbn [String.append starts_with]. rewrite andb_true_r.
  destruct (Ascii.eqb_spec "-" d) as [<- | _]; [discriminate Hd | reflexivity].
Qed.

(** In the range of [toFixed], a figure is written with two decimals. *)
Lemma money_two_decimals (x : float64) :
  fixed_range x = true -> two_decimals (money x) = true.
Proof.
  destruct x as [s | s | | s m e]; intros H; try discriminate H.
  - reflexivity.
  - cbn [fixed_range] in H. apply negb_true_iff in H.
    unfold money, toFixed. rewrite H.
    change ("$" ++ ?t) with (String "$" t). cbn [two_decimals].
    destruct s.
    + change ("-" ++ ?t) with (String "-" t). cbn [starts_with Ascii.eqb Bool.eqb andb drop].
      apply is_currency_fixed_2.
    + cbn [String.append]. rewrite fixed_digits_no_minus. apply is_currency_fixed_2.
Qed.

(** C2, as amended.  The grand total is [parseFloat(finalOfferPrice)]
    whenever that is a Number other than 0 and NaN; otherwise it is the
    summary's [gst] figure when that is truthy, and 0 when it is not.
    Whenever the template data is produced, that grand total is a Number
    [G], and the [grandTotal], [gst], [deposit] and [balance] fields are
    [$] followed by [toFixed(2)] of [G], [G / 1.1 * 0.1], [G * 0.5] and
    [G * 0.5].  Each of them has two decimals whenever its figure is
    finite and below 10^21 in magnitude; an infinite grand total is shown
    as [$Infinity]. *)
Theorem grandTotal_from_offer_or_summary :
  forall (this : service) (qd : quoteData) (ui : uiState) (f3 : f3Data),
    let summary := calculateF2Summary (calc this) qd ui in
    let offer := VNumber (parseFloat (finalOfferPrice f3)) in
    (ToBoolean offer = true -> grandTotal_of f3 summary = offer)
    /\ (ToBoolean offer = false -> ToBoolean (gst summary) = true ->
        grandTotal_of f3 summary = gst summary)
    /\ (ToBoolean offer = false -> ToBoolean (gst summary) = false ->
        grandTotal_of f3 summary = num 0)
    /\ (forall data : gmap string jsval,
          _prepareTemplateData this qd ui f3 = Normal data ->
          exists G : float64,
            grandTotal_of f3 summary = VNumber G
            /\ data !! "grandTotal" = Some (money G)
            /\ data !! "gst" = Some (money (mul (div G one_point_one) point_one))
            /\ data !! "deposit" = Some (money (mul G one_half))
            /\ data !! "balance" = Some (money (mul G one_half))
            /\ (fixed_range G = true -> two_decimals (money G) = true)
            /\ (fixed_range (mul (div G one_point_one) point_one) = true ->
                two_decimals (money (mul (div G one_point_one) point_one)) = true)
            /\ (fixed_range (mul G one_half) = true ->
                two_decimals (money (mul G one_half)) = true)
            /\ (G = S754_infinity false ->
                data !! "grandTotal" = Some (VString "$Infinity"))).
Proof.
  intros this qd ui f3 summary offer.
  destruct (grandTotal_of_cases f3 summary) as (H1 & H2 & H3).
  split; [exact H1 |]. split; [exact H2 |]. split; [exact H3 |].
  intros data H.
  destruct (prepared_totals this qd ui f3 data H) as (G & HG & Ht & Hg & Hd & Hb).
  exists G. repeat (split; [assumption |]).
  split; [apply money_two_decimals |]. split; [apply money_two_decimals |].
  split; [apply money_two_decimals |].
  intros ->. exact Ht.
Qed.

Lemma prepare_x11 :
  _prepareTemplateData service_no_body no_items blank_ui blank_f3 = Normal data_x11.
Proof. vm_cast_no_check (eq_refl (Normal data_x11)). Qed.

(** An offer of 1500 overrides the summary's 110; without an offer the
    summary's 110 is used, and the four fields follow from it, each with
    two decimals.  An offer of 1e23 is outside the range of [toFixed]. *)
Lemma grandTotal_from_offer_or_summary_witness :
  grandTotal_of (f3_offer (num 1500)) summary_x11 = num 1500
  /\ grandTotal_of (f3_offer (VString "1500")) summary_x11 = num 1500
  /\ grandTotal_of blank_f3 summary_x11 = num 110
  /\ data_x11 !! "grandTotal" = Some (VString "$110.00")
  /\ data_x11 !! "gst" = Some (VString "$10.00")
  /\ data_x11 !! "deposit" = Some (VString "$55.00")
  /\ data_x11 !! "balance" = Some (VString "$55.00")
  /\ two_decimals (VString "$110.00") = true
  /\ fixed_range (parseFloat (VString "1e23")) = false
  /\ money (parseFloat (VString "1e23")) = VString "$1e+23"
  /\ two_decimals (VString "$1e+23") = false.
Proof.
  destruct (grandTotal_from_offer_or_summary service_no_body no_items blank_ui
              (f3_offer (num 1500))) as (H1 & _).
  destruct (grandTotal_from_offer_or_summary service_no_body no_items blank_ui
              (f3_offer (VString "1500"))) as (H1s & _).
  destruct (grandTotal_from_offer_or_summary service_no_body no_items blank_ui
              blank_f3) as (_ & H2 & _ & H4).
  split; [exact (H1 eq_refl) |]. split; [exact (H1s eq_refl) |].
  split; [exact (H2 eq_refl eq_refl) |].
  destruct (H4 data_x11 prepare_x11) as (G & HG & Ht & Hg & Hd & Hb & Hr & _).
  assert (G = of_Z 110) as ->
    by (apply (f_equal ToNumber) in HG; vm_compute in HG; now subst G).
  split; [exact Ht |]. split; [exact Hg |]. split; [exact Hd |]. split; [exact Hb |].
  split; [exact (Hr eq_refl) |].
  vm_compute. repeat split; reflexivity.
Defined.

(** C2 as stated fails for a numeric offer of 0: the grand total is then
    the summary's 110, not the offer. *)
Lemma grandTotal_zero_offer_counterexample :
  finalOfferPrice (f3_offer (num 0)) = VNumber (of_Z 0)
  /\ typeof_is_number (finalOfferPrice (f3_offer (num 0))) = true
  /\ grandTotal_of (f3_offer (num 0)) summary_x11 = num 110
  /\ grandTotal_of (f3_offer (num 0)) summary_x11 <> finalOfferPrice (f3_offer (num 0)).
Proof.
  repeat split; try reflexivity.
  vm_compute. intros H. discriminate H.
Qed.

(* ===================================================================== *)
(** ** Detail rows (C8) *)
(* ===================================================================== *)

Lemma fabricClass_of_light (i : item) :
  absent_or_string (fabric i) ->
  fabricClass_of i
  = Normal (if names_light_filter (fabric i) then "bg-light-filter"
            else if strict_eq (fabricType i) (VString "SN") then "bg-screen"
            else if existsb (fun t => strict_eq (VString t) (fabricType i)) blockout_types
                 then "bg-blockout"
            else EmptyString).
Proof.
  intros Hs. unfold fabricClass_of, names_light_filter.
  destruct (ToBoolean (fabric i)) eqn:Hb.
  - destruct (Hs Hb) as [f Hf]. rewrite Hf in *. cbn [call_toLowerCase bind].
    simpl in Hb. rewrite Hb. reflexivity.
  - cbn [bind].
    destruct (fabric i) as [| | b | x | f]; try reflexivity.
    simpl in Hb. now rewrite Hb.
Qed.

Lemma starts_with_lower (n s : string) :
  starts_with n s = true -> starts_with (toLowerCase n) (toLowerCase s) = true.
Proof.
  revert s. induction n as [|a n IH]; intros s H; [reflexivity |].
  destruct s as [|b s]; [discriminate H |]. cbn [starts_with] in H.
  apply andb_true_iff in H as [Hab Hn]. apply Ascii.eqb_eq in Hab. subst b.
  cbn [toLowerCase starts_with]. now rewrite Ascii.eqb_refl, IH.
Qed.

Lemma includes_lower (s n : string) :
  includes s n = true -> includes (toLowerCase s) (toLowerCase n) = true.
Proof.
  induction s as [|c s IH]; cbn [includes toLowerCase]; intros H;
    apply orb_true_iff in H as [H | H]; apply orb_true_iff.
  - left. now apply (starts_with_lower n EmptyString).
  - discriminate H.
  - left. now apply (starts_with_lower n (String c s)).
  - right. now apply IH.
Qed.

(** A name that contains [light-filter] as written also contains it once
    lowered. *)
Lemma names_light_filter_literal (f : string) :
  includes f "light-filter" = true -> names_light_filter (VString f) = true.
Proof.
  intros H. unfold names_light_filter.
  pose proof (includes_lower f "light-filter" H) as Hl.
  change (toLowerCase "light-filter") with "light-filter" in Hl. rewrite Hl.
  destruct f; [discriminate H | reflexivity].
Qed.

Lemma strict_eq_string (s t : string) : strict_eq (VString s) (VString t) = String.eqb s t.
Proof. reflexivity. Qed.

(** C8.  The single item with width 100, height 100, fabric type [SN], a
    motor and line price 50, under a multiplier of 1.1, gives one detail
    row whose price cell is [$55.00], whose fabric and colour cells carry
    [bg-screen] and whose Motor cell holds the check mark.  In general,
    for a fabric name that is absent or a string, the class of the fabric
    and colour cells is [bg-light-filter] when the name contains
    [light-filter] (in any letter case), else [bg-screen] when the fabric
    type is [SN], else [bg-blockout] when it is one of [B1]..[B5], else
    empty; a name that contains [light-filter] as written is such a name;
    and both cells of the row are built with that class. *)
Theorem detail_row_example_and_class_priority :
  (forall summary : summaryData,
      mulTimes summary = decimal 11 (-1) ->
      detail_rows [item_100x100] summary
      = Normal [ "<tr>"
                 ++ td "#" (css "text-center") "1"
                 ++ td "F-NAME" (css "bg-screen is-empty-cell") EmptyString
                 ++ td "F-COLOR" (css "bg-screen is-empty-cell") EmptyString
                 ++ td "Location" (css "is-empty-cell") EmptyString
                 ++ td "HD" (css "text-center is-empty-cell") EmptyString
                 ++ td "Dual" (css "text-center is-empty-cell") EmptyString
                 ++ td "Motor" (css "text-center") check_mark
                 ++ td "Price" (css "text-right") "$55.00"
                 ++ "</tr>" ])
  /\ (forall i : item,
        absent_or_string (fabric i) ->
        (names_light_filter (fabric i) = true ->
         fabricClass_of i = Normal "bg-light-filter")
        /\ (names_light_filter (fabric i) = false ->
            fabricType i = VString "SN" ->
            fabricClass_of i = Normal "bg-screen")
        /\ (names_light_filter (fabric i) = false ->
            (exists t, In t blockout_types /\ fabricType i = VString t) ->
            fabricClass_of i = Normal "bg-blockout")
        /\ (names_light_filter (fabric i) = false ->
            fabricType i <> VString "SN" ->
            (forall t, In t blockout_types -> fabricType i <> VString t) ->
            fabricClass_of i = Normal EmptyString))
  /\ (forall f : string,
        includes f "light-filter" = true -> names_light_filter (VString f) = true)
  /\ (forall (i : item) (mul_times : jsval) (index : nat) (cls : string),
        fabricClass_of i = Normal cls ->
        exists rest : string,
          item_row mul_times i index
          = Normal ("<tr>" ++ cell "#" (VNumber (add (of_nat index) (of_Z 1))) "text-center"
                    ++ cell "F-NAME" (or (fabric i) (VString EmptyString)) cls
                    ++ cell "F-COLOR" (or (color i) (VString EmptyString)) cls
                    ++ rest)).
Proof.
  split; [| split; [| split; [exact names_light_filter_literal |]]].
  - intros summary Hmul. unfold detail_rows. rewrite Hmul. vm_compute. reflexivity.
  - intros i Hs. pose proof (fabricClass_of_light i Hs) as Hc. repeat split.
    + intros Hl. now rewrite Hc, Hl.
    + intros Hl Ht. rewrite Hc, Hl, Ht. reflexivity.
    + intros Hl (t & Hin & Ht). rewrite Hc, Hl, Ht.
      simpl in Hin.
      destruct Hin as [<- | [<- | [<- | [<- | [<- | []]]]]]; reflexivity.
    + intros Hl Hsn Hb. rewrite Hc, Hl.
      destruct (fabricType i) as [| | b | x | s]; try reflexivity.
      rewrite strict_eq_string.
      destruct (String.eqb_spec s "SN") as [-> | _]; [now elim Hsn |].
      assert (Hno : existsb (fun t => strict_eq (VString t) (VString s)) blockout_types
                    = false).
      { apply not_true_is_false. intros Hex. apply existsb_exists in Hex.
        destruct Hex as (t & Hin & Heq). rewrite strict_eq_string in Heq.
        apply String.eqb_eq in Heq. subst s. now apply (Hb t Hin). }
      now rewrite Hno.
  - intros i mul_times index cls Hc. unfold item_row. rewrite Hc. cbn [bind].
    eexists. cbn [join]. rewrite !sapp_assoc. reflexivity.
Qed.

(** The example item itself, and a blockout fabric whose name says
    light-filter. *)
Lemma detail_row_example_and_class_priority_witness :
  mulTimes summary_x11 = decimal 11 (-1)
  /\ (exists row, detail_rows [item_100x100] summary_x11 = Normal [row]
                  /\ includes row (td "Price" (css "text-right") "$55.00") = true)
  /\ absent_or_string (fabric item_light_blockout)
  /\ fabricClass_of item_light_blockout = Normal "bg-light-filter".
Proof.
  destruct detail_row_example_and_class_priority as (Hrow & Hcls & _).
  assert (Hs : absent_or_string (fabric item_light_blockout))
    by (intros _; eexists; reflexivity).
  split; [reflexivity |]. split; [| split; [exact Hs |]].
  - eexists. split; [exact (Hrow summary_x11 eq_refl) |]. vm_compute. reflexivity.
  - exact (proj1 (Hcls item_light_blockout Hs) eq_refl).
Defined.

(* ===================================================================== *)
(** ** Body and style regions of the detail template (C7) *)
(* ===================================================================== *)

Lemma starts_with_split (p s : string) :
  starts_with p s = true -> s = p ++ drop (String.length p) s.
Proof.
  revert s. induction p as [|a p IH]; intros s H; simpl in *; [reflexivity |].
  destruct s as [|b s]; [discriminate H |].
  apply andb_true_iff in H as [Hab Hp]. apply Ascii.eqb_eq in Hab. subst b.
  simpl. f_equal. now apply IH.
Qed.

Lemma split_first_sound (needle s before after : string) :
  split_first needle s = Some (before, after) -> s = before ++ needle ++ after.
Proof.
  revert before after. induction s as [|c s IH]; intros before after H.
  - simpl in H. destruct (starts_with needle EmptyString) eqn:E; [| discriminate H].
    injection H as <- <-. simpl. now apply starts_with_split.
  - cbn [split_first] in H. destruct (starts_with needle (String c s)) eqn:E.
    + injection H as <- <-. simpl. now apply starts_with_split.
    + destruct (split_first needle s) as [[b a] |] eqn:Es; [| discriminate H].
      injection H as <- <-. simpl. f_equal. now apply IH.
Qed.

(** With an empty style fragment the head of the summary template stays
    as it is. *)
Lemma replace_head_without_style (t : string) :
  replace_first "</head>" (EmptyString ++ "</head>") t = t.
Proof.
  unfold replace_first. destruct (split_first "</head>" t) as [[b a] |] eqn:E;
    [| reflexivity].
  apply split_first_sound in E. rewrite E. reflexivity.
Qed.

Lemma not_empty_is_empty (s : string) : s <> EmptyString -> is_empty s = false.
Proof. destruct s; [intros H; now elim H | reflexivity]. Qed.

(* ===================================================================== *)
(** ** The mapping of a render *)
(* ===================================================================== *)

(** With a function that does not throw, the replacement is the plain
    one. *)
Lemma replace_all_from_with_pure (r : regex) (F : string -> string -> completion string)
                                 (g : string -> string -> string) :
  (forall m k, F m k = Normal (g m k)) ->
  forall (s : string) (skip : nat),
    replace_all_from_with r F s skip = Normal (replace_all_from r g s skip).
Proof.
  intros HF. induction s as [|c s IH]; intros skip.
  - destruct skip; cbn [replace_all_from_with replace_all_from]; [| reflexivity].
    destruct (exec_at r EmptyString) as [[[m0 m1] rest] |]; [| reflexivity].
    rewrite HF. reflexivity.
  - destruct skip as [|k]; cbn [replace_all_from_with replace_all_from]; [| apply IH].
    destruct (exec_at r (String c s)) as [[[m0 m1] rest] |].
    + rewrite HF. cbn [bind]. destruct (String.length m0); rewrite IH; reflexivity.
    + rewrite IH. reflexivity.
Qed.

Lemma arrow_own (data : gmap string jsval) :
  data !! "hasOwnProperty" = None ->
  forall m k : string, arrow data m k = Normal (callback data m k).
Proof.
  intros H m k. unfold arrow, call_hasOwnProperty, get, callback. rewrite H.
  cbn [bind]. destruct (data !! k); reflexivity.
Qed.

Lemma arrow_shadowed (data : gmap string jsval) :
  data !! "hasOwnProperty" <> None ->
  forall m k : string, arrow data m k = Throw TypeError.
Proof.
  intros H m k. unfold arrow, call_hasOwnProperty.
  destruct (data !! "hasOwnProperty"); [reflexivity | now elim H].
Qed.

Lemma populate_unfold (template : string) (data : gmap string jsval) :
  _populateTemplate template data
  = replace_all_from_with placeholder (arrow data) template 0.
Proof. reflexivity. Qed.

(** Without an own entry named [hasOwnProperty], populating returns the
    template with its tokens resolved. *)
Lemma populate_Normal (template : string) (data : gmap string jsval) :
  data !! "hasOwnProperty" = None ->
  _populateTemplate template data = Normal (populated template data).
Proof.
  intros H. rewrite populate_unfold. unfold populated, replace_all.
  apply replace_all_from_with_pure. exact (arrow_own data H).
Qed.

(** The mapping [_prepareTemplateData] builds has no such entry. *)
Lemma prepared_keys (this : service) (qd : quoteData) (ui : uiState) (f3 : f3Data)
                    (data : gmap string jsval) :
  _prepareTemplateData this qd ui f3 = Normal data ->
  data !! "hasOwnProperty" = None.
Proof.
  intros H. unfold _prepareTemplateData in H.
  do 7 bind_inv H. apply Normal_inj in H. subst data.
  repeat (rewrite lookup_object_next by (intros Hk; discriminate Hk)).
  apply lookup_empty.
Qed.

(** C7.  With both templates loaded and the template data prepared, the
    detail template is populated without error.  If the populated detail
    template has no match of the body pattern, the render throws the error
    "Could not find body content in the details template." and returns no
    document; if it has a body match but no match of the style pattern,
    the render succeeds, the style fragment is the empty string, and the
    head of the summary template is left as it is. *)
Theorem generateQuoteHtml_body_and_style :
  forall (this : service) (qd : quoteData) (ui : uiState) (f3 : f3Data)
         (data : gmap string jsval),
    quoteTemplate this <> EmptyString ->
    detailsTemplate this <> EmptyString ->
    _prepareTemplateData this qd ui f3 = Normal data ->
    let details := populated (detailsTemplate this) data in
    _populateTemplate (detailsTemplate this) data = Normal details
    /\ (match_ body_pattern details = None ->
        generateQuoteHtml this qd ui f3 = Throw body_error
        /\ forall html, generateQuoteHtml this qd ui f3 <> Normal html)
    /\ (forall whole body : string,
          match_ body_pattern details = Some (whole, body) ->
          match_ style_pattern details = None ->
          generateQuoteHtml this qd ui f3
          = Normal (Some (merged this data EmptyString body))
          /\ replace_first "</head>" (EmptyString ++ "</head>") (quoteTemplate this)
             = quoteTemplate this).
Proof.
  intros this qd ui f3 data Hq Hd Hdata details.
  pose proof (prepared_keys this qd ui f3 data Hdata) as Hown.
  assert (Hgen : generateQuoteHtml this qd ui f3
                 = (let! finalHtml := assemble this data in Normal (Some finalHtml))).
  { unfold generateQuoteHtml.
    rewrite (not_empty_is_empty _ Hq), (not_empty_is_empty _ Hd), Hdata. reflexivity. }
  split; [now apply populate_Normal |]. split.
  - intros Hbody. rewrite Hgen. unfold assemble.
    rewrite (populate_Normal _ data Hown). cbn [bind]. fold details. rewrite Hbody.
    split; [reflexivity |]. intros html H. discriminate H.
  - intros whole body Hbody Hstyle. split; [| apply replace_head_without_style].
    rewrite Hgen. unfold assemble.
    rewrite (populate_Normal _ data Hown). cbn [bind]. fold details.
    rewrite Hbody, Hstyle. rewrite (populate_Normal _ data Hown). reflexivity.
Qed.

Lemma prepare_x11_no_style :
  _prepareTemplateData service_no_style no_items blank_ui blank_f3 = Normal data_x11.
Proof. vm_cast_no_check (eq_refl (Normal data_x11)). Qed.

(** A detail template without a body element throws; one with a body
    element and no style block renders. *)
Lemma generateQuoteHtml_body_and_style_witness :
  generateQuoteHtml service_no_body no_items blank_ui blank_f3 = Throw body_error
  /\ generateQuoteHtml service_no_style no_items blank_ui blank_f3
     = Normal (Some ("<html><head></head><body>" ++ actionBarHtml_text
                     ++ "$110.00$20.00" ++ scriptHtml_text ++ "</body></html>")).
Proof.
  assert (Hq : forall (a : ascii) (b : string), String a b <> EmptyString)
    by (intros a b H; discriminate H).
  pose proof prepare_x11 as E1.
  pose proof prepare_x11_no_style as E2.
  split.
  - refine (proj1 (proj1 (proj2 (generateQuoteHtml_body_and_style
                                   service_no_body no_items blank_ui blank_f3 data_x11
                                   (Hq _ _) (Hq _ _) E1)) _)).
    vm_compute. reflexivity.
  - assert (Hb : match_ body_pattern (populated (detailsTemplate service_no_style) data_x11)
                 = Some ("<BODY class=page>$20.00</body>", "$20.00"))
      by (vm_compute; reflexivity).
    assert (Hs : match_ style_pattern (populated (detailsTemplate service_no_style) data_x11)
                 = None)
      by (vm_compute; reflexivity).
    rewrite (proj1 (proj2 (proj2 (generateQuoteHtml_body_and_style
                                    service_no_style no_items blank_ui blank_f3 data_x11
                                    (Hq _ _) (Hq _ _) E2)) _ _ Hb Hs)).
    vm_compute. reflexivity.
Defined.

(* ===================================================================== *)
(** ** Placeholder substitution (C5) *)
(* ===================================================================== *)

(** *** The matcher *)

Lemma try_down_some {A : Type} (k : nat -> option A) (lo n : nat) (r : A) :
  try_down k lo n = Some r -> exists i, (lo <= i <= n)%nat /\ k i = Some r.
Proof.
  induction n as [|n IH]; cbn [try_down]; intros H.
  - destruct (0 <? lo)%nat eqn:E; [discriminate H |]. apply Nat.ltb_ge in E.
    destruct (k 0%nat) eqn:Ek; [| discriminate H].
    exists 0%nat. split; [lia |]. now rewrite Ek.
  - destruct (S n <? lo)%nat eqn:E; [discriminate H |]. apply Nat.ltb_ge in E.
    destruct (k (S n)) eqn:Ek.
    + exists (S n). split; [lia |]. now rewrite Ek.
    + destruct (IH H) as (i & Hi & Hk).
      exists i. split; [lia | exact Hk].
Qed.

Lemma try_down_first {A : Type} (k : nat -> option A) (lo n : nat) (r : A) :
  (lo <= n)%nat -> k n = Some r -> try_down k lo n = Some r.
Proof.
  intros Hlo Hk. destruct n; cbn [try_down];
    (destruct (_ <? lo)%nat eqn:E; [apply Nat.ltb_lt in E; lia |]);
    now rewrite Hk.
Qed.

Lemma match_here_chr (p : ascii -> bool) (re : list atom) (c : ascii) (s : string) :
  match_here (Chr p :: re) (String c s)
  = if p c then with_piece (String c EmptyString) (match_here re s) else None.
Proof. reflexivity. Qed.

Lemma match_here_opt (p : ascii -> bool) (re : list atom) (s : string) :
  match_here (Opt p :: re) s
  = try_down (fun i => with_piece (take i s) (match_here re (drop i s)))
             0 (Nat.min 1 (run_length p s)).
Proof. destruct s; reflexivity. Qed.

Lemma match_here_star (p : ascii -> bool) (re : list atom) (s : string) :
  match_here (Star p :: re) s
  = try_down (fun i => with_piece (take i s) (match_here re (drop i s)))
             0 (Nat.min (String.length s) (run_length p s)).
Proof. destruct s; reflexivity. Qed.

Lemma match_here_plus (p : ascii -> bool) (re : list atom) (s : string) :
  match_here (Plus p :: re) s
  = try_down (fun i => with_piece (take i s) (match_here re (drop i s)))
             1 (Nat.min (String.length s) (run_length p s)).
Proof. destruct s; reflexivity. Qed.

Lemma with_piece_some (piece : string) (r : option (list string * string))
      (pieces : list string) (rest : string) :
  with_piece piece r = Some (pieces, rest) ->
  exists tl, pieces = piece :: tl /\ r = Some (tl, rest).
Proof.
  destruct r as [[tl rest'] |]; simpl; intros H; [| discriminate H].
  injection H as <- <-. now exists tl.
Qed.

Lemma run_length_take (p : ascii -> bool) (s : string) (i : nat) :
  (i <= run_length p s)%nat ->
  Str.forallb p (take i s) = true /\ String.length (take i s) = i.
Proof.
  revert i. induction s as [|c s IH]; intros i Hi; simpl in Hi.
  - assert (i = 0%nat) as -> by lia. now split.
  - destruct i as [|i]; [now split |].
    destruct (p c) eqn:Hc; [| lia].
    destruct (IH i ltac:(lia)) as [Hf Hl]. simpl. now rewrite Hc, Hf, Hl.
Qed.

Lemma quantified_sound (p : ascii -> bool) (re : list atom) (s : string)
      (lo n : nat) (pieces : list string) (rest : string) :
  (n <= run_length p s)%nat ->
  try_down (fun i => with_piece (take i s) (match_here re (drop i s))) lo n
  = Some (pieces, rest) ->
  exists (i : nat) (tl : list string),
    (lo <= i <= n)%nat /\ pieces = take i s :: tl
    /\ match_here re (drop i s) = Some (tl, rest)
    /\ Str.forallb p (take i s) = true /\ String.length (take i s) = i.
Proof.
  intros Hn H. apply try_down_some in H as (i & Hi & Hk).
  apply with_piece_some in Hk as (tl & -> & Hm).
  exists i, tl. destruct (run_length_take p s i ltac:(lia)) as [Hf Hl].
  repeat split; try assumption; lia.
Qed.

(** Soundness of the matcher: the pieces are accepted by their atoms and,
    followed by the rest, spell the input. *)
Lemma match_here_sound (re : list atom) :
  forall (s : string) (pieces : list string) (rest : string),
    match_here re s = Some (pieces, rest) ->
    Forall2 accepts re pieces /\ s = Str.concat pieces ++ rest.
Proof.
  induction re as [|a re IH]; intros s pieces rest H.
  - simpl in H. injection H as <- <-. split; [constructor | reflexivity].
  - destruct a as [p | p | p | p].
    + destruct s as [|c s]; [discriminate H |].
      rewrite match_here_chr in H. destruct (p c) eqn:Hc; [| discriminate H].
      apply with_piece_some in H as (tl & -> & Hm).
      destruct (IH _ _ _ Hm) as [Hf ->].
      split; [constructor; [exists c; now split | exact Hf] | reflexivity].
    + rewrite match_here_opt in H.
      apply (quantified_sound p) in H as (i & tl & Hi & -> & Hm & Hf & Hl); [| lia].
      destruct (IH _ _ _ Hm) as [Hall Hs].
      split.
      * constructor; [| exact Hall]. simpl.
        destruct (take i s) as [|c [|d t]] eqn:Et; simpl in Hl.
        -- now left.
        -- right. exists c. split; [reflexivity |]. simpl in Hf.
           now apply andb_true_iff in Hf as [Hc _].
        -- lia.
      * cbn [Str.concat]. rewrite sapp_assoc, <- Hs. now rewrite take_drop.
    + rewrite match_here_star in H.
      apply (quantified_sound p) in H as (i & tl & Hi & -> & Hm & Hf & Hl); [| lia].
      destruct (IH _ _ _ Hm) as [Hall Hs].
      split; [constructor; [exact Hf | exact Hall] |].
      cbn [Str.concat]. rewrite sapp_assoc, <- Hs. now rewrite take_drop.
    + rewrite match_here_plus in H.
      apply (quantified_sound p) in H as (i & tl & Hi & -> & Hm & Hf & Hl); [| lia].
      destruct (IH _ _ _ Hm) as [Hall Hs].
      split.
      * constructor; [| exact Hall]. split; [exact Hf |].
        intros E. rewrite E in Hl. simpl in Hl. lia.
      * cbn [Str.concat]. rewrite sapp_assoc, <- Hs. now rewrite take_drop.
Qed.

(** *** The placeholder pattern *)

Lemma ch_true (c x : ascii) : ch c x = true -> x = c.
Proof. unfold ch. intros H. apply Ascii.eqb_eq in H. now subst. Qed.

(** A match of the placeholder pattern is a token with a real key. *)
Lemma exec_at_placeholder_sound (s m0 m1 rest : string) :
  exec_at placeholder s = Some (m0, m1, rest) ->
  exists o c : bool,
    m0 = render (Token o m1 c) /\ is_key m1 = true /\ s = m0 ++ rest.
Proof.
  unfold exec_at. cbn [pre group post placeholder List.app List.length].
  destruct (match_here _ s) as [[pieces rest'] |] eqn:E; [| discriminate].
  intros H. apply match_here_sound in E as [Hall Hs].
  repeat match goal with
         | Hf : Forall2 accepts (_ :: _) _ |- _ =>
             apply Forall2_cons_inv_l in Hf as (? & ? & ? & Hf & ?); subst
         | Hf : Forall2 accepts [] _ |- _ =>
             apply Forall2_nil_inv_l in Hf; subst
         end.
  cbn [skipn firstn Str.concat] in H. injection H as <- <- <-.
  repeat match goal with
         | Ha : accepts _ _ |- _ => cbn [accepts] in Ha
         end.
  repeat match goal with
         | Ha : exists c, _ = String c EmptyString /\ ch _ c = true |- _ =>
             destruct Ha as (? & -> & Ha); apply ch_true in Ha; subst
         end.
  rewrite !sapp_nil_r. cbn [Str.concat]. rewrite !sapp_nil_r.
  match goal with
  | Hw : Str.forallb word_or_dash ?k = true /\ ?k <> EmptyString |- _ =>
      assert (Hkey : is_key k = true)
        by (destruct Hw as [Hw Hne]; unfold is_key; rewrite Hw;
            destruct k; [now elim Hne | reflexivity]);
      clear Hw
  end.
  match goal with
  | Ho : ?a = EmptyString \/ _, Hc : ?b = EmptyString \/ _ |- _ =>
      destruct Ho as [-> | (co & -> & Ho)]; [| apply ch_true in Ho; subst co];
      (destruct Hc as [-> | (cc & -> & Hc)]; [| apply ch_true in Hc; subst cc])
  end.
  - exists false, false. split; [reflexivity | split; [assumption | reflexivity]].
  - exists false, true. split; [reflexivity | split; [assumption | reflexivity]].
  - exists true, false. split; [reflexivity | split; [assumption | reflexivity]].
  - exists true, true. split; [reflexivity | split; [assumption | reflexivity]].
Qed.

Lemma is_key_inv (k : string) :
  is_key k = true ->
  Str.forallb word_or_dash k = true /\ (1 <= String.length k)%nat.
Proof.
  unfold is_key. intros H. apply andb_true_iff in H as [Hne Hw].
  split; [exact Hw |]. destruct k; [discriminate Hne | simpl; lia].
Qed.

Lemma word_is_no_brace (x : ascii) :
  word_or_dash x = true -> ch "{" x = false /\ ch "}" x = false.
Proof.
  destruct x as [[] [] [] [] [] [] [] []]; vm_compute; intros H;
    try discriminate H; split; reflexivity.
Qed.

(** The optional brace: taken when it is there, skipped when the next
    character is something else. *)
Lemma match_here_opt_brace (c : ascii) (b : bool) (re : list atom) (s : string)
      (tl : list string) (rest : string) :
  (b = true \/ run_length (ch c) s = 0%nat) ->
  match_here re s = Some (tl, rest) ->
  match_here (Opt (ch c) :: re) (brace b c ++ s) = Some (brace b c :: tl, rest).
Proof.
  intros Hb Hm. rewrite match_here_opt. destruct b; cbn [brace String.append].
  - cbn [run_length]. unfold ch at 1. rewrite Ascii.eqb_refl.
    apply try_down_first; [cbn; lia |].
    change (Nat.min 1 (S (run_length (ch c) s))) with 1%nat.
    cbn [take drop]. now rewrite Hm.
  - destruct Hb as [Hb | Hb]; [discriminate Hb |]. rewrite Hb.
    apply try_down_first; [cbn; lia |].
    cbn [Nat.min take drop]. now rewrite Hm.
Qed.

Lemma match_here_key (k s : string) (re : list atom) (tl : list string) (rest : string) :
  is_key k = true ->
  match_here re (String "}" s) = Some (tl, rest) ->
  match_here (Plus word_or_dash :: re) (k ++ String "}" s) = Some (k :: tl, rest).
Proof.
  intros Hk Hm. apply is_key_inv in Hk as [Hw Hl].
  rewrite match_here_plus, (run_length_all word_or_dash k "}" s Hw eq_refl), slength_app.
  apply try_down_first; [lia |].
  replace (Nat.min (String.length k + String.length (String "}" s)) (String.length k))
    with (String.length k) by lia.
  now rewrite take_app_length, drop_app_length, Hm.
Qed.

Lemma starts_with_brace_false (rest : string) :
  starts_with "}" rest = false -> run_length (ch "}") rest = 0%nat.
Proof.
  destruct rest as [|x rest]; [reflexivity |]. cbn [starts_with run_length].
  unfold ch. rewrite andb_true_r. now intros ->.
Qed.

(** The pattern matches a token at the head of the input, whole. *)
Lemma exec_at_token (o c : bool) (k rest : string) :
  is_key k = true ->
  c = true \/ starts_with "}" rest = false ->
  exec_at placeholder (render (Token o k c) ++ rest)
  = Some (render (Token o k c), k, rest).
Proof.
  intros Hk Hc.
  assert (Hin : render (Token o k c) ++ rest
                = String "{" (String "{" (brace o "{" ++ k
                    ++ String "}" (String "}" (brace c "}" ++ rest))))).
  { cbn [render]. destruct o, c; cbn [brace String.append];
      rewrite ?sapp_assoc; cbn [String.append]; rewrite ?sapp_assoc; reflexivity. }
  assert (Hm : match_here (pre placeholder ++ group placeholder ++ post placeholder)%list
                 (render (Token o k c) ++ rest)
               = Some (["{"; "{"; brace o "{"; k; "}"; "}"; brace c "}"], rest)).
  { rewrite Hin. cbn [pre group post placeholder List.app].
    rewrite !match_here_chr. unfold ch at 1 2. rewrite Ascii.eqb_refl.
    erewrite match_here_opt_brace; [reflexivity | |].
    - destruct o; [now left | right].
      destruct (is_key_inv k Hk) as [Hw Hl].
      destruct k as [|x k]; [simpl in Hl; lia |].
      cbn [String.append run_length]. simpl in Hw.
      apply andb_true_iff in Hw as [Hx _].
      now rewrite (proj1 (word_is_no_brace x Hx)).
    - apply match_here_key; [exact Hk |].
      rewrite !match_here_chr. unfold ch at 1 2. rewrite Ascii.eqb_refl.
      erewrite match_here_opt_brace; [reflexivity | | reflexivity].
      destruct Hc as [-> | Hc]; [now left | right].
      now apply starts_with_brace_false. }
  unfold exec_at. rewrite Hm.
  cbn [pre group post placeholder List.length skipn firstn Str.concat].
  rewrite !sapp_nil_r. destruct o, c; reflexivity.
Qed.

(** *** The scan *)

Lemma exec_at_not_brace (c : ascii) (s : string) :
  Ascii.eqb c "{" = false -> exec_at placeholder (String c s) = None.
Proof.
  intros H. unfold exec_at. cbn [pre group post placeholder List.app].
  rewrite match_here_chr. unfold ch. rewrite Ascii.eqb_sym, H. reflexivity.
Qed.

Lemma exec_at_lone_brace (s : string) :
  starts_with "{" s = false -> exec_at placeholder (String "{" s) = None.
Proof.
  intros H. unfold exec_at. cbn [pre group post placeholder List.app].
  rewrite match_here_chr. unfold ch at 1. rewrite Ascii.eqb_refl.
  destruct s as [|d s]; [reflexivity |].
  rewrite match_here_chr. cbn [starts_with] in H. rewrite andb_true_r in H.
  unfold ch. now rewrite H.
Qed.

(** Characters still to be passed over are dropped from the input. *)
Lemma replace_all_with_skip (r : regex) (F : string -> string -> completion string)
                            (x s : string) :
  replace_all_from_with r F (x ++ s) (String.length x) = replace_all_from_with r F s 0.
Proof. induction x as [|c x IH]; simpl; [reflexivity | exact IH]. Qed.

Lemma bind_Normal_cons (c : ascii) (t : string) (r : completion string) :
  (let! u := (let! v := r in Normal (t ++ v)) in Normal (String c u))
  = (let! v := r in Normal (String c t ++ v)).
Proof. destruct r; reflexivity. Qed.

(** Plain text passes through unchanged, whatever the function. *)
Lemma populate_plain (F : string -> string -> completion string) (t rest : string) :
  plain t = true ->
  replace_all_from_with placeholder F (t ++ rest) 0
  = (let! r := replace_all_from_with placeholder F rest 0 in Normal (t ++ r)).
Proof.
  induction t as [|c t IH]; intros Hp.
  - cbn [String.append]. destruct (replace_all_from_with placeholder F rest 0); reflexivity.
  - cbn [plain] in Hp.
    change (String c t ++ rest) with (String c (t ++ rest)).
    destruct (Ascii.eqb c "{") eqn:Hc.
    + apply Ascii.eqb_eq in Hc. subst c.
      destruct t as [|d t]; [discriminate Hp |].
      apply andb_true_iff in Hp as [Hd Hp]. apply negb_true_iff in Hd.
      cbn [replace_all_from_with]. rewrite exec_at_lone_brace.
      * rewrite (IH Hp). apply bind_Normal_cons.
      * cbn [String.append starts_with]. rewrite andb_true_r.
        now rewrite Ascii.eqb_sym.
    + cbn [replace_all_from_with]. rewrite (exec_at_not_brace _ _ Hc).
      rewrite (IH Hp). apply bind_Normal_cons.
Qed.

(** A token is handed to the function, with its key. *)
Lemma populate_token (F : string -> string -> completion string)
                     (o c : bool) (k rest : string) :
  is_key k = true ->
  c = true \/ starts_with "}" rest = false ->
  replace_all_from_with placeholder F (render (Token o k c) ++ rest) 0
  = (let! x := F (render (Token o k c)) k in
     let! r := replace_all_from_with placeholder F rest 0 in
     Normal (x ++ r)).
Proof.
  intros Hk Hc.
  pose proof (exec_at_token o c k rest Hk Hc) as He.
  destruct (render (Token o k c)) as [|x tok] eqn:Er; [destruct o; discriminate Er |].
  cbn [String.append] in *. cbn [replace_all_from_with]. rewrite He.
  cbn [String.length]. rewrite replace_all_with_skip. reflexivity.
Qed.

Lemma render_all_cons (s : segment) (segs : list segment) :
  render_all (s :: segs) = render s ++ render_all segs.
Proof. reflexivity. Qed.

(** Every token of a well-formed segment list is found. *)
Lemma populate_well_formed (F : string -> string -> completion string)
                           (segs : list segment) :
  well_formed segs = true ->
  replace_all_from_with placeholder F (render_all segs) 0 = substitute_with F segs.
Proof.
  induction segs as [|s segs IH]; intros Hwf; [reflexivity |].
  rewrite render_all_cons. cbn [substitute_with].
  destruct s as [t | o k c]; cbn [well_formed] in Hwf.
  - apply andb_true_iff in Hwf as [Hp Hwf].
    cbn [render]. rewrite (populate_plain F t _ Hp). now rewrite IH.
  - apply andb_true_iff in Hwf as [Hk Hwf]. apply andb_true_iff in Hk as [Hk Hc].
    rewrite populate_token; [now rewrite IH | exact Hk |].
    destruct c; [now left | right]. now apply negb_true_iff in Hc.
Qed.

(** Every run reads the template as texts and tokens. *)
Lemma populate_scan (s : string) :
  forall skip : nat,
  exists segs : list segment,
    render_all segs = drop skip s
    /\ List.forallb segment_ok segs = true
    /\ forall F : string -> string -> completion string,
         replace_all_from_with placeholder F s skip = substitute_with F segs.
Proof.
  induction s as [|c s IH]; intros skip.
  - exists []. destruct skip; repeat split; reflexivity.
  - destruct skip as [|skip].
    + destruct (exec_at placeholder (String c s)) as [[[m0 m1] rest] |] eqn:E.
      * destruct (exec_at_placeholder_sound _ _ _ _ E) as (o & cl & Hm0 & Hk & Hs).
        assert (Hlen : exists n, String.length m0 = S n /\ drop n s = rest).
        { destruct m0 as [|x m0]; [destruct o; discriminate Hm0 |].
          exists (String.length m0). split; [reflexivity |].
          cbn [String.append] in Hs. injection Hs as _ ->. apply drop_app_length. }
        destruct Hlen as (n & Hn & Hrest).
        destruct (IH n) as (segs & Hr & Hok & Hpop).
        exists (Token o m1 cl :: segs). split; [| split].
        -- rewrite render_all_cons, Hr, Hrest, <- Hm0. now rewrite Hs.
        -- cbn [List.forallb segment_ok]. now rewrite Hk, Hok.
        -- intros F. cbn [replace_all_from_with substitute_with].
           rewrite E, Hn, Hpop, <- Hm0. reflexivity.
      * destruct (IH 0%nat) as (segs & Hr & Hok & Hpop).
        exists (Text (String c EmptyString) :: segs). split; [| split].
        -- rewrite render_all_cons, Hr. reflexivity.
        -- exact Hok.
        -- intros F. cbn [replace_all_from_with substitute_with].
           rewrite E, Hpop. reflexivity.
    + destruct (IH skip) as (segs & Hr & Hok & Hpop).
      exists segs. split; [exact Hr | split; [exact Hok | exact Hpop]].
Qed.

(** A function that resolves tokens gives the substituted text; one that
    always throws stops at the first token. *)
Lemma substitute_with_callback (data : gmap string jsval)
                               (F : string -> string -> completion string) :
  (forall m k, F m k = Normal (callback data m k)) ->
  forall segs : list segment,
    substitute_with F segs = Normal (Str.concat (List.map (substitute data) segs)).
Proof.
  intros HF. induction segs as [|s segs IH]; [reflexivity |].
  destruct s as [t | o k c]; cbn [substitute_with List.map Str.concat].
  - rewrite IH. reflexivity.
  - rewrite HF, IH. reflexivity.
Qed.

Lemma substitute_with_throw (e : exn) (F : string -> string -> completion string) :
  (forall m k, F m k = Throw e) ->
  forall segs : list segment,
    substitute_with F segs
    = if existsb is_token segs then Throw e else Normal (render_all segs).
Proof.
  intros HF. induction segs as [|s segs IH]; [reflexivity |].
  destruct s as [t | o k c]; cbn [substitute_with existsb is_token orb].
  - rewrite IH. destruct (existsb is_token segs); reflexivity.
  - rewrite HF. reflexivity.
Qed.

(** Populating throws only a [TypeError], and only under a mapping with
    an own entry named [hasOwnProperty]. *)
Lemma populate_throws (template : string) (data : gmap string jsval) (e : exn) :
  _populateTemplate template data = Throw e ->
  e = TypeError /\ data !! "hasOwnProperty" <> None.
Proof.
  intros H. destruct (data !! "hasOwnProperty") as [v |] eqn:Hown.
  - split; [| discriminate].
    destruct (populate_scan template 0) as (segs & _ & _ & Hpop).
    rewrite populate_unfold, Hpop in H.
    rewrite (substitute_with_throw TypeError (arrow data)) in H.
    + destruct (existsb is_token segs); [now injection H as <- | discriminate H].
    + apply arrow_shadowed. rewrite Hown. discriminate.
  - rewrite (populate_Normal template data Hown) in H. discriminate H.
Qed.




(* ===================================================================== *)
(** ** Further properties of [_populateTemplate] *)
(* ===================================================================== *)

Lemma substitute_empty (s : segment) : substitute ∅ s = render s.
Proof. destruct s as [t | o k c]; [reflexivity |]. cbn [substitute]. now rewrite lookup_empty. Qed.

(** X1.  With an empty mapping every template comes back as it is: all of its
    tokens are unknown. *)
Theorem populateTemplate_empty_mapping :
  forall template : string, _populateTemplate template ∅ = Normal template.
Proof.
  intros template. destruct (populate_scan template 0) as (segs & Hr & _ & Hpop).
  rewrite populate_unfold, Hpop.
  rewrite (substitute_with_callback ∅ (arrow ∅) (arrow_own ∅ (lookup_empty _))).
  cbn [drop] in Hr. rewrite <- Hr.
  unfold render_all. do 2 f_equal. apply map_ext. intros s. apply substitute_empty.
Qed.

(** X2.  A template without two consecutive opening braces (and not ending in
    one) has no token: every mapping leaves it unchanged. *)
Theorem populateTemplate_plain :
  forall (template : string) (data : gmap string jsval),
    plain template = true -> _populateTemplate template data = Normal template.
Proof.
  intros template data Hp. rewrite populate_unfold.
  rewrite <- (sapp_nil_r template) at 1.
  rewrite (populate_plain (arrow data) template EmptyString Hp).
  cbn [replace_all_from_with].
  change (exec_at placeholder EmptyString) with (@None (string * string * string)).
  cbn [bind]. now rewrite sapp_nil_r.
Qed.

(** A style sheet has single braces only; also under a mapping with an own
    entry named [hasOwnProperty]. *)
Lemma populateTemplate_plain_witness :
  plain "<style>td { color: red }</style>" = true
  /\ _populateTemplate "<style>td { color: red }</style>" greeting_data
     = Normal "<style>td { color: red }</style>"
  /\ _populateTemplate "<style>td { color: red }</style>" shadowing_data
     = Normal "<style>td { color: red }</style>".
Proof.
  split; [reflexivity |]. split.
  - exact (populateTemplate_plain "<style>td { color: red }</style>" greeting_data eq_refl).
  - exact (populateTemplate_plain "<style>td { color: red }</style>" shadowing_data eq_refl).
Defined.

(* ===================================================================== *)
(** ** What [generateQuoteHtml] returns and throws *)
(* ===================================================================== *)

Lemma teo_normal {A : Type} (a : A) : type_errors_only (Normal a).
Proof. intros e H. discriminate H. Qed.

Lemma teo_bind {A B : Type} (c : completion A) (k : A -> completion B) :
  type_errors_only c -> (forall a, type_errors_only (k a)) ->
  type_errors_only (bind c k).
Proof.
  intros Hc Hk e H. destruct c as [a | e']; cbn [bind] in H.
  - now apply (Hk a).
  - injection H as <-. now apply Hc.
Qed.

Lemma teo_toFixed (v : jsval) (f : nat) : type_errors_only (call_toFixed v f).
Proof. intros e H. destruct v; cbn in H; try discriminate H; now injection H as <-. Qed.

Lemma teo_replace_newlines (v : jsval) : type_errors_only (call_replace_newlines v).
Proof. intros e H. destruct v; cbn in H; try discriminate H; now injection H as <-. Qed.

Lemma teo_toLowerCase (v : jsval) : type_errors_only (call_toLowerCase v).
Proof. intros e H. destruct v; cbn in H; try discriminate H; now injection H as <-. Qed.

Lemma teo_if {A : Type} (b : bool) (c1 c2 : completion A) :
  type_errors_only c1 -> type_errors_only c2 ->
  type_errors_only (if b then c1 else c2).
Proof. now destruct b. Qed.

Ltac teo :=
  repeat first
    [ apply teo_normal
    | apply teo_toFixed
    | apply teo_replace_newlines
    | apply teo_toLowerCase
    | apply teo_if
    | apply teo_bind; [| intros ?] ].

Lemma teo_formatCustomerInfo (f3 : f3Data) : type_errors_only (_formatCustomerInfo f3).
Proof. unfold _formatCustomerInfo. teo. Qed.

Lemma teo_item_row (m : jsval) (i : item) (index : nat) :
  type_errors_only (item_row m i index).
Proof. unfold item_row, fabricClass_of. teo. Qed.

Lemma teo_map_indexed {A B : Type} (f : A -> nat -> completion B) (l : list A) :
  (forall a n, type_errors_only (f a n)) ->
  forall index, type_errors_only (map_indexed f l index).
Proof.
  intros Hf. induction l as [|a l IH]; intros index; cbn [map_indexed].
  - apply teo_normal.
  - apply teo_bind; [apply Hf | intros b].
    apply teo_bind; [apply IH | intros bs]. apply teo_normal.
Qed.

Lemma teo_generateItemsTableHtml (its : list item) (summary : summaryData) :
  type_errors_only (_generateItemsTableHtml its summary).
Proof.
  unfold _generateItemsTableHtml, detail_rows.
  apply teo_bind; [| intros rows; apply teo_normal].
  apply teo_map_indexed. intros a n. apply teo_item_row.
Qed.

Lemma teo_generatePageOneItemsTableHtml (summary : summaryData) (qd : quoteData) (ui : uiState) :
  type_errors_only (_generatePageOneItemsTableHtml summary qd ui).
Proof.
  unfold _generatePageOneItemsTableHtml, page_one_rows, rollerBlinds_row, acce_row,
    eAcce_row, delivery_row, install_row, removal_row.
  apply teo_bind; [| intros rows; apply teo_normal].
  apply teo_bind; [teo | intros r1].
  apply teo_bind; [teo | intros [rows1 n1]].
  apply teo_bind; [teo | intros [rows2 n2]].
  teo.
Qed.

Lemma teo_prepareTemplateData (this : service) (qd : quoteData) (ui : uiState) (f3 : f3Data) :
  type_errors_only (_prepareTemplateData this qd ui f3).
Proof.
  unfold _prepareTemplateData.
  apply teo_bind; [apply teo_formatCustomerInfo | intros ?].
  apply teo_bind; [apply teo_generatePageOneItemsTableHtml | intros ?].
  apply teo_bind; [apply teo_toFixed | intros ?].
  apply teo_bind; [apply teo_toFixed | intros ?].
  apply teo_bind; [apply teo_replace_newlines | intros ?].
  apply teo_bind; [apply teo_replace_newlines | intros ?].
  apply teo_bind; [apply teo_generateItemsTableHtml | intros ?].
  apply teo_normal.
Qed.

(** After the template data is in hand, the steps of the render throw the
    missing-body error or, under a mapping with an own entry named
    [hasOwnProperty], a [TypeError]. *)
Lemma assemble_throws (this : service) (data : gmap string jsval) (e : exn) :
  assemble this data = Throw e ->
  e = body_error \/ (e = TypeError /\ data !! "hasOwnProperty" <> None).
Proof.
  unfold assemble. intros H.
  destruct (_populateTemplate (detailsTemplate this) data) as [details | e1] eqn:E1;
    cbn [bind] in H.
  - destruct (match_ body_pattern details) as [[whole body] |];
      [| injection H as <-; now left].
    match type of H with
    | bind (_populateTemplate ?t data) _ = _ =>
        destruct (_populateTemplate t data) as [html | e2] eqn:E2; cbn [bind] in H
    end; [discriminate H |].
    injection H as <-. right. exact (populate_throws _ _ _ E2).
  - injection H as <-. right. exact (populate_throws _ _ _ E1).
Qed.

(** X3.  [generateQuoteHtml] returns [null] exactly when one of the two cached
    templates is empty; with both loaded it either throws or returns a
    document. *)
Theorem generateQuoteHtml_null_iff :
  forall (this : service) (qd : quoteData) (ui : uiState) (f3 : f3Data),
    generateQuoteHtml this qd ui f3 = Normal None
    <-> quoteTemplate this = EmptyString \/ detailsTemplate this = EmptyString.
Proof.
  intros this qd ui f3. split.
  - unfold generateQuoteHtml.
    destruct (quoteTemplate this) as [|a q]; [now left |].
    destruct (detailsTemplate this) as [|b d]; [now right |].
    cbn [is_empty orb]. intros H.
    destruct (_prepareTemplateData _ qd ui f3) as [data | e]; cbn [bind] in H;
      [| discriminate H].
    destruct (assemble _ data) as [html | e]; cbn [bind] in H; discriminate H.
  - intros [H | H]; unfold generateQuoteHtml; rewrite H; cbn [is_empty orb];
      [reflexivity | now rewrite orb_true_r].
Qed.

(** X4.  The steps of the render that call nothing outside this class throw
    only what is listed here.  Once the template data is prepared, the
    rest of [generateQuoteHtml] throws nothing but the [Error] about the
    missing body content; under an arbitrary mapping it can also throw a
    [TypeError], and does so only when the mapping has an own entry named
    [hasOwnProperty].  [_formatCustomerInfo] and the two table generators
    throw nothing but a [TypeError]. *)
Theorem render_steps_exceptions :
  (forall (this : service) (data : gmap string jsval) (e : exn),
      assemble this data = Throw e ->
      e = body_error \/ (e = TypeError /\ data !! "hasOwnProperty" <> None))
  /\ (forall (this : service) (qd : quoteData) (ui : uiState) (f3 : f3Data)
             (data : gmap string jsval) (e : exn),
        _prepareTemplateData this qd ui f3 = Normal data ->
        assemble this data = Throw e ->
        e = body_error)
  /\ (forall (f3 : f3Data) (e : exn), _formatCustomerInfo f3 = Throw e -> e = TypeError)
  /\ (forall (its : list item) (summary : summaryData) (e : exn),
        _generateItemsTableHtml its summary = Throw e -> e = TypeError)
  /\ (forall (summary : summaryData) (qd : quoteData) (ui : uiState) (e : exn),
        _generatePageOneItemsTableHtml summary qd ui = Throw e -> e = TypeError).
Proof.
  split; [exact assemble_throws |]. split; [| split; [| split]].
  - intros this qd ui f3 data e Hdata H.
    destruct (assemble_throws this data e H) as [He | [_ Hown]]; [exact He |].
    elim Hown. exact (prepared_keys this qd ui f3 data Hdata).
  - intros f3 e. apply teo_formatCustomerInfo.
  - intros its summary e. apply teo_generateItemsTableHtml.
  - intros summary qd ui e. apply teo_generatePageOneItemsTableHtml.
Qed.

(** A detail template without a body element, under the data of a render
    and under a mapping that shadows [hasOwnProperty]. *)
Lemma render_steps_exceptions_witness :
  assemble service_no_body data_x11 = Throw body_error
  /\ assemble service_no_body shadowing_data = Throw TypeError
  /\ (TypeError = body_error
      \/ (TypeError = TypeError /\ shadowing_data !! "hasOwnProperty" <> None)).
Proof.
  assert (H1 : assemble service_no_body data_x11 = Throw body_error)
    by (vm_compute; reflexivity).
  assert (H2 : assemble service_no_body shadowing_data = Throw TypeError)
    by (vm_compute; reflexivity).
  split; [exact H1 |]. split; [exact H2 |].
  exact (proj1 render_steps_exceptions service_no_body shadowing_data TypeError H2).
Defined.

(** X5.  A customer address that is present but not a string (a Number, a
    boolean) makes [_formatCustomerInfo] throw a [TypeError], and with both
    templates loaded the whole render throws it. *)
Theorem address_of_wrong_type_throws :
  forall (this : service) (qd : quoteData) (ui : uiState) (f3 : f3Data),
    ToBoolean (customerAddress f3) = true ->
    (forall s, customerAddress f3 <> VString s) ->
    _formatCustomerInfo f3 = Throw TypeError
    /\ (quoteTemplate this <> EmptyString -> detailsTemplate this <> EmptyString ->
        generateQuoteHtml this qd ui f3 = Throw TypeError).
Proof.
  intros this qd ui f3 Ht Hs.
  assert (Hc : _formatCustomerInfo f3 = Throw TypeError).
  { unfold _formatCustomerInfo. rewrite Ht.
    destruct (customerAddress f3) as [| | b | x | s]; try reflexivity.
    now elim (Hs s). }
  split; [exact Hc |]. intros Hq Hd. unfold generateQuoteHtml.
  rewrite (not_empty_is_empty _ Hq), (not_empty_is_empty _ Hd). cbn [orb].
  unfold _prepareTemplateData. rewrite Hc. reflexivity.
Qed.

Lemma address_of_wrong_type_throws_witness :
  ToBoolean (customerAddress f3_numeric_address) = true
  /\ _formatCustomerInfo f3_numeric_address = Throw TypeError
  /\ generateQuoteHtml service_no_style no_items blank_ui f3_numeric_address
     = Throw TypeError.
Proof.
  assert (Hs : forall s, customerAddress f3_numeric_address <> VString s)
    by (intros s H; discriminate H).
  destruct (address_of_wrong_type_throws service_no_style no_items blank_ui
              f3_numeric_address eq_refl Hs) as [H1 H2].
  split; [reflexivity |]. split; [exact H1 |].
  apply H2; intros H; discriminate H.
Defined.

(* ===================================================================== *)
(** ** Newlines, and replacement with a string pattern *)
(* ===================================================================== *)

Lemma replace_newlines_is_nl_to_br (s : string) :
  replace_all newline (fun _ _ => "<br>") s = nl_to_br s.
Proof.
  unfold replace_all. induction s as [|c s IH]; [reflexivity |].
  cbn [replace_all_from nl_to_br]. unfold exec_at.
  cbn [pre group post newline List.app]. rewrite match_here_chr.
  unfold ch. destruct (Ascii.eqb nl c) eqn:E.
  - cbn. now rewrite IH.
  - cbn. now rewrite IH.
Qed.

Lemma nl_to_br_no_newline (s : string) : has_char nl (nl_to_br s) = false.
Proof.
  induction s as [|c s IH]; [reflexivity |]. cbn [nl_to_br].
  destruct (Ascii.eqb nl c) eqn:E; cbn; [exact IH | now rewrite E, IH].
Qed.

Lemma nl_to_br_id (s : string) : has_char nl s = false -> nl_to_br s = s.
Proof.
  induction s as [|c s IH]; [reflexivity |]. cbn [has_char nl_to_br]. intros H.
  apply orb_false_iff in H as [Hc Hs]. now rewrite Hc, IH.
Qed.

(** X6.  [s.replace(/\n/g, '<br>')] on a string: the result is the string with
    each newline turned into [<br>] and every other character kept; no
    newline is left; a string without newline is unchanged. *)
Theorem newlines_become_breaks :
  forall s : string,
    call_replace_newlines (VString s) = Normal (nl_to_br s)
    /\ has_char nl (nl_to_br s) = false
    /\ (has_char nl s = false -> nl_to_br s = s).
Proof.
  intros s. split; [| split].
  - cbn [call_replace_newlines]. now rewrite replace_newlines_is_nl_to_br.
  - apply nl_to_br_no_newline.
  - apply nl_to_br_id.
Qed.

Lemma newlines_become_breaks_witness :
  has_char nl "12 High St" = false
  /\ call_replace_newlines (VString "12 High St") = Normal "12 High St".
Proof.
  destruct (newlines_become_breaks "12 High St") as (H1 & _ & H3).
  split; [reflexivity |]. rewrite H1, (H3 eq_refl). reflexivity.
Defined.

Lemma split_first_none (p s : string) :
  includes s p = false -> split_first p s = None.
Proof.
  induction s as [|c s IH]; cbn [includes split_first]; intros H;
    apply orb_false_iff in H as [Hs Hr]; rewrite Hs; [reflexivity |].
  now rewrite IH.
Qed.

Lemma substitution_dollar (d : ascii) (r m b a : string) :
  substitution (String "$" (String d r)) m b a
  = if Ascii.eqb d "$" then String "$" (substitution r m b a)
    else if Ascii.eqb d "&" then m ++ substitution r m b a
    else if Ascii.eqb d "`" then b ++ substitution r m b a
    else if Ascii.eqb d "'" then a ++ substitution r m b a
    else String "$" (substitution (String d r) m b a).
Proof. reflexivity. Qed.

Lemma dollar_safe_dollar (d : ascii) (r : string) :
  dollar_safe (String "$" (String d r))
  = negb (Ascii.eqb d "$" || Ascii.eqb d "&" || Ascii.eqb d "`" || Ascii.eqb d "'")
    && dollar_safe (String d r).
Proof. reflexivity. Qed.

Lemma substitution_safe (r m b a : string) :
  dollar_safe r = true -> substitution r m b a = r.
Proof.
  revert m b a.
  assert (H : forall n r, (String.length r <= n)%nat ->
                forall m b a, dollar_safe r = true -> substitution r m b a = r).
  { induction n as [|n IH]; intros r0 Hn m b a Hs.
    - destruct r0; [reflexivity | simpl in Hn; lia].
    - destruct r0 as [|c r1]; [reflexivity |]. simpl in Hn.
      destruct (Ascii.eqb c "$") eqn:Ec.
      + apply Ascii.eqb_eq in Ec. subst c.
        destruct r1 as [|d r2].
        * reflexivity.
        * rewrite dollar_safe_dollar in Hs. apply andb_true_iff in Hs as [Hd Hs].
          apply negb_true_iff in Hd.
          apply orb_false_iff in Hd as [Hd H4]. apply orb_false_iff in Hd as [Hd H3].
          apply orb_false_iff in Hd as [H1 H2].
          rewrite substitution_dollar, H1, H2, H3, H4. f_equal.
          apply IH; [simpl in *; lia | exact Hs].
      + assert (Hs' : dollar_safe r1 = true).
        { destruct c as [[] [] [] [] [] [] [] []]; try discriminate Ec;
            cbn [dollar_safe] in Hs; exact Hs. }
        assert (He : substitution (String c r1) m b a
                     = String c (substitution r1 m b a)).
        { destruct c as [[] [] [] [] [] [] [] []]; try discriminate Ec; reflexivity. }
        rewrite He. f_equal. apply IH; [lia | exact Hs']. }
  intros m b a. now apply (H (String.length r) r).
Qed.

Lemma starts_with_app (p a : string) : starts_with p (p ++ a) = true.
Proof.
  induction p as [|c p IH]; [reflexivity |].
  cbn [String.append starts_with]. now rewrite Ascii.eqb_refl, IH.
Qed.

(** Wherever the pattern occurs, the split is found, and not later. *)
Lemma split_first_least (p a : string) :
  forall b s : string,
    s = b ++ p ++ a ->
    exists b0 a0,
      split_first p s = Some (b0, a0) /\ (String.length b0 <= String.length b)%nat.
Proof.
  induction b as [|c b IH]; intros s ->.
  - cbn [String.append].
    assert (H : split_first p (p ++ a)
                = Some (EmptyString, drop (String.length p) (p ++ a))).
    { destruct (p ++ a) eqn:E; cbn [split_first]; rewrite <- E, starts_with_app;
        reflexivity. }
    rewrite H. eexists _, _. split; [reflexivity | apply Nat.le_refl].
  - change (String c b ++ p ++ a) with (String c (b ++ p ++ a)). cbn [split_first].
    destruct (starts_with p (String c (b ++ p ++ a))).
    + eexists _, _. split; [reflexivity |]. cbn [String.length]. lia.
    + destruct (IH (b ++ p ++ a) eq_refl) as (b0 & a0 & -> & Hl).
      eexists _, _. split; [reflexivity |]. cbn [String.length]. lia.
Qed.

Lemma sapp_inj_length (a b x y : string) :
  a ++ x = b ++ y -> String.length a = String.length b -> a = b /\ x = y.
Proof.
  revert b. induction a as [|c a IH]; intros [|d b] H Hl; try discriminate Hl.
  - now split.
  - cbn [String.append] in H. injection H as -> H. injection Hl as Hl.
    destruct (IH b H Hl) as [-> ->]. now split.
Qed.

(** The split of [split_first] is the occurrence before which no other
    one starts. *)
Lemma split_first_is_first (p s before after : string) :
  s = before ++ p ++ after ->
  (forall b a, s = b ++ p ++ a -> (String.length before <= String.length b)%nat) ->
  split_first p s = Some (before, after).
Proof.
  intros Hs Hmin.
  destruct (split_first_least p after before s Hs) as (b0 & a0 & Hsp & Hle).
  pose proof (split_first_sound _ _ _ _ Hsp) as Hs0.
  pose proof (Hmin b0 a0 Hs0) as Hge.
  rewrite Hs0 in Hs.
  destruct (sapp_inj_length b0 before _ _ Hs ltac:(lia)) as [-> Hrest].
  destruct (sapp_inj_length p p _ _ Hrest eq_refl) as [_ ->].
  exact Hsp.
Qed.

Lemma first_occurrence_by_split (p s b0 a0 : string) :
  split_first p s = Some (b0, a0) ->
  forall b a, s = b ++ p ++ a -> (String.length b0 <= String.length b)%nat.
Proof.
  intros Hsp b a Hs.
  destruct (split_first_least p a b s Hs) as (b1 & a1 & Hsp1 & Hle).
  rewrite Hsp in Hsp1. now injection Hsp1 as <- <-.
Qed.

Lemma no_occurrence_by_includes (p s : string) :
  includes s p = false -> forall b a, s <> b ++ p ++ a.
Proof.
  intros H b a Hs.
  destruct (split_first_least p a b s Hs) as (b0 & a0 & Hsp & _).
  rewrite (split_first_none p s H) in Hsp. discriminate Hsp.
Qed.

(** X7.  [s.replace(pattern, replacement)] with a string pattern.  When the
    pattern occurs nowhere in [s], the string is unchanged.  When it
    occurs, it has a first occurrence, [s = before ++ pattern ++ after]
    with no occurrence starting earlier, and that occurrence alone is
    replaced: a replacement without [$$], [$&], [$`] or [$'] is inserted
    verbatim, a leading [$$] is inserted as one [$] and a leading [$&] as
    the pattern itself. *)
Theorem replace_first_cases :
  forall pattern replacement s : string,
    ((forall b a, s <> b ++ pattern ++ a) ->
     replace_first pattern replacement s = s)
    /\ ((exists b a, s = b ++ pattern ++ a) ->
        exists before after,
          s = before ++ pattern ++ after
          /\ forall b a, s = b ++ pattern ++ a ->
                         (String.length before <= String.length b)%nat)
    /\ (forall before after,
          s = before ++ pattern ++ after ->
          (forall b a, s = b ++ pattern ++ a ->
                       (String.length before <= String.length b)%nat) ->
          (dollar_safe replacement = true ->
           replace_first pattern replacement s = before ++ replacement ++ after)
          /\ replace_first pattern ("$$" ++ replacement) s
             = before ++ "$" ++ substitution replacement pattern before after ++ after
          /\ replace_first pattern ("$&" ++ replacement) s
             = before ++ pattern ++ substitution replacement pattern before after ++ after).
Proof.
  intros pattern replacement s. split; [| split].
  - intros Hno. unfold replace_first.
    destruct (split_first pattern s) as [[b0 a0] |] eqn:Hsp; [| reflexivity].
    elim (Hno b0 a0). now apply split_first_sound.
  - intros (b & a & Hs).
    destruct (split_first_least pattern a b s Hs) as (b0 & a0 & Hsp & _).
    exists b0, a0. split; [now apply split_first_sound |].
    now apply (first_occurrence_by_split pattern s b0 a0).
  - intros before after Hs Hmin.
    pose proof (split_first_is_first pattern s before after Hs Hmin) as H.
    unfold replace_first. rewrite H. split; [| split].
    + intros Hsafe. now rewrite substitution_safe.
    + reflexivity.
    + cbn [String.append substitution]. cbn. now rewrite sapp_assoc.
Qed.

(** A summary template whose body tag carries attributes has no literal
    [<body>] and is left alone; of two closing tags the first one takes
    the replacement, and a price in the replacement is kept. *)
Lemma replace_first_cases_witness :
  replace_first "<body>" "<body><div>bar</div>" "<html><body class=a>x</body></html>"
  = "<html><body class=a>x</body></html>"
  /\ replace_first "</body>" "<td>$55.00</td></body>" "<body>x</body>y</body>"
     = "<body>x<td>$55.00</td></body>y</body>".
Proof.
  destruct (replace_first_cases "<body>" "<body><div>bar</div>"
              "<html><body class=a>x</body></html>") as [H1 _].
  destruct (replace_first_cases "</body>" "<td>$55.00</td></body>"
              "<body>x</body>y</body>") as (_ & _ & H2).
  split.
  - apply H1. now apply no_occurrence_by_includes.
  - destruct (H2 "<body>x" "y</body>" eq_refl
                (first_occurrence_by_split "</body>" "<body>x</body>y</body>"
                   "<body>x" "y</body>" eq_refl)) as (H3 & _).
    exact (H3 eq_refl).
Defined.

(* ===================================================================== *)
(** ** The body and style regions *)
(* ===================================================================== *)

Lemma toLowerCase_app (a b : string) :
  toLowerCase (a ++ b) = toLowerCase a ++ toLowerCase b.
Proof. induction a as [|c a IH]; simpl; [reflexivity | now rewrite IH]. Qed.

Lemma toLowerCase_drop (s : string) (i : nat) :
  toLowerCase (drop i s) = drop i (toLowerCase s).
Proof.
  revert i. induction s as [|c s IH]; intros i; destruct i; try reflexivity.
  cbn [drop toLowerCase]. apply IH.
Qed.

Lemma concat_singletons (w : string) : Str.concat (singletons w) = w.
Proof. induction w as [|c w IH]; [reflexivity |]. cbn. now rewrite IH. Qed.

Lemma concat_app (l1 l2 : list string) :
  Str.concat (l1 ++ l2)%list = Str.concat l1 ++ Str.concat l2.
Proof.
  induction l1 as [|a l1 IH]; [reflexivity |]. cbn [List.app Str.concat].
  now rewrite IH, sapp_assoc.
Qed.

Lemma length_singletons (w : string) : List.length (singletons w) = String.length w.
Proof. induction w as [|c w IH]; [reflexivity |]. cbn. now rewrite IH. Qed.

Lemma prepend_with_piece (x : string) (l : list string) (r : option (list string * string)) :
  with_piece x (prepend l r) = prepend (x :: l) r.
Proof. destruct r as [[ps rest] |]; reflexivity. Qed.

(** A literal under the [i] flag takes a word that is the literal up to
    letter case, and nothing else. *)
Lemma match_here_literal_ci (p : string) :
  forall (w : string) (re : list atom) (s : string),
    same_ci p w ->
    match_here (literal_ci p ++ re)%list (w ++ s) = prepend (singletons w) (match_here re s).
Proof.
  unfold same_ci. induction p as [|a p IH]; intros w re s H.
  - destruct w; [| discriminate H]. cbn. now destruct (match_here re s) as [[ps r] |].
  - destruct w as [|b w]; [discriminate H |]. cbn [toLowerCase] in H.
    injection H as Hb Hw. cbn [literal_ci List.app String.append].
    rewrite match_here_chr. unfold ch_ci. rewrite <- Hb, Ascii.eqb_refl.
    rewrite (IH w re s Hw). cbn [singletons]. apply prepend_with_piece.
Qed.

Lemma match_here_literal_ci_fail (p : string) :
  forall (re : list atom) (s : string),
    starts_with (toLowerCase p) (toLowerCase s) = false ->
    match_here (literal_ci p ++ re)%list s = None.
Proof.
  induction p as [|a p IH]; intros re s H; [discriminate H |].
  destruct s as [|b s]; [reflexivity |].
  cbn [literal_ci List.app]. rewrite match_here_chr. unfold ch_ci.
  cbn [toLowerCase starts_with] in H.
  destruct (Ascii.eqb (lower_ascii a) (lower_ascii b)); [| reflexivity].
  cbn [andb] in H. now rewrite (IH re s H).
Qed.

Lemma run_length_any (s : string) : run_length any s = String.length s.
Proof. induction s as [|c s IH]; [reflexivity |]. cbn. now rewrite IH. Qed.

Lemma try_down_last {A : Type} (k : nat -> option A) (lo i n : nat) (r : A) :
  (lo <= i <= n)%nat ->
  (forall j, (i < j <= n)%nat -> k j = None) ->
  k i = Some r ->
  try_down k lo n = Some r.
Proof.
  intros Hi Hnone Hk. induction n as [|n IH].
  - assert (i = 0%nat) as -> by lia. now apply try_down_first.
  - destruct (Nat.eq_dec i (S n)) as [-> | Hne]; [now apply try_down_first |].
    cbn [try_down]. destruct (S n <? lo)%nat eqn:E; [apply Nat.ltb_lt in E; lia |].
    rewrite (Hnone (S n)) by lia. apply IH; [lia |].
    intros j Hj. apply Hnone. lia.
Qed.

Lemma starts_with_nowhere (p y : string) :
  includes y p = false -> forall i, starts_with p (drop i y) = false.
Proof.
  induction y as [|c y IH]; cbn [includes]; intros H i;
    apply orb_false_iff in H as [Hs Hr].
  - now destruct i.
  - destruct i as [|i]; [exact Hs |]. cbn [drop]. now apply IH.
Qed.

Lemma drop_app_more (a b : string) (j : nat) :
  drop (String.length a + j) (a ++ b) = drop j b.
Proof. induction a as [|c a IH]; [reflexivity | exact IH]. Qed.

Lemma starts_with_window (p x w : string) :
  (String.length p <= String.length x)%nat ->
  starts_with p (x ++ w) = starts_with p x.
Proof.
  revert x. induction p as [|a p IH]; intros x H; [reflexivity |].
  destruct x as [|b x]; [simpl in H; lia |]. cbn [String.append starts_with].
  rewrite IH; [reflexivity | simpl in H; lia].
Qed.

(** The greedy [any*] before a closing literal runs to the last closing
    literal: the one after which no further one starts. *)
Lemma greedy_to_last_close (p inner w post : string) :
  same_ci p w ->
  includes (toLowerCase (drop 1 (w ++ post))) (toLowerCase p) = false ->
  match_here (Star any :: literal_ci p) (inner ++ w ++ post)
  = Some (inner :: singletons w, post).
Proof.
  intros Hw Hlast. rewrite match_here_star, run_length_any, Nat.min_id.
  assert (Hat : forall s, match_here (literal_ci p) (w ++ s) = Some (singletons w, s)).
  { intros s. rewrite <- (app_nil_r (literal_ci p)).
    rewrite (match_here_literal_ci p w [] s Hw). cbn. now rewrite app_nil_r. }
  apply (try_down_last _ 0 (String.length inner)).
  - rewrite slength_app. lia.
  - intros j Hj.
    replace j with (String.length inner + S (j - S (String.length inner)))%nat by lia.
    rewrite drop_app_more. set (d := (j - S (String.length inner))%nat).
    rewrite <- (app_nil_r (literal_ci p)), match_here_literal_ci_fail; [reflexivity |].
    change (drop (S d) (w ++ post)) with (drop (S d) (w ++ post)).
    assert (Hd : drop (S d) (w ++ post) = drop d (drop 1 (w ++ post))).
    { destruct (w ++ post); [now destruct d | reflexivity]. }
    rewrite Hd, toLowerCase_drop. now apply starts_with_nowhere.
  - now rewrite take_app_length, drop_app_length, Hat.
Qed.

(** No match starts where the text does not begin with the opening
    literal. *)
Lemma search_skips (r : regex) (p : string) (rest : list atom) :
  (pre r ++ group r ++ post r)%list = (literal_ci p ++ rest)%list ->
  p <> EmptyString ->
  forall before s : string,
    includes (toLowerCase before ++ take (String.length p - 1) (toLowerCase s))
             (toLowerCase p) = false ->
    (String.length p - 1 <= String.length s)%nat ->
    search r (before ++ s)
    = match search r s with
      | Some (b, m0, m1, rest') => Some (before ++ b, m0, m1, rest')
      | None => None
      end.
Proof.
  intros Hr Hp before s. induction before as [|c before IH]; intros Hinc Hlen.
  - cbn [String.append]. now destruct (search r s) as [[[[b m0] m1] rest'] |].
  - cbn [String.append search].
    assert (He : exec_at r (String c (before ++ s)) = None).
    { unfold exec_at. rewrite Hr, match_here_literal_ci_fail; [reflexivity |].
      cbn [toLowerCase String.append includes] in Hinc.
      apply orb_false_iff in Hinc as [Hs _].
      rewrite <- Hs. change (String (lower_ascii c) (toLowerCase (before ++ s)))
        with (toLowerCase (String c (before ++ s))).
      cbn [toLowerCase]. rewrite toLowerCase_app.
      rewrite <- (take_drop (toLowerCase s) (String.length p - 1)) at 1.
      rewrite <- sapp_assoc.
      change (String (lower_ascii c)
                ((toLowerCase before ++ take (String.length p - 1) (toLowerCase s))
                 ++ drop (String.length p - 1) (toLowerCase s)))
        with ((String (lower_ascii c)
                 (toLowerCase before ++ take (String.length p - 1) (toLowerCase s)))
              ++ drop (String.length p - 1) (toLowerCase s)).
      apply starts_with_window.
      assert (Hl : String.length (toLowerCase p) = String.length p).
      { clear. induction p as [|a p IH]; [reflexivity |]. cbn. now rewrite IH. }
      assert (Hl' : String.length (toLowerCase s) = String.length s).
      { clear. induction s as [|a s IH]; [reflexivity |]. cbn. now rewrite IH. }
      rewrite Hl. cbn [String.length]. rewrite slength_app, length_take by lia.
      destruct p; [now elim Hp | cbn [String.length]; lia]. }
    rewrite He. cbn [toLowerCase String.append includes] in Hinc.
    apply orb_false_iff in Hinc as [_ Hinc].
    rewrite (IH Hinc Hlen).
    now destruct (search r s) as [[[[b m0] m1] rest'] |].
Qed.

Lemma search_here (r : regex) (s m0 m1 rest : string) :
  exec_at r s = Some (m0, m1, rest) -> search r s = Some (EmptyString, m0, m1, rest).
Proof. intros H. destruct s; cbn [search]; now rewrite H. Qed.

Lemma search_none (r : regex) (p : string) (rest : list atom) :
  (pre r ++ group r ++ post r)%list = (literal_ci p ++ rest)%list ->
  p <> EmptyString ->
  forall s, includes (toLowerCase s) (toLowerCase p) = false -> search r s = None.
Proof.
  intros Hr Hp s. induction s as [|c s IH]; intros H.
  - cbn [search]. unfold exec_at. rewrite Hr, match_here_literal_ci_fail; [reflexivity |].
    destruct p; [now elim Hp | reflexivity].
  - cbn [toLowerCase includes] in H. apply orb_false_iff in H as [Hs Hi].
    cbn [search]. unfold exec_at. rewrite Hr, match_here_literal_ci_fail by exact Hs.
    now rewrite (IH Hi).
Qed.

Lemma no_char_forallb (c : ascii) (s : string) :
  has_char c s = false -> Str.forallb (not_ch c) s = true.
Proof.
  induction s as [|x s IH]; [reflexivity |]. cbn [has_char Str.forallb]. intros H.
  apply orb_false_iff in H as [Hx Hs]. unfold not_ch at 1. now rewrite Hx, IH.
Qed.

(** X8.  The style match of [generateQuoteHtml] runs from the first [<style>]
    to the last [</style>] of the populated detail page, in any letter
    case: with several style blocks, everything between the first opening
    and the last closing tag is taken as one fragment. *)
Theorem style_match (before w1 inner w2 after : string) :
  same_ci "<style>" w1 ->
  same_ci "</style>" w2 ->
  includes (toLowerCase before ++ "<style") "<style>" = false ->
  includes ("/style>" ++ toLowerCase after) "</style>" = false ->
  match_ style_pattern (before ++ w1 ++ inner ++ w2 ++ after)
  = Some (w1 ++ inner ++ w2, inner).
Proof.
  intros H1 H2 Hb Hp. unfold match_.
  assert (Hlow : toLowerCase (w1 ++ inner ++ w2 ++ after)
                 = "<style>" ++ toLowerCase (inner ++ w2 ++ after)).
  { rewrite toLowerCase_app. unfold same_ci in H1. now rewrite H1. }
  rewrite (search_skips style_pattern "<style>"
             ([Star any] ++ literal_ci "</style>")%list eq_refl
             ltac:(discriminate) before).
  - assert (He : exec_at style_pattern (w1 ++ inner ++ w2 ++ after)
                 = Some (w1 ++ inner ++ w2, inner, after)).
    { unfold exec_at.
      change (pre style_pattern ++ group style_pattern ++ post style_pattern)%list
        with (literal_ci "<style>" ++ Star any :: literal_ci "</style>")%list.
      rewrite (match_here_literal_ci "<style>" w1 _ _ H1).
      rewrite (greedy_to_last_close "</style>" inner w2 after H2).
      + unfold same_ci in H1.
        destruct w1 as [|c1 [|c2 [|c3 [|c4 [|c5 [|c6 [|c7 [|c8 w1]]]]]]]];
          try discriminate H1.
        cbn [prepend singletons List.app pre group post style_pattern literal_ci
             List.length skipn firstn Str.concat String.append].
        rewrite concat_singletons, !sapp_nil_r. reflexivity.
      + rewrite toLowerCase_drop, toLowerCase_app. unfold same_ci in H2.
        rewrite H2. exact Hp. }
    now rewrite (search_here _ _ _ _ _ He).
  - rewrite Hlow. exact Hb.
  - rewrite slength_app. unfold same_ci in H1.
    apply (f_equal String.length) in H1. cbn in H1.
    assert (Hl : String.length (toLowerCase w1) = String.length w1).
    { clear. induction w1 as [|a s IH]; [reflexivity |]. cbn. now rewrite IH. }
    cbn [String.length]. lia.
Qed.

(** X9.  The body match of [generateQuoteHtml] starts at the first [<body] of
    the populated detail page (any letter case), skips the attributes up
    to the next [>], and ends at the last [</body>]; the body content
    spliced into the summary page is exactly what stands between that [>]
    and that last [</body>]. *)
Theorem body_match (before w1 attrs inner w2 after : string) :
  same_ci "<body" w1 ->
  has_char ">" attrs = false ->
  same_ci "</body>" w2 ->
  includes (toLowerCase before ++ "<bod") "<body" = false ->
  includes ("/body>" ++ toLowerCase after) "</body>" = false ->
  match_ body_pattern (before ++ w1 ++ attrs ++ ">" ++ inner ++ w2 ++ after)
  = Some (w1 ++ attrs ++ ">" ++ inner ++ w2, inner).
Proof.
  intros H1 Ha H2 Hb Hp. unfold match_.
  set (tail := attrs ++ ">" ++ inner ++ w2 ++ after).
  assert (Hlow : toLowerCase (w1 ++ tail) = "<body" ++ toLowerCase tail).
  { rewrite toLowerCase_app. unfold same_ci in H1. now rewrite H1. }
  rewrite (search_skips body_pattern "<body"
             ([Star (not_ch ">"); Chr (ch ">")] ++ [Star any] ++ literal_ci "</body>")%list
             eq_refl ltac:(discriminate) before).
  - assert (He : exec_at body_pattern (w1 ++ tail)
                 = Some (w1 ++ attrs ++ ">" ++ inner ++ w2, inner, after)).
    { unfold exec_at.
      change (pre body_pattern ++ group body_pattern ++ post body_pattern)%list
        with (literal_ci "<body"
              ++ Star (not_ch ">") :: Chr (ch ">") :: Star any :: literal_ci "</body>")%list.
      rewrite (match_here_literal_ci "<body" w1 _ _ H1).
      assert (Hs : match_here
                     (Star (not_ch ">") :: Chr (ch ">") :: Star any :: literal_ci "</body>")
                     tail
                   = Some (attrs :: ">" :: inner :: singletons w2, after)).
      { unfold tail. rewrite match_here_star.
        change (">" ++ inner ++ w2 ++ after) with (String ">" (inner ++ w2 ++ after)).
        rewrite (run_length_all (not_ch ">") attrs ">" _ (no_char_forallb _ _ Ha) eq_refl).
        rewrite slength_app.
        replace (Nat.min (String.length attrs + String.length (String ">" (inner ++ w2 ++ after)))
                         (String.length attrs))
          with (String.length attrs) by lia.
        apply try_down_first; [lia |].
        rewrite take_app_length, drop_app_length, match_here_chr.
        unfold ch at 1. rewrite Ascii.eqb_refl.
        rewrite (greedy_to_last_close "</body>" inner w2 after H2); [reflexivity |].
        rewrite toLowerCase_drop, toLowerCase_app. unfold same_ci in H2.
        rewrite H2. exact Hp. }
      rewrite Hs. unfold same_ci in H1.
      destruct w1 as [|c1 [|c2 [|c3 [|c4 [|c5 [|c6 w1]]]]]]; try discriminate H1.
      cbn [prepend singletons List.app pre group post body_pattern literal_ci
           List.length skipn firstn Str.concat String.append].
      rewrite concat_singletons, !sapp_nil_r. reflexivity. }
    now rewrite (search_here _ _ _ _ _ He).
  - rewrite Hlow. exact Hb.
  - rewrite slength_app. unfold same_ci in H1.
    apply (f_equal String.length) in H1. cbn in H1.
    assert (Hl : String.length (toLowerCase w1) = String.length w1).
    { clear. induction w1 as [|a s IH]; [reflexivity |]. cbn. now rewrite IH. }
    cbn [String.length]. lia.
Qed.

Lemma style_match_witness :
  match_ style_pattern
    "<head><STYLE>a{}</style><meta><style>b{}</Style></head>"
  = Some ("<STYLE>a{}</style><meta><style>b{}</Style>", "a{}</style><meta><style>b{}").
Proof.
  exact (style_match "<head>" "<STYLE>" "a{}</style><meta><style>b{}" "</Style>" "</head>"
           eq_refl eq_refl eq_refl eq_refl).
Defined.

Lemma body_match_witness :
  match_ body_pattern "<html><BODY class=page>a</body>b</Body></html>"
  = Some ("<BODY class=page>a</body>b</Body>", "a</body>b").
Proof.
  exact (body_match "<html>" "<BODY" " class=page" "a</body>b" "</Body>" "</html>"
           eq_refl eq_refl eq_refl eq_refl eq_refl).
Defined.

(** X10.  A populated detail page that contains no [<body] in any letter case
    has no body match: with both templates loaded and the data prepared,
    the render throws the missing-body error. *)
Theorem missing_body_tag_throws :
  forall (this : service) (qd : quoteData) (ui : uiState) (f3 : f3Data)
         (data : gmap string jsval),
    quoteTemplate this <> EmptyString ->
    detailsTemplate this <> EmptyString ->
    _prepareTemplateData this qd ui f3 = Normal data ->
    includes (toLowerCase (populated (detailsTemplate this) data)) "<body" = false ->
    _populateTemplate (detailsTemplate this) data
    = Normal (populated (detailsTemplate this) data)
    /\ generateQuoteHtml this qd ui f3 = Throw body_error.
Proof.
  intros this qd ui f3 data Hq Hd Hdata Hno.
  pose proof (populate_Normal (detailsTemplate this) data
                (prepared_keys this qd ui f3 data Hdata)) as Hpop.
  split; [exact Hpop |]. unfold generateQuoteHtml.
  rewrite (not_empty_is_empty _ Hq), (not_empty_is_empty _ Hd), Hdata.
  cbn [orb bind].
  assert (Hm : match_ body_pattern (populated (detailsTemplate this) data) = None).
  { unfold match_.
    now rewrite (search_none body_pattern "<body"
                   ([Star (not_ch ">"); Chr (ch ">")] ++ [Star any]
                    ++ literal_ci "</body>")%list
                   eq_refl ltac:(discriminate) _ Hno). }
  unfold assemble. rewrite Hpop. cbn [bind]. rewrite Hm. reflexivity.
Qed.

Lemma missing_body_tag_throws_witness :
  generateQuoteHtml service_no_body no_items blank_ui blank_f3 = Throw body_error.
Proof.
  apply (missing_body_tag_throws service_no_body no_items blank_ui blank_f3 data_x11).
  - intros H; discriminate H.
  - intros H; discriminate H.
  - exact prepare_x11.
  - vm_compute. reflexivity.
Defined.

(* ===================================================================== *)
(** ** The detail table *)
(* ===================================================================== *)

Lemma map_indexed_nth {A B : Type} (f : A -> nat -> completion B) (l : list A) :
  forall (start : nat) (out : list B),
    map_indexed f l start = Normal out ->
    forall (k : nat) (a : A),
      nth_error l k = Some a ->
      exists b, nth_error out k = Some b /\ f a (start + k)%nat = Normal b.
Proof.
  induction l as [|x l IH]; intros start out H k a Hk.
  - destruct k; discriminate Hk.
  - cbn [map_indexed] in H. bind_inv H. bind_inv H. apply Normal_inj in H. subst out.
    destruct k as [|k].
    + injection Hk as <-. exists a0. split; [reflexivity |]. now rewrite Nat.add_0_r.
    + cbn [nth_error] in Hk. destruct (IH _ _ E0 k a Hk) as (b & Hb & Hf).
      exists b. split; [exact Hb |]. now rewrite Nat.add_succ_r.
Qed.

Lemma map_indexed_throw {A B : Type} (f : A -> nat -> completion B) (l : list A) :
  forall (start : nat) (e : exn),
    map_indexed f l start = Throw e ->
    exists (k : nat) (a : A), nth_error l k = Some a /\ f a (start + k)%nat = Throw e.
Proof.
  induction l as [|x l IH]; intros start e H; [discriminate H |].
  cbn [map_indexed] in H. destruct (f x start) as [b | e'] eqn:Ef; cbn [bind] in H.
  - destruct (map_indexed f l (S start)) as [bs | e''] eqn:Em; cbn [bind] in H;
      [discriminate H |].
    injection H as <-. destruct (IH _ _ Em) as (k & a & Hk & Hf).
    exists (S k), a. split; [exact Hk |]. now rewrite Nat.add_succ_r.
  - injection H as <-. exists 0%nat, x. split; [reflexivity |]. now rewrite Nat.add_0_r.
Qed.

Lemma item_row_start (m : jsval) (i : item) (index : nat) (row : string) :
  item_row m i index = Normal row ->
  absent_or_string (fabric i)
  /\ exists rest,
       row = "<tr>" ++ cell "#" (VNumber (add (of_nat index) (of_Z 1))) "text-center"
             ++ rest.
Proof.
  unfold item_row. intros H. bind_inv H. apply Normal_inj in H. subst row. split.
  - unfold fabricClass_of in E. intros Ht. rewrite Ht in E.
    destruct (fabric i) as [| | b | x | s]; try discriminate E. now exists s.
  - eexists. cbn [join]. rewrite !sapp_assoc. reflexivity.
Qed.

Lemma item_row_throw (m : jsval) (i : item) (index : nat) (e : exn) :
  item_row m i index = Throw e -> ~ absent_or_string (fabric i).
Proof.
  unfold item_row. intros H Hs.
  destruct (fabricClass_of i) as [cls | e'] eqn:E; cbn [bind] in H; [discriminate H |].
  unfold fabricClass_of in E. destruct (ToBoolean (fabric i)) eqn:Ht.
  - destruct (Hs Ht) as [s Hf]. rewrite Hf in E. discriminate E.
  - discriminate E.
Qed.

(** X11.  The detail rows follow the valid items in order: row [k] renders the
    [k]-th item that has both width and height, and its first cell holds
    [k + 1], the position among the valid items, not the position in the
    original list.  The rows are produced exactly when every valid item
    has a fabric name that is absent or a string; otherwise a [TypeError]
    is thrown. *)
Theorem detail_rows_by_position :
  forall (its : list item) (summary : summaryData),
    ((exists rows, detail_rows its summary = Normal rows)
     <-> Forall (fun i => absent_or_string (fabric i)) (List.filter is_valid its))
    /\ (forall e, detail_rows its summary = Throw e -> e = TypeError)
    /\ (forall rows,
          detail_rows its summary = Normal rows ->
          List.length rows = List.length (List.filter is_valid its)
          /\ forall (k : nat) (i : item),
               nth_error (List.filter is_valid its) k = Some i ->
               exists row rest,
                 nth_error rows k = Some row
                 /\ item_row (or (mulTimes summary) (num 1)) i k = Normal row
                 /\ row = "<tr>"
                          ++ cell "#" (VNumber (add (of_nat k) (of_Z 1))) "text-center"
                          ++ rest).
Proof.
  intros its summary. unfold detail_rows.
  set (m := or (mulTimes summary) (num 1)). set (l := List.filter is_valid its).
  split; [| split].
  - split.
    + intros (rows & H). apply List.Forall_forall. intros i Hin.
      apply In_nth_error in Hin as (k & Hk).
      destruct (map_indexed_nth _ _ _ _ H k i Hk) as (row & _ & Hr).
      now apply item_row_start in Hr as [Hs _].
    + intros Hall. destruct (map_indexed (item_row m) l 0) as [rows | e] eqn:E;
        [now exists rows |].
      destruct (map_indexed_throw _ _ _ _ E) as (k & i & Hk & Hr).
      apply item_row_throw in Hr. elim Hr.
      rewrite List.Forall_forall in Hall. apply Hall. now apply nth_error_In in Hk.
  - intros e H. apply (teo_map_indexed (item_row m) l (teo_item_row m) 0 e H).
  - intros rows H. split; [now apply map_indexed_length in H |].
    intros k i Hk. destruct (map_indexed_nth _ _ _ _ H k i Hk) as (row & Hn & Hr).
    cbn [Nat.add] in Hr. destruct (item_row_start _ _ _ _ Hr) as (_ & rest & Hrow).
    now exists row, rest.
Qed.

(** An incomplete item between two complete ones: two rows, numbered 1
    and 2. *)
Lemma detail_rows_by_position_witness :
  exists rows,
    detail_rows [item_100x100; item_no_height; item_light_blockout] summary_x11
    = Normal rows
    /\ List.length rows = 2%nat
    /\ exists row rest,
         nth_error rows 1 = Some row
         /\ row = "<tr>" ++ cell "#" (num 2) "text-center" ++ rest.
Proof.
  destruct (detail_rows_by_position
              [item_100x100; item_no_height; item_light_blockout] summary_x11)
    as (Hiff & _ & Hpos).
  assert (Hall : Forall (fun i => absent_or_string (fabric i))
                   (List.filter is_valid
                      [item_100x100; item_no_height; item_light_blockout])).
  { repeat constructor.
    - intros H. discriminate H.
    - intros _. eexists. reflexivity. }
  destruct (proj2 Hiff Hall) as (rows & Hrows).
  exists rows. split; [exact Hrows |].
  destruct (Hpos rows Hrows) as (Hlen & Hnth). split; [exact Hlen |].
  destruct (Hnth 1%nat item_light_blockout eq_refl) as (row & rest & H1 & _ & H3).
  exists row, rest. split; [exact H1 | exact H3].
Defined.

(** X12.  A detail cell is marked [is-empty-cell] exactly when its content is
    falsy: with truthy content the class attribute is the given class,
    with falsy content the marker is added to it (and stands alone when
    there is no class). *)
Theorem cell_empty_marker :
  forall (label cls : string) (content : jsval),
    In cls detail_classes ->
    (ToBoolean content = true ->
     cell label content cls
     = "<td data-label=" ++ q label ++ " class=" ++ q cls ++ ">"
       ++ ToString content ++ "</td>")
    /\ (ToBoolean content = false ->
        cell label content cls
        = "<td data-label=" ++ q label ++ " class="
          ++ q (if is_empty cls then "is-empty-cell" else cls ++ " is-empty-cell")
          ++ ">" ++ ToString content ++ "</td>").
Proof.
  intros label cls content Hin. unfold cell.
  split; intros Ht; rewrite Ht; cbn [negb];
    cbn [detail_classes In] in Hin;
    destruct Hin as [<- | [<- | [<- | [<- | [<- | [<- | []]]]]]]; reflexivity.
Qed.

Lemma cell_empty_marker_witness :
  cell "Location" (VString EmptyString) EmptyString
  = "<td data-label=" ++ q "Location" ++ " class=" ++ q "is-empty-cell" ++ "></td>"
  /\ cell "F-NAME" (VString "Vibe") "bg-blockout"
     = "<td data-label=" ++ q "F-NAME" ++ " class=" ++ q "bg-blockout" ++ ">Vibe</td>".
Proof.
  split.
  - exact (proj2 (cell_empty_marker "Location" EmptyString (VString EmptyString)
                    ltac:(cbn; tauto)) eq_refl).
  - exact (proj1 (cell_empty_marker "F-NAME" "bg-blockout" (VString "Vibe")
                    ltac:(cbn; tauto)) eq_refl).
Defined.

(* ===================================================================== *)
(** ** The page-one table: numbering and quantities *)
(* ===================================================================== *)

Lemma item_number_4 : ToString (VNumber (add (add (of_Z 2) (of_Z 1)) (of_Z 1))) = "4".
Proof. vm_compute. reflexivity. Qed.

Lemma item_number_5 :
  ToString (VNumber (add (add (add (of_Z 2) (of_Z 1)) (of_Z 1)) (of_Z 1))) = "5".
Proof. vm_compute. reflexivity. Qed.

Lemma item_number_6 :
  ToString (VNumber (add (add (add (add (of_Z 2) (of_Z 1)) (of_Z 1)) (of_Z 1)) (of_Z 1)))
  = "6".
Proof. vm_compute. reflexivity. Qed.

Lemma quantity_default (v : jsval) (z : Z) :
  ToBoolean v = false -> ToString (or v (num z)) = ToString (num z).
Proof. intros H. now rewrite or_falsy. Qed.

Section PageOneNumbers.

Local Opaque Num.add Num.of_Z.

Lemma page_one_rows_numbered :
  forall (summary : summaryData) (qd : quoteData) (ui : uiState) (rows : list string)
         (x5 x6 x7 : float64),
    or (deliveryFee summary) (num 0) = VNumber x5 ->
    or (installFee summary) (num 0) = VNumber x6 ->
    or (removalFee summary) (num 0) = VNumber x7 ->
    page_one_rows summary qd ui = Normal rows ->
    let k := optional_rows summary in
    exists (rb : string) (more : list string),
      rows
      = (rb :: more
         ++ [ fee_row (row_number (2 + k)) "Delivery"
                (ToString (or (deliveryQty (f2 ui)) (num 1)))
                (ToBoolean (deliveryFeeExcluded (f2 ui))) (toFixed x5 2);
              fee_row (row_number (3 + k)) "Installation"
                (ToString (VNumber (validItemCount_of (items qd))))
                (ToBoolean (installFeeExcluded (f2 ui))) (toFixed x6 2);
              fee_row (row_number (4 + k)) "Removal"
                (ToString (or (removalQty (f2 ui)) (num 0)))
                (ToBoolean (removalFeeExcluded (f2 ui))) (toFixed x7 2) ])%list
      /\ rollerBlinds_row (validItemCount_of (items qd)) summary = Normal rb
      /\ List.length more = k.
Proof.
  intros summary qd ui rows x5 x6 x7 H5 H6 H7 H. unfold page_one_rows in H.
  bind_inv H. rename a into rb. unfold optional_rows.
  destruct (gt_number (acceSum summary) zero) eqn:Hacc;
    destruct (gt_number (eAcceSum summary) zero) eqn:Heacc.
  - bind_inv H. bind_inv E0. apply Normal_inj in E0. subst a.
    bind_inv H. bind_inv E0. apply Normal_inj in E0. subst a.
    rewrite (delivery_row_text _ summary ui x5 H5),
      (install_row_text _ _ summary ui x6 H6),
      (removal_row_text _ summary ui x7 H7) in H.
    cbn [bind] in H. apply Normal_inj in H. subst rows.
    rewrite item_number_4, item_number_5, item_number_6.
    exists rb, [a0; a1]. split; [reflexivity |]. split; reflexivity.
  - bind_inv H. bind_inv E0. apply Normal_inj in E0. subst a.
    cbn [bind] in H.
    rewrite (delivery_row_text _ summary ui x5 H5),
      (install_row_text _ _ summary ui x6 H6),
      (removal_row_text _ summary ui x7 H7) in H.
    cbn [bind] in H. apply Normal_inj in H. subst rows.
    rewrite item_number_3, item_number_4, item_number_5.
    exists rb, [a0]. split; [reflexivity |]. split; reflexivity.
  - cbn [bind] in H.
    bind_inv H. bind_inv E0. apply Normal_inj in E0. subst a.
    rewrite (delivery_row_text _ summary ui x5 H5),
      (install_row_text _ _ summary ui x6 H6),
      (removal_row_text _ summary ui x7 H7) in H.
    cbn [bind] in H. apply Normal_inj in H. subst rows.
    rewrite item_number_3, item_number_4, item_number_5.
    exists rb, [a0]. split; [reflexivity |]. split; reflexivity.
  - cbn [bind] in H.
    rewrite (delivery_row_text _ summary ui x5 H5),
      (install_row_text _ _ summary ui x6 H6),
      (removal_row_text _ summary ui x7 H7) in H.
    cbn [bind] in H. apply Normal_inj in H. subst rows.
    rewrite item_number_2, item_number_3, item_number_4.
    exists rb, []. split; [reflexivity |]. split; reflexivity.
Qed.

End PageOneNumbers.

(** X13.  The page-one table ends with the Delivery, Installation and Removal
    rows, numbered consecutively after the Roller Blinds row (number 1)
    and the accessory rows that are present.  The Delivery quantity is
    [deliveryQty], or 1 when that is falsy (so also for a quantity of 0);
    the Removal quantity is [removalQty], or 0; the Installation quantity
    is the number of valid items. *)
Theorem page_one_fee_rows :
  forall (summary : summaryData) (qd : quoteData) (ui : uiState) (rows : list string)
         (x5 x6 x7 : float64),
    or (deliveryFee summary) (num 0) = VNumber x5 ->
    or (installFee summary) (num 0) = VNumber x6 ->
    or (removalFee summary) (num 0) = VNumber x7 ->
    page_one_rows summary qd ui = Normal rows ->
    let k := optional_rows summary in
    (exists (rb : string) (more : list string),
       rows
       = (rb :: more
          ++ [ fee_row (row_number (2 + k)) "Delivery"
                 (ToString (or (deliveryQty (f2 ui)) (num 1)))
                 (ToBoolean (deliveryFeeExcluded (f2 ui))) (toFixed x5 2);
               fee_row (row_number (3 + k)) "Installation"
                 (ToString (VNumber (validItemCount_of (items qd))))
                 (ToBoolean (installFeeExcluded (f2 ui))) (toFixed x6 2);
               fee_row (row_number (4 + k)) "Removal"
                 (ToString (or (removalQty (f2 ui)) (num 0)))
                 (ToBoolean (removalFeeExcluded (f2 ui))) (toFixed x7 2) ])%list
       /\ rollerBlinds_row (validItemCount_of (items qd)) summary = Normal rb
       /\ List.length more = k)
    /\ (ToBoolean (deliveryQty (f2 ui)) = false ->
        ToString (or (deliveryQty (f2 ui)) (num 1)) = "1")
    /\ (ToBoolean (removalQty (f2 ui)) = false ->
        ToString (or (removalQty (f2 ui)) (num 0)) = "0").
Proof.
  intros summary qd ui rows x5 x6 x7 H5 H6 H7 H k. split; [| split].
  - exact (page_one_rows_numbered summary qd ui rows x5 x6 x7 H5 H6 H7 H).
  - intros Hq. now rewrite quantity_default.
  - intros Hq. now rewrite quantity_default.
Qed.

(** Only the motorised accessories are charged: the fee rows are numbered
    3, 4 and 5. *)
Lemma page_one_fee_rows_witness :
  exists rb more,
    page_one_rows summary_x11 no_items blank_ui
    = Normal (rb :: more
              ++ [ fee_row "3" "Delivery" "1" false "50.00";
                   fee_row "4" "Installation" "0" false "20.00";
                   fee_row "5" "Removal" "0" false "0.00" ])%list.
Proof.
  destruct (page_one_rows_total summary_x11 no_items blank_ui summary_x11_figures)
    as (rows & Hrows).
  destruct (page_one_fee_rows summary_x11 no_items blank_ui rows
              (of_Z 50) (of_Z 20) (of_Z 0) eq_refl eq_refl eq_refl Hrows)
    as ((rb & more & Heq & _ & _) & _ & _).
  exists rb, more. rewrite Hrows, Heq. reflexivity.
Defined.

(* ===================================================================== *)
(** ** Optional fields of the template data *)
(* ===================================================================== *)

Lemma of_nat_0 : of_nat 0 = zero.
Proof. reflexivity. Qed.

Lemma formatPrice_mul_zero (x : float64) (s : bool) :
  formatPrice (VNumber (mul x (S754_zero s))) = EmptyString.
Proof. destruct x as [sx | sx | | sx m e]; reflexivity. Qed.

Lemma formatPrice_mul_NaN (x : float64) :
  formatPrice (VNumber (mul x NaN)) = EmptyString.
Proof. destruct x as [sx | sx | | sx m e]; reflexivity. Qed.

(** A count that is falsy once read: its quantity field is empty and so
    is the price computed from it. *)
Lemma falsy_count (p v : jsval) :
  ToBoolean v = false ->
  or (or v (num 0)) (VString EmptyString) = VString EmptyString
  /\ formatPrice (VNumber (times p (or v (num 0)))) = EmptyString.
Proof.
  intros Hv. rewrite (or_falsy _ _ Hv). split; [reflexivity |].
  unfold times. apply formatPrice_mul_zero.
Qed.

Lemma no_motor_filter (its : list item) :
  Forall (fun i => ToBoolean (motor i) = false) its ->
  List.filter (fun i => ToBoolean (motor i)) its = [].
Proof.
  induction 1 as [|i l Hi _ IH]; [reflexivity |].
  cbn [List.filter]. now rewrite Hi.
Qed.

(** X14.  The accessory fields of the template data are left empty, quantity
    and price, whenever there is nothing to count: no motorised item for
    the motor fields, a falsy charger or cord count for theirs.  The unit
    price the calculation service reports plays no part. *)
Theorem accessory_fields_empty :
  forall (this : service) (qd : quoteData) (ui : uiState) (f3 : f3Data)
         (data : gmap string jsval),
    _prepareTemplateData this qd ui f3 = Normal data ->
    (Forall (fun i => ToBoolean (motor i) = false) (items qd) ->
     data !! "motorQty" = Some (VString EmptyString)
     /\ data !! "motorPrice" = Some (VString EmptyString))
    /\ (ToBoolean (driveChargerCount ui) = false ->
        data !! "chargerQty" = Some (VString EmptyString)
        /\ data !! "chargerPrice" = Some (VString EmptyString))
    /\ (ToBoolean (driveCordCount ui) = false ->
        data !! "cord3mQty" = Some (VString EmptyString)
        /\ data !! "cord3mPrice" = Some (VString EmptyString)).
Proof.
  intros this qd ui f3 data H. unfold _prepareTemplateData in H.
  do 7 bind_inv H. apply Normal_inj in H. subst data.
  split; [| split].
  - intros Hm. rewrite (no_motor_filter _ Hm). cbn [List.length]. rewrite of_nat_0.
    split; [lookup_key |].
    assert (Hp : forall p, formatPrice (VNumber (times p (VNumber zero))) = EmptyString)
      by (intros p; apply formatPrice_mul_zero).
    rewrite Hp. lookup_key.
  - intros Hc.
    destruct (falsy_count (or (getAccessoryPrice (calc this) "chargerStandard") (num 0))
                _ Hc) as [Hq Hp].
    rewrite Hq, Hp. split; lookup_key.
  - intros Hc.
    destruct (falsy_count (or (getAccessoryPrice (calc this) "cord3m") (num 0))
                _ Hc) as [Hq Hp].
    rewrite Hq, Hp. split; lookup_key.
Qed.

Lemma accessory_fields_empty_witness :
  data_x11 !! "motorQty" = Some (VString EmptyString)
  /\ data_x11 !! "chargerPrice" = Some (VString EmptyString)
  /\ data_x11 !! "cord3mQty" = Some (VString EmptyString).
Proof.
  destruct (accessory_fields_empty service_no_body no_items blank_ui blank_f3 data_x11
              prepare_x11) as (Hm & Hc & Hd).
  split; [exact (proj1 (Hm ltac:(constructor))) |].
  split; [exact (proj2 (Hc eq_refl)) | exact (proj1 (Hd eq_refl))].
Defined.

(** X15.  With [remote_1ch_qty] set to [null], every remote is a 16-channel one:
    the 16-channel quantity is the total remote count (empty when that is
    falsy) and its price the unit price times that count, while the
    1-channel quantity and price are empty. *)
Theorem remotes_all_16ch_when_1ch_null :
  forall (this : service) (qd : quoteData) (ui : uiState) (f3 : f3Data)
         (data : gmap string jsval),
    _prepareTemplateData this qd ui f3 = Normal data ->
    remote_1ch_qty (f1 ui) = VNull ->
    let total := or (driveRemoteCount ui) (num 0) in
    let unit_price := or (getAccessoryPrice (calc this) "remoteStandard") (num 0) in
    data !! "remote16chQty" = Some (or total (VString EmptyString))
    /\ data !! "remote16chPrice"
       = Some (VString (formatPrice (VNumber (times unit_price total))))
    /\ data !! "remote1chQty" = Some (VString EmptyString)
    /\ data !! "remote1chPrice" = Some (VString EmptyString).
Proof.
  intros this qd ui f3 data H Hnull total unit_price. unfold _prepareTemplateData in H.
  do 7 bind_inv H. apply Normal_inj in H. subst data. rewrite Hnull.
  cbn [strict_eq]. cbv beta iota.
  split; [lookup_key |]. split; [lookup_key |]. split; [lookup_key |].
  assert (Hp : forall p, formatPrice (VNumber (times p VNull)) = EmptyString)
    by (intros p; apply formatPrice_mul_zero).
  rewrite Hp. lookup_key.
Qed.

Lemma remotes_all_16ch_when_1ch_null_witness :
  data_x11 !! "remote16chQty" = Some (VString EmptyString)
  /\ data_x11 !! "remote1chQty" = Some (VString EmptyString).
Proof.
  destruct (remotes_all_16ch_when_1ch_null service_no_body no_items blank_ui blank_f3
              data_x11 prepare_x11 eq_refl) as (H1 & _ & H3 & _).
  split; [exact H1 | exact H3].
Defined.

(** X16.  The free-text fields of the template data: absent notes give an empty
    [generalNotes], absent terms the standard clause, and a text given for
    either has its newlines turned into [<br>]; the document title is the
    truthy ones of quote id, customer name and phone, joined by spaces. *)
Theorem text_fields :
  forall (this : service) (qd : quoteData) (ui : uiState) (f3 : f3Data)
         (data : gmap string jsval),
    _prepareTemplateData this qd ui f3 = Normal data ->
    (ToBoolean (generalNotes f3) = false ->
     data !! "generalNotes" = Some (VString EmptyString))
    /\ (ToBoolean (termsConditions f3) = false ->
        data !! "termsAndConditions"
        = Some (VString "Standard terms and conditions apply."))
    /\ (forall s, generalNotes f3 = VString s ->
          data !! "generalNotes" = Some (VString (nl_to_br s)))
    /\ (forall s, termsConditions f3 = VString s -> s <> EmptyString ->
          data !! "termsAndConditions" = Some (VString (nl_to_br s)))
    /\ data !! "documentTitle"
       = Some (VString (join " " (List.map ToString
                 (List.filter ToBoolean [quoteId f3; customerName f3; customerPhone f3])))).
Proof.
  intros this qd ui f3 data H. unfold _prepareTemplateData in H.
  do 7 bind_inv H. apply Normal_inj in H. subst data.
  rename E3 into Hnotes, E4 into Hterms.
  split; [| split; [| split; [| split]]].
  - intros Hf. rewrite (or_falsy _ _ Hf) in Hnotes. apply Normal_inj in Hnotes.
    subst. lookup_key.
  - intros Hf. rewrite (or_falsy _ _ Hf) in Hterms. apply Normal_inj in Hterms.
    subst. lookup_key.
  - intros s Hs. rewrite Hs in Hnotes. destruct s as [|c s].
    + apply Normal_inj in Hnotes. subst. lookup_key.
    + cbn [or ToBoolean is_empty negb call_replace_newlines] in Hnotes.
      apply Normal_inj in Hnotes. subst.
      rewrite replace_newlines_is_nl_to_br. lookup_key.
  - intros s Hs Hne. rewrite Hs in Hterms. destruct s as [|c s]; [now elim Hne |].
    cbn [or ToBoolean is_empty negb call_replace_newlines] in Hterms.
    apply Normal_inj in Hterms. subst.
    rewrite replace_newlines_is_nl_to_br. lookup_key.
  - unfold documentTitleParts. lookup_key.
Qed.

Lemma text_fields_witness :
  data_x11 !! "generalNotes" = Some (VString EmptyString)
  /\ data_x11 !! "termsAndConditions"
     = Some (VString "Standard terms and conditions apply.").
Proof.
  destruct (text_fields service_no_body no_items blank_ui blank_f3 data_x11 prepare_x11)
    as (H1 & H2 & _).
  split; [exact (H1 eq_refl) | exact (H2 eq_refl)].
Defined.

(* ===================================================================== *)
(** ** Amounts below half a cent *)
(* ===================================================================== *)

Lemma fixed_digits_0_2 : fixed_digits 0 2 = "0.00".
Proof. reflexivity. Qed.

(** X17.  A positive amount below half a cent is formatted as [$0.00] by
    [formatPrice]: only an amount that is exactly zero (or not positive)
    is left out. *)
Theorem formatPrice_below_half_cent :
  forall (m : positive) (e : Z),
    (200 * fst (ratio m e) < snd (ratio m e))%Z ->
    formatPrice (VNumber (S754_finite false m e)) = "$0.00".
Proof.
  intros m e Hlt. destruct (ratio_positive m e) as [Hn Hd].
  unfold formatPrice, gt_number, ToNumber. cbn [ltb zero SFltb SFcompare].
  change (toFixed (S754_finite false m e) 2)
    with (EmptyString ++ (if ge_1e21 m e then toString_pos m e
                          else fixed_digits (round_scaled m e 2) 2)).
  assert (Hge : ge_1e21 m e = false).
  { unfold ge_1e21. destruct (ratio m e) as [n d]. cbn [fst snd] in *.
    apply Z.leb_gt. change (10 ^ 21)%Z with 1000000000000000000000%Z. lia. }
  assert (Hr : round_scaled m e 2 = 0%N).
  { unfold round_scaled. destruct (ratio m e) as [n d]. cbn [fst snd] in *.
    change (10 ^ Z.of_nat 2)%Z with 100%Z.
    rewrite Z.div_small by lia. reflexivity. }
  rewrite Hge, Hr, fixed_digits_0_2. reflexivity.
Qed.

(** 0.004 (the double nearest to it) is shown as [$0.00]. *)
Lemma formatPrice_below_half_cent_witness :
  formatPrice (decimal 4 (-3)) = "$0.00".
Proof.
  exact (formatPrice_below_half_cent 4611686018427388 (-60) ltac:(vm_compute; reflexivity)).
Defined.

(* ===================================================================== *)
(** ** The revised detail table *)
(* ===================================================================== *)

Lemma map_indexed_out {A B : Type} (f : A -> nat -> completion B) (l : list A) :
  forall (start : nat) (out : list B),
    map_indexed f l start = Normal out ->
    forall (k : nat) (b : B),
      nth_error out k = Some b ->
      exists a, nth_error l k = Some a /\ f a (start + k)%nat = Normal b.
Proof.
  induction l as [|x l IH]; intros start out H k b Hk.
  - apply Normal_inj in H. subst out. destruct k; discriminate Hk.
  - cbn [map_indexed] in H. bind_inv H. bind_inv H. apply Normal_inj in H. subst out.
    destruct k as [|k].
    + injection Hk as <-. exists x. split; [reflexivity |]. now rewrite Nat.add_0_r.
    + cbn [nth_error] in Hk. destruct (IH _ _ E0 k b Hk) as (a' & Ha & Hf).
      exists a'. split; [exact Ha |]. now rewrite Nat.add_succ_r.
Qed.

Lemma mul_NaN (x : float64) : mul x NaN = NaN.
Proof. destruct x as [s | s | | s m e]; reflexivity. Qed.

Lemma item_row_price (m : jsval) (i : item) (index : nat) (row : string) :
  item_row m i index = Normal row ->
  ends_with_price ("$" ++ toFixed (times (or (linePrice i) (num 0)) m) 2) row.
Proof.
  unfold item_row. intros H. bind_inv H. apply Normal_inj in H. subst row.
  unfold ends_with_price.
  exists ("<tr>"
          ++ cell "#" (VNumber (add (of_nat index) (of_Z 1))) "text-center"
          ++ cell "F-NAME" (or (fabric i) (VString EmptyString)) a
          ++ cell "F-COLOR" (or (color i) (VString EmptyString)) a
          ++ cell "Location" (or (location i) (VString EmptyString)) EmptyString
          ++ cell "HD" (VString (if strict_eq (winder i) (VString "HD")
                                 then check_mark else EmptyString)) "text-center"
          ++ cell "Dual" (VString (if strict_eq (dual i) (VString "D")
                                   then check_mark else EmptyString)) "text-center"
          ++ cell "Motor" (VString (if ToBoolean (motor i)
                                    then check_mark else EmptyString)) "text-center").
  cbn [join]. rewrite !sapp_assoc. reflexivity.
Qed.

(** X18.  The revised detail table is the original one whenever the summary's
    multiplier is truthy and handed over unchanged.  The two differ where
    the original falls back to 1: with the multiplier absent, every row
    of the revised table ends in the price [$NaN], while every row of the
    original shows the line price itself. *)
Theorem revised_detail_table :
  forall (its : list item) (summary : summaryData),
    (ToBoolean (mulTimes summary) = true ->
     Revised._generateItemsTableHtml its (mulTimes summary)
     = _generateItemsTableHtml its summary)
    /\ (mulTimes summary = VUndefined ->
        (forall rows, Revised.detail_rows its VUndefined = Normal rows ->
           Forall (ends_with_price "$NaN") rows)
        /\ (forall rows k row i,
              detail_rows its summary = Normal rows ->
              nth_error rows k = Some row ->
              nth_error (List.filter is_valid its) k = Some i ->
              ends_with_price
                ("$" ++ toFixed (times (or (linePrice i) (num 0)) (num 1)) 2) row)).
Proof.
  intros its summary. split.
  - intros Ht. unfold Revised._generateItemsTableHtml, _generateItemsTableHtml,
      Revised.detail_rows, detail_rows.
    now rewrite (or_truthy _ (num 1) Ht).
  - intros Hu. split.
    + intros rows H. apply List.Forall_forall. intros row Hin.
      apply In_nth_error in Hin as (k & Hk).
      destruct (map_indexed_out _ _ _ _ H k row Hk) as (i & _ & Hrow).
      apply item_row_price in Hrow. unfold times in Hrow.
      cbn [ToNumber] in Hrow. now rewrite mul_NaN in Hrow.
    + intros rows k row i H Hk Hi. unfold detail_rows in H. rewrite Hu in H.
      destruct (map_indexed_nth _ _ _ _ H k i Hi) as (row' & Hk' & Hrow).
      rewrite Hk in Hk'. injection Hk' as <-.
      now apply item_row_price in Hrow.
Qed.

(** Under a multiplier of 1.1 both revisions give the same table; without
    a multiplier the revised row of a 50-dollar item ends in [$NaN]. *)
Lemma revised_detail_table_witness :
  Revised._generateItemsTableHtml [item_100x100] (decimal 11 (-1))
  = _generateItemsTableHtml [item_100x100] summary_x11
  /\ forall rows,
       Revised.detail_rows [item_100x100] VUndefined = Normal rows ->
       Forall (ends_with_price "$NaN") rows.
Proof.
  split.
  - exact (proj1 (revised_detail_table [item_100x100] summary_x11) eq_refl).
  - exact (proj1 (proj2 (revised_detail_table [item_100x100] summary_without_multiplier)
                    eq_refl)).
Defined.

(* ===================================================================== *)
(** ** Populating twice *)
(* ===================================================================== *)

Lemma populate_around_token (data : gmap string jsval) (a b k : string) (o c : bool) :
  data !! "hasOwnProperty" = None ->
  plain a = true -> plain b = true -> starts_with "}" b = false -> is_key k = true ->
  _populateTemplate (a ++ render (Token o k c) ++ b) data
  = Normal (a ++ substitute data (Token o k c) ++ b).
Proof.
  intros Hown Ha Hb Hs Hk.
  assert (Hwf : well_formed [Text a; Token o k c; Text b] = true).
  { cbn [well_formed]. unfold render_all. cbn [List.map Str.concat render].
    rewrite sapp_nil_r, Ha, Hb, Hk, Hs. now destruct c. }
  pose proof (populate_well_formed (arrow data) _ Hwf) as H.
  rewrite (substitute_with_callback data (arrow data) (arrow_own data Hown)) in H.
  unfold render_all in H. cbn [List.map Str.concat] in H.
  cbn [render] in H. rewrite !sapp_nil_r in H. cbn [render].
  rewrite populate_unfold. exact H.
Qed.

(** X19.  One pass of [_populateTemplate] does not look into the text it
    inserts: a value that is itself a placeholder comes out as that
    placeholder.  [generateQuoteHtml] populates the detail page and then
    the merged document again, so in the detail body such a value is
    resolved by the second pass.  (The mapping has no own entry named
    [hasOwnProperty], as is the case in a render.) *)
Theorem inserted_placeholders_wait_for_second_pass :
  forall (data : gmap string jsval) (a b k1 k2 : string) (o c : bool) (v : jsval),
    data !! "hasOwnProperty" = None ->
    plain a = true -> plain b = true -> starts_with "}" b = false ->
    is_key k1 = true -> is_key k2 = true ->
    data !! k1 = Some (VString (render (Token o k2 c))) ->
    data !! k2 = Some v ->
    let template := a ++ "{{" ++ k1 ++ "}}" ++ b in
    _populateTemplate template data = Normal (a ++ render (Token o k2 c) ++ b)
    /\ (let! once := _populateTemplate template data in _populateTemplate once data)
       = Normal (a ++ ToString v ++ b).
Proof.
  intros data a b k1 k2 o c v Hown Ha Hb Hs Hk1 Hk2 H1 H2 template.
  assert (Honce : _populateTemplate template data
                  = Normal (a ++ render (Token o k2 c) ++ b)).
  { unfold template.
    assert (Hr : "{{" ++ k1 ++ "}}" ++ b = render (Token false k1 false) ++ b)
      by (cbn [render]; rewrite !sapp_assoc; reflexivity).
    rewrite Hr.
    rewrite (populate_around_token data a b k1 false false Hown Ha Hb Hs Hk1).
    cbn [substitute]. now rewrite H1. }
  split; [exact Honce |]. rewrite Honce. cbn [bind].
  rewrite (populate_around_token data a b k2 o c Hown Ha Hb Hs Hk2).
  cbn [substitute]. now rewrite H2.
Qed.

(** A customer name [{{grandTotal}}] is printed as it is by one pass and
    as the grand total by the second. *)
Lemma inserted_placeholders_wait_for_second_pass_witness :
  _populateTemplate "<p>{{name}}</p>" nested_data = Normal "<p>{{grandTotal}}</p>"
  /\ (let! once := _populateTemplate "<p>{{name}}</p>" nested_data in
      _populateTemplate once nested_data)
     = Normal "<p>$110.00</p>".
Proof.
  exact (inserted_placeholders_wait_for_second_pass nested_data "<p>" "</p>"
           "name" "grandTotal" false false (VString "$110.00")
           eq_refl eq_refl eq_refl eq_refl eq_refl eq_refl eq_refl eq_refl).
Defined.

(* ===================================================================== *)
(** ** Splicing the style block *)
(* ===================================================================== *)

Lemma prepare_x11_with_style :
  _prepareTemplateData service_with_style no_items blank_ui blank_f3 = Normal data_x11.
Proof. vm_cast_no_check (eq_refl (Normal data_x11)). Qed.

(** X20.  With both templates loaded, the template data prepared and a body
    match in the populated detail page: when that page also has a style
    match, the render succeeds and the fragment put before the first
    [</head>] of the summary template is the whole style match, tags
    included. *)
Theorem style_block_is_spliced_whole :
  forall (this : service) (qd : quoteData) (ui : uiState) (f3 : f3Data)
         (data : gmap string jsval) (whole body style inner : string),
    quoteTemplate this <> EmptyString ->
    detailsTemplate this <> EmptyString ->
    _prepareTemplateData this qd ui f3 = Normal data ->
    let details := populated (detailsTemplate this) data in
    match_ body_pattern details = Some (whole, body) ->
    match_ style_pattern details = Some (style, inner) ->
    generateQuoteHtml this qd ui f3 = Normal (Some (merged this data style body))
    /\ (forall h t : string,
          quoteTemplate this = h ++ "</head>" ++ t ->
          (forall b a, quoteTemplate this = b ++ "</head>" ++ a ->
                       (String.length h <= String.length b)%nat) ->
          dollar_safe (style ++ "</head>") = true ->
          replace_first "</head>" (style ++ "</head>") (quoteTemplate this)
          = h ++ style ++ "</head>" ++ t).
Proof.
  intros this qd ui f3 data whole body style inner Hq Hd Hdata details Hbody Hstyle.
  pose proof (prepared_keys this qd ui f3 data Hdata) as Hown.
  split.
  - unfold generateQuoteHtml.
    rewrite (not_empty_is_empty _ Hq), (not_empty_is_empty _ Hd), Hdata.
    cbn [orb bind]. unfold assemble.
    rewrite (populate_Normal _ data Hown). cbn [bind]. fold details.
    rewrite Hbody, Hstyle. rewrite (populate_Normal _ data Hown). reflexivity.
  - intros h t Hs Hmin Hsafe. unfold replace_first.
    rewrite (split_first_is_first "</head>" _ h t Hs Hmin).
    rewrite (substitution_safe _ _ _ _ Hsafe). now rewrite sapp_assoc.
Qed.

(** One style block, written in capitals, in the detail template. *)
Lemma style_block_is_spliced_whole_witness :
  generateQuoteHtml service_with_style no_items blank_ui blank_f3
  = Normal (Some ("<html><head><title>Quote</title><STYLE>td { padding: 4px }</style></head><body>"
                  ++ actionBarHtml_text ++ "$110.00$20.00" ++ scriptHtml_text
                  ++ "</body></html>")).
Proof.
  assert (Hq : forall (a : ascii) (b : string), String a b <> EmptyString)
    by (intros a b H; discriminate H).
  assert (Hb : match_ body_pattern (populated (detailsTemplate service_with_style) data_x11)
               = Some ("<body>$20.00</body>", "$20.00"))
    by (vm_compute; reflexivity).
  assert (Hs : match_ style_pattern (populated (detailsTemplate service_with_style) data_x11)
               = Some ("<STYLE>td { padding: 4px }</style>", "td { padding: 4px }"))
    by (vm_compute; reflexivity).
  rewrite (proj1 (style_block_is_spliced_whole
                    service_with_style no_items blank_ui blank_f3 data_x11 _ _ _ _
                    (Hq _ _) (Hq _ _) prepare_x11_with_style Hb Hs)).
  vm_compute. reflexivity.
Defined.
